(** * Schema inference, validation and alignment of an uploaded table

    A shallow embedding of [app/utils/io.py]:
    [detect_column_types], [validate_dataframe],
    [check_high_cardinality_and_identifiers] and [preprocess_dataset].

    The functions are written against pandas and scikit-learn.  The part of
    those libraries the code calls is modelled in the first half of the file
    (module-free, one definition per library call, named after the call):

    - a cell is a number, a string or missing ([NaN]); a number is a
      rational, and [float64] rounds a rational to the nearest number of 53
      significant bits, as the conversion of the mean imputer does;
    - a column carries its storage dtype: numeric, object or categorical;
      [is_string_dtype] follows pandas 2: an object column is of string dtype
      exactly when every element is a string (a missing cell is not one);
    - what the libraries compute outside of this model is a parameter of the
      development, and the theorems hold for every choice of it: the
      text-to-number parser of [pd.to_numeric] / [numpy], the text printed
      for a numeric category by [pd.get_dummies] (it depends on how the
      column stores the number), the float64 mean numpy computes, the
      outcome of [min] on a string and a number (it depends on the version
      of scikit-learn), Python's [repr] of a label, and the text numpy gives
      for a string that does not convert;
    - the labels of a table are distinct, as [pd.read_csv] makes them; a
      derived frame (the encoded table) can carry a label more than once,
      and selecting by label then returns every column that carries it;
    - a [DataFrame] is mutable and passed by reference: effectful code runs
      in a state-and-exception monad over a [World] that holds the frame and
      the [artifacts/] directory, and a raised exception keeps the state
      reached so far. *)

From Stdlib Require Import String Ascii DecimalString Bool Arith ZArith QArith Qround Qpower Lia Permutation List.
Import ListNotations.
Close Scope Q_scope.
Open Scope string_scope.
Open Scope nat_scope.
Open Scope list_scope.

Set Implicit Arguments.

(* ================================================================== *)
(** * Data model *)

(** A non-missing cell value. *)
Inductive value : Type :=
| VNum (q : Q)
| VStr (s : string).

(** A cell; [None] is a missing value ([NaN]). *)
Definition cell : Type := option value.

(** Storage dtype of a column (pandas [Series.dtype]). *)
Inductive dtype : Type :=
| DNumeric      (* int64 / float64 *)
| DObject       (* object: any Python values *)
| DCategorical. (* pandas Categorical *)

Record column : Type := mkColumn {
  col_name : string;
  col_dtype : dtype;
  col_cells : list cell
}.

(** [df.shape[0]] is kept apart from the columns: a frame without columns
    still has an index. *)
Record DataFrame : Type := mkDataFrame {
  df_nrows : nat;
  df_cols : list column
}.

(** [df.columns] *)
Definition columns (df : DataFrame) : list string :=
  map col_name (df_cols df).

(** [df.shape[1]] *)
Definition df_ncols (df : DataFrame) : nat := length (df_cols df).

Definition is_num_cell (c : cell) : bool :=
  match c with Some (VStr _) => false | _ => true end.

Definition is_str_cell (c : cell) : bool :=
  match c with Some (VStr _) => true | _ => false end.

Definition dtype_eqb (a b : dtype) : bool :=
  match a, b with
  | DNumeric, DNumeric | DObject, DObject | DCategorical, DCategorical => true
  | _, _ => false
  end.

(** A column is well typed when it has one cell per row and, if its dtype is
    numeric, holds no string. *)
Definition wf_column (n : nat) (c : column) : bool :=
  (length (col_cells c) =? n) &&
  (if dtype_eqb (col_dtype c) DNumeric then forallb is_num_cell (col_cells c) else true).

Fixpoint distinct_names (l : list string) : bool :=
  match l with
  | [] => true
  | x :: r => negb (existsb (String.eqb x) r) && distinct_names r
  end.

(** The invariant of a table: distinct column labels (what [pd.read_csv]
    produces), all columns of the frame's row count, well typed. *)
Definition wf_table (df : DataFrame) : bool :=
  distinct_names (columns df) && forallb (wf_column (df_nrows df)) (df_cols df).

(* ================================================================== *)
(** * pandas: values, distinct counts, dtype tests *)

Definition Q_eq_dec (p q : Q) : {p = q} + {p <> q}.
Proof. decide equality; [apply Pos.eq_dec | apply Z.eq_dec]. Defined.

Definition value_eq_dec (a b : value) : {a = b} + {a <> b}.
Proof. decide equality; [apply Q_eq_dec | apply string_dec]. Defined.

(** Two numbers are the same value when they are equal as rationals: values
    are compared on their reduced form. *)
Definition canon (v : value) : value :=
  match v with
  | VNum q => VNum (Qred q)
  | VStr s => VStr s
  end.

(** [series.dropna()], on reduced values *)
Fixpoint dropna (cells : list cell) : list value :=
  match cells with
  | [] => []
  | None :: r => dropna r
  | Some v :: r => canon v :: dropna r
  end.

(** [series.unique()] without the missing value *)
Definition unique (cells : list cell) : list value :=
  nodup value_eq_dec (dropna cells).

(** [series.nunique()]: the number of distinct non-missing values *)
Definition nunique (cells : list cell) : nat := length (unique cells).

(** [series.isnull()] on one cell *)
Definition isnull (c : cell) : bool :=
  match c with None => true | Some _ => false end.

Definition notnull (c : cell) : bool := negb (isnull c).

(** [series.isnull().sum()] *)
Definition count_null (cells : list cell) : nat :=
  length (filter isnull cells).

Definition is_numeric_dtype (c : column) : bool := dtype_eqb (col_dtype c) DNumeric.

(** pandas 2: an object column is of string dtype when all its elements are
    strings. *)
Definition is_string_dtype (c : column) : bool :=
  dtype_eqb (col_dtype c) DObject && forallb is_str_cell (col_cells c).

Definition is_categorical_dtype (c : column) : bool := dtype_eqb (col_dtype c) DCategorical.

Definition Qltb (p q : Q) : bool :=
  match Qcompare p q with Lt => true | _ => false end.

(* ================================================================== *)
(** * numpy: float64 *)

(** The whole number nearest to [q]; the even one when two are as near. *)
Definition round_half_even (q : Q) : Z :=
  let f := Qfloor q in
  match Qcompare (q - inject_Z f)%Q (1 # 2) with
  | Lt => f
  | Gt => (f + 1)%Z
  | Eq => if Z.even f then f else (f + 1)%Z
  end.

(** The exponent [e] with [2^e <= q < 2^(e+1)], for a positive [q]. *)
Definition binade (q : Q) : Z :=
  let e := (Z.log2 (Qnum q) - Z.log2 (Zpos (Qden q)))%Z in
  if Qle_bool (2 ^ e)%Q q then e else (e - 1)%Z.

(** A positive [q] rounded to 53 significant bits, ties to even. *)
Definition round_53 (q : Q) : Q :=
  let k := (binade q - 52)%Z in
  (inject_Z (round_half_even (q * 2 ^ (- k))) * 2 ^ k)%Q.

(** The float64 nearest to [q], as a reduced fraction.  The exponent is not
    bounded: an int64 and a float64 are both within the range of float64,
    so the conversion of a column of numbers never overflows. *)
Definition float64 (q : Q) : Q :=
  match Qcompare q 0 with
  | Eq => 0
  | Gt => Qred (round_53 q)
  | Lt => Qred (- round_53 (- q))
  end.

(** The non-missing numbers of a float column. *)
Fixpoint numbers (cells : list cell) : list Q :=
  match cells with
  | [] => []
  | Some (VNum q) :: r => q :: numbers r
  | _ :: r => numbers r
  end.

Definition Qsum (l : list Q) : Q := fold_right Qplus (0 # 1)%Q l.

(** [astype(float64)] on a cell that holds no text. *)
Definition float_cell (c : cell) : cell :=
  match c with
  | Some (VNum q) => Some (VNum (float64 q))
  | _ => c
  end.

(** A number that float64 represents. *)
Definition is_float64 (q : Q) : bool := Qeq_bool (float64 q) q.

(* ================================================================== *)
(** * Exceptions and the mutable world *)

Inductive exc_kind : Type := ValueError | TypeError | KeyError | OSError.

Record exception : Type := mkException {
  exc_type : exc_kind;
  exc_msg : string    (* [str(e)] *)
}.

Inductive result (A : Type) : Type :=
| Ok (a : A)
| Raise (e : exception).

Arguments Ok {A} a.
Arguments Raise {A} e.

(** What the two entry points can touch: the frame they are handed (by
    reference), and the [artifacts/] directory with the file written there. *)
Record World : Type := mkWorld {
  frame : DataFrame;
  artifacts_dir : bool;
  X_processed : option DataFrame
}.

(** A computation reads and updates the world and returns or raises; the
    world reached when an exception is raised is kept. *)
Definition M (A : Type) : Type := World -> result A * World.

Definition ret {A} (a : A) : M A := fun w => (Ok a, w).

Definition bind {A B} (m : M A) (k : A -> M B) : M B :=
  fun w =>
    match m w with
    | (Ok a, w') => k a w'
    | (Raise e, w') => (Raise e, w')
    end.

Definition raise {A} (k : exc_kind) (msg : string) : M A :=
  fun w => (Raise (mkException k msg), w).

(** [try: m  except Exception as e: handler e] *)
Definition try_except {A} (m : M A) (handler : exception -> M A) : M A :=
  fun w =>
    match m w with
    | (Ok a, w') => (Ok a, w')
    | (Raise e, w') => handler e w'
    end.

(** A library call that does not touch the world. *)
Definition lift {A} (r : result A) : M A := fun w => (r, w).

Definition get_frame : M DataFrame := fun w => (Ok (frame w), w).

Definition put_frame (df : DataFrame) : M unit :=
  fun w => (Ok tt, {| frame := df; artifacts_dir := artifacts_dir w;
                      X_processed := X_processed w |}).

Notation "x <- m ;; k" := (bind m (fun x => k))
  (at level 61, m at next level, right associativity).
Notation "m ;;; k" := (bind m (fun _ => k))
  (at level 61, right associativity).

(** Binding inside a pure library call. *)
Definition rbind {A B} (r : result A) (k : A -> result B) : result B :=
  match r with
  | Ok a => k a
  | Raise e => Raise e
  end.

(* ================================================================== *)
(** * pandas: selecting and assigning columns *)

Definition mem (x : string) (l : list string) : bool := existsb (String.eqb x) l.

(** All the columns labelled [key], in frame order. *)
Definition lookup (cols : list column) (key : string) : list column :=
  filter (fun c => String.eqb (col_name c) key) cols.

(** [df[keys]] for a list of labels: the columns labelled by each key in
    turn (every column carrying the label, when a label is repeated in the
    frame); a label the frame does not have raises [KeyError]. *)
Fixpoint getitem_list (cols : list column) (keys : list string) : result (list column) :=
  match keys with
  | [] => Ok []
  | key :: rest =>
      match lookup cols key with
      | [] => Raise (mkException KeyError ("['" ++ key ++ "'] not in index")%string)
      | found => rbind (getitem_list cols rest) (fun more => Ok (found ++ more))
      end
  end.

(** [df[key] = cells]: overwrite the column labelled [key] where it stands,
    or add it as the last column. *)
Definition setitem (cols : list column) (key : string) (dt : dtype) (cells : list cell)
  : list column :=
  if mem key (map col_name cols) then
    map (fun c => if String.eqb (col_name c) key then mkColumn key dt cells else c) cols
  else cols ++ [mkColumn key dt cells].

(** A two-dimensional numpy array, stored by column. *)
Record ndarray : Type := mkArray {
  arr_dtype : dtype;
  arr_cols : list (list cell)
}.

Fixpoint setitem_each (cols : list column) (keys : list string) (dt : dtype)
         (data : list (list cell)) : list column :=
  match keys, data with
  | key :: keys', cells :: data' => setitem_each (setitem cols key dt cells) keys' dt data'
  | _, _ => cols
  end.

(** [df[keys] = array] *)
Definition setitem_list (df : DataFrame) (keys : list string) (a : ndarray) : result DataFrame :=
  if length keys =? length (arr_cols a) then
    Ok {| df_nrows := df_nrows df;
          df_cols := setitem_each (df_cols df) keys (arr_dtype a) (arr_cols a) |}
  else Raise (mkException ValueError "Columns must be same length as key").

(* ================================================================== *)
(** * Python strings: [lower], [in], [repr] of a list *)

(** [str.lower] on one character.  Labels are UTF-8 byte strings; only the
    ASCII letters change, which is all the ASCII keywords below can see. *)
Definition lower_char (a : ascii) : ascii :=
  let n := nat_of_ascii a in
  if (65 <=? n) && (n <=? 90) then ascii_of_nat (n + 32) else a.

Fixpoint lower (s : string) : string :=
  match s with
  | EmptyString => EmptyString
  | String a r => String (lower_char a) (lower r)
  end.

(** [keyword in s] *)
Fixpoint contains (s keyword : string) : bool :=
  String.prefix keyword s ||
  match s with
  | EmptyString => false
  | String _ r => contains r keyword
  end.

(** The text of a list of labels inside an f-string: [repr] of each label,
    separated by a comma and a space, between brackets. *)
Definition repr_list (repr : string -> string) (l : list string) : string :=
  ("[" ++ String.concat ", " (map repr l) ++ "]")%string.

(** The line feed. *)
Definition newline : string := String (ascii_of_nat 10) EmptyString.

(** A natural number in decimal notation. *)
Definition str_of_nat (n : nat) : string := NilZero.string_of_uint (Nat.to_uint n).

(* ================================================================== *)
(** * Instances of the parameters and sample tables *)

(** A parser of whole numbers in decimal notation. *)
Definition parse_decimal (s : string) : option Q :=
  option_map (fun d => inject_Z (Z.of_int d)) (NilZero.int_of_string s).

(** A whole number prints as Python prints a float, whatever the column;
    another rational as numerator and denominator. *)
Definition print_number (col : string) (q : Q) : string :=
  match Qden q with
  | xH => (NilZero.string_of_int (Z.to_int (Qnum q)) ++ ".0")%string
  | d => (NilZero.string_of_int (Z.to_int (Qnum q)) ++ "/"
          ++ NilZero.string_of_int (Z.to_int (Zpos d)))%string
  end.

(** The exact mean of the observed numbers.  In the sample tables where a
    mean is filled in, every sum of cells is a whole number below 2^53, so
    whatever the order in which numpy adds them, its float64 mean is this
    mean rounded once. *)
Definition exact_mean (cells : list cell) : Q :=
  Qdiv (Qsum (numbers cells)) (inject_Z (Z.of_nat (length (numbers cells)))).

(** The name of the type of a value inside an object array read from a
    file. *)
Definition type_name (v : value) : string :=
  match v with VNum _ => "float" | VStr _ => "str" end.

(** [min] on strings and numbers as in scikit-learn up to 1.5: the
    comparison of the first value of another type than the first one with
    the minimum so far, which is of the type of the first one, raises. *)
Definition min_raises (tied : list value) : result value :=
  match tied with
  | [] => Raise (mkException ValueError "min() arg is an empty sequence")
  | v :: rest =>
      let other := match v with VNum _ => "str" | VStr _ => "float" end in
      Raise (mkException TypeError
               ("'<' not supported between instances of '" ++ other ++ "' and '"
                ++ type_name v ++ "'")%string)
  end.

Definition double_quote : ascii := ascii_of_nat 34.
Definition backslash : ascii := ascii_of_nat 92.

Definition hex_digit (n : nat) : ascii :=
  if n <? 10 then ascii_of_nat (48 + n) else ascii_of_nat (87 + n).

(** One character inside [repr] of a label quoted with [quote]. *)
Definition repr_char (quote : ascii) (a : ascii) : string :=
  let n := nat_of_ascii a in
  if Ascii.eqb a quote || Ascii.eqb a backslash then String backslash (String a EmptyString)
  else if n =? 9 then String backslash "t"
  else if n =? 10 then String backslash "n"
  else if n =? 13 then String backslash "r"
  else if (n <? 32) || (n =? 127) then
    String backslash (String "x" (String (hex_digit (n / 16))
                                         (String (hex_digit (n mod 16)) EmptyString)))
  else String a EmptyString.

Fixpoint has_char (a : ascii) (s : string) : bool :=
  match s with
  | EmptyString => false
  | String b r => Ascii.eqb a b || has_char a r
  end.

(** Python's [repr] of a label of ASCII characters: apostrophes around it,
    double quotes when it holds an apostrophe and no double quote; the
    quote and the backslash escaped, control characters in their escaped
    form.  The bytes of a character beyond ASCII are copied, which is
    [repr] of a printable character. *)
Definition repr_ascii (s : string) : string :=
  let quote := if has_char "'" s && negb (has_char double_quote s)
               then double_quote else "'"%char in
  (String quote (String.concat "" (map (repr_char quote) (list_ascii_of_string s)))
   ++ String quote EmptyString)%string.

Definition num (n : nat) : cell := Some (VNum (inject_Z (Z.of_nat n))).
Definition str (s : string) : cell := Some (VStr s).

(** The cells [start, start+1, ..., start+len-1]. *)
Definition count_up (start len : nat) : list cell := map num (seq start len).

(** The same from a whole number that can be large. *)
Definition count_from (start : Z) (len : nat) : list cell :=
  map (fun i => Some (VNum (inject_Z (start + Z.of_nat i)))) (seq 0 len).

(** [len] cells going round the values of [vals]. *)
Definition cycle (vals : list cell) (len : nat) : list cell :=
  map (fun i => nth (i mod length vals) vals None) (seq 0 len).

Definition world_of (df : DataFrame) : World :=
  {| frame := df; artifacts_dir := true; X_processed := None |}.

(** [age] is numeric with 16 distinct values, [city] is text with the
    observed values A and C. *)
Definition city_table : DataFrame :=
  {| df_nrows := 16;
     df_cols := [ mkColumn "age" DNumeric (count_up 20 16);
                  mkColumn "city" DObject (cycle [str "A"; str "C"] 16) ] |}.

Definition city_schema : list string := ["age"; "city_A"; "city_B"].

(** A table with a text column [city] and a numeric column already named
    [city_A]. *)
Definition clash_table : DataFrame :=
  {| df_nrows := 16;
     df_cols := [ mkColumn "city" DObject (cycle [str "A"; str "C"] 16);
                  mkColumn "city_A" DNumeric (count_up 100 16) ] |}.

(** An object column [code] holding 16 distinct numbers and 4 missing
    cells, next to a numeric and a text column. *)
Definition code_table : DataFrame :=
  {| df_nrows := 20;
     df_cols := [ mkColumn "age" DNumeric (count_up 20 20);
                  mkColumn "code" DObject (count_up 1 16 ++ repeat None 4);
                  mkColumn "city" DObject (cycle [str "A"; str "C"] 20) ] |}.

(** Text only, nothing missing. *)
Definition text_table : DataFrame :=
  {| df_nrows := 10;
     df_cols := [ mkColumn "first" DObject (cycle [str "x"; str "y"; str "z"] 10);
                  mkColumn "second" DObject (cycle [str "u"; str "v"] 10) ] |}.

(** Numeric only, more than 15 distinct values in each column. *)
Definition number_table : DataFrame :=
  {| df_nrows := 16;
     df_cols := [ mkColumn "height" DNumeric (count_up 150 16);
                  mkColumn "weight" DNumeric (count_up 50 16) ] |}.

(** Nine rows, one column. *)
Definition tiny_table : DataFrame :=
  {| df_nrows := 9; df_cols := [ mkColumn "x" DNumeric (count_up 0 9) ] |}.

(** Nine rows and two columns, and the same table with a tenth row. *)
Definition nine_rows : DataFrame :=
  {| df_nrows := 9;
     df_cols := [ mkColumn "x" DNumeric (count_up 0 9);
                  mkColumn "y" DObject (cycle [str "a"; str "b"] 9) ] |}.

Definition ten_rows : DataFrame :=
  {| df_nrows := 10;
     df_cols := [ mkColumn "x" DNumeric (count_up 0 10);
                  mkColumn "y" DObject (cycle [str "a"; str "b"] 10) ] |}.


(** 100 rows: two high-cardinality columns and a flag with two values. *)
Definition customers : DataFrame :=
  {| df_nrows := 100;
     df_cols := [ mkColumn "customer_id" DNumeric (count_up 1000 100);
                  mkColumn "transaction_amount" DNumeric (count_up 5 100);
                  mkColumn "churned" DNumeric (cycle [num 0; num 1] 100) ] |}.

(** 20 rows with missing cells: [age] has 16 distinct numbers and 4 missing
    cells, [city] has the values A and C and one missing cell. *)
Definition survey_table : DataFrame :=
  {| df_nrows := 20;
     df_cols := [ mkColumn "age" DNumeric (count_up 20 16 ++ repeat None 4);
                  mkColumn "city" DObject (None :: cycle [str "A"; str "C"] 19) ] |}.

(** A column [notes] without any observed value. *)
Definition blank_table : DataFrame :=
  {| df_nrows := 16;
     df_cols := [ mkColumn "age" DNumeric (count_up 20 16);
                  mkColumn "notes" DObject (repeat None 16) ] |}.

(** Numeric only, with one missing cell. *)
Definition gap_table : DataFrame :=
  {| df_nrows := 17;
     df_cols := [ mkColumn "height" DNumeric (None :: count_up 150 16);
                  mkColumn "weight" DNumeric (count_up 50 17) ] |}.

(** 16 whole numbers from 2^53 on, of which float64 represents every other
    one, next to a text column. *)
Definition big_table : DataFrame :=
  {| df_nrows := 16;
     df_cols := [ mkColumn "age" DNumeric (count_from 9007199254740992 16);
                  mkColumn "city" DObject (cycle [str "A"; str "C"] 16) ] |}.

(** The text numpy gives for the first cell of text, in column order, that
    the decimal parser does not read. *)
Fixpoint first_unread (cells : list cell) : option string :=
  match cells with
  | [] => None
  | Some (VStr s) :: r =>
      match parse_decimal s with
      | None => Some s
      | Some _ => first_unread r
      end
  | _ :: r => first_unread r
  end.

Fixpoint could_not_convert (X : list column) : string :=
  match X with
  | [] => "could not convert string to float"
  | c :: X' =>
      match first_unread (col_cells c) with
      | Some s => ("could not convert string to float: " ++ repr_ascii s)%string
      | None => could_not_convert X'
      end
  end.

(* ================================================================== *)
(** * The type classifier *)

Record ColumnTypes : Type := mkColumnTypes {
  numeric : list string;
  categorical : list string
}.

Definition append_numeric (result : ColumnTypes) (col : string) : ColumnTypes :=
  {| numeric := numeric result ++ [col]; categorical := categorical result |}.

Definition append_categorical (result : ColumnTypes) (col : string) : ColumnTypes :=
  {| numeric := numeric result; categorical := categorical result ++ [col] |}.

Section Code.

Set Default Proof Using "Type".
Set Proof Using Clear Unused.

(** The parser behind [pd.to_numeric] and numpy's conversion of text to
    float. *)
Variable str_to_float : string -> option Q.

(** The text [str(level)] that [pd.get_dummies] prints for a numeric
    category of the column labelled [col].  It depends on how the column
    stores the number at that point ([1] for an int, [1.0] for a float),
    which the data model does not record; the labels of a table are
    distinct, so the label of the column stands for it. *)
Variable num_to_str : string -> Q -> string.

(** The mean numpy computes for a float64 column with at least one observed
    value.  It is the result of float64 additions and one division, in an
    order that is numpy's. *)
Variable np_mean : list cell -> Q.

(** What [min] gives on equally frequent values that are not all numbers or
    all strings: a [TypeError] up to scikit-learn 1.5, a value later. *)
Variable min_mixed : list value -> result value.

(** Python's [repr] of a label. *)
Variable py_repr : string -> string.

(** The text of numpy's error for a frame that holds a string it cannot
    convert to float. *)
Variable convert_error : list column -> string.

(** [pd.to_numeric(series, errors='coerce')] on one cell: what does not
    convert becomes missing. *)
Definition to_numeric (c : cell) : cell :=
  match c with
  | None => None
  | Some (VNum q) => Some (VNum q)
  | Some (VStr s) => option_map VNum (str_to_float s)
  end.

(** [coerced.notnull().sum() / len(series)] *)
Definition valid_ratio (cells : list cell) : Q :=
  let coerced := map to_numeric cells in
  Qdiv (inject_Z (Z.of_nat (length (filter notnull coerced))))
       (inject_Z (Z.of_nat (length cells))).

(** The body of the loop of [detect_column_types], for one column.  The
    loop runs over [df.columns] and reads [df[col]]; the labels of a table
    are distinct, so [df[col]] is the column the loop is at, and the loop is
    written over the columns.  [valid_ratio > 0.8] is taken on rationals:
    the float quotient of two whole numbers below 2^50 compares with the
    float 0.8 as the exact quotient compares with 8/10. *)
Definition detect_column (result : ColumnTypes) (c : column) : ColumnTypes :=
  let col := col_name c in
  let series := col_cells c in
  let nunique_ := nunique series in
  if is_numeric_dtype c then
    if 15 <? nunique_ then append_numeric result col
    else append_categorical result col
  else if is_string_dtype c || is_categorical_dtype c then
    append_categorical result col
  else
    let coerced := map to_numeric series in
    if Qltb (8 # 10) (valid_ratio series) then
      if 15 <? nunique coerced then append_numeric result col
      else append_categorical result col
    else append_categorical result col.

Definition detect_column_types (df : DataFrame) : ColumnTypes :=
  fold_left detect_column (df_cols df) {| numeric := []; categorical := [] |}.

(** ** The decision procedure in the words of the specification *)

Inductive label : Type := Numeric | Categorical.

Definition label_eqb (a b : label) : bool :=
  match a, b with
  | Numeric, Numeric | Categorical, Categorical => true
  | _, _ => false
  end.

(** Number of cells of the column that coerce to a number. *)
Definition successes (c : column) : nat :=
  length (filter notnull (map to_numeric (col_cells c))).

(** Steps 1 to 3 of the classifier as the specification words them; the
    test [successes / row_count > 0.8] is taken on whole numbers:
    [5 * successes > 4 * row_count]. *)
Definition classify (c : column) : label :=
  if is_numeric_dtype c then
    if 15 <? nunique (col_cells c) then Numeric else Categorical
  else if is_string_dtype c || is_categorical_dtype c then Categorical
  else
    if (4 * length (col_cells c) <? 5 * successes c)
       && (15 <? nunique (map to_numeric (col_cells c)))
    then Numeric else Categorical.

Definition is_numeric_col (c : column) : bool := label_eqb (classify c) Numeric.
Definition is_categorical_col (c : column) : bool := label_eqb (classify c) Categorical.


(* ================================================================== *)
(** * scikit-learn: [SimpleImputer] *)

Inductive strategy : Type := Mean | MostFrequent.

(** The statistic of the [mean] strategy for one float64 column, stored as
    a float64; [None] ([NaN]) when no value is observed. *)
Definition mean (cells : list cell) : option value :=
  match numbers cells with
  | [] => None
  | _ :: _ => Some (VNum (float64 (np_mean cells)))
  end.

(** Python's [<] on two values of one kind; [None] between a string and a
    number. *)
Definition py_lt (a b : value) : option bool :=
  match a, b with
  | VNum p, VNum q => Some (Qltb p q)
  | VStr s, VStr t => Some (String.ltb s t)
  | _, _ => None
  end.

(** [min(...)] continued from the current minimum [cur]; [None] when it
    meets a string and a number. *)
Fixpoint py_min_from (cur : value) (rest : list value) : option value :=
  match rest with
  | [] => Some cur
  | x :: rest' =>
      match py_lt x cur with
      | None => None
      | Some true => py_min_from x rest'
      | Some false => py_min_from cur rest'
      end
  end.

(** [min] of the equally frequent values [v :: rest]. *)
Definition py_min (v : value) (rest : list value) : result value :=
  match py_min_from v rest with
  | Some m => Ok m
  | None => min_mixed (v :: rest)
  end.

Definition count (vals : list value) (v : value) : nat := count_occ value_eq_dec vals v.

(** The statistic of the [most_frequent] strategy for one column: the value
    observed most often, the smallest one among equally frequent values;
    [None] when no value is observed. *)
Definition most_frequent (cells : list cell) : result (option value) :=
  let vals := dropna cells in
  let counter := unique cells in
  let most_frequent_count := fold_right Nat.max 0 (map (count vals) counter) in
  match filter (fun v => count vals v =? most_frequent_count) counter with
  | [] => Ok None
  | v :: rest => rbind (py_min v rest) (fun m => Ok (Some m))
  end.

(** [transform]: the missing cells of a column take the fitted statistic. *)
Definition fillna (stat : value) (cells : list cell) : list cell :=
  map (fun c => match c with None => Some stat | Some v => Some v end) cells.

(** A column whose statistic is missing is left out of the output array
    ([keep_empty_features=False]). *)
Definition impute (stat : option value) (cells : list cell) : list (list cell) :=
  match stat with
  | None => []
  | Some s => [fillna s cells]
  end.

(** Conversion of one cell to float64: a number is rounded, a string is
    read as a number and rounded; [None] when the string does not read. *)
Definition as_float (c : cell) : option cell :=
  match c with
  | None => Some None
  | Some (VNum q) => Some (Some (VNum (float64 q)))
  | Some (VStr s) =>
      match str_to_float s with
      | Some q => Some (Some (VNum (float64 q)))
      | None => None
      end
  end.

Fixpoint as_float_cells (cells : list cell) : option (list cell) :=
  match cells with
  | [] => Some []
  | c :: r =>
      match as_float c, as_float_cells r with
      | Some c', Some r' => Some (c' :: r')
      | _, _ => None
      end
  end.

(** The mean strategy on the columns [X]; [text] is the message of the
    error raised when a column does not convert. *)
Fixpoint impute_mean (text : string) (X : list column) : result (list (list cell)) :=
  match X with
  | [] => Ok []
  | c :: X' =>
      match as_float_cells (col_cells c) with
      | None => Raise (mkException ValueError text)
      | Some cells =>
          rbind (impute_mean text X') (fun out => Ok (impute (mean cells) cells ++ out))
      end
  end.

(** The message scikit-learn builds around numpy's. *)
Definition non_numeric (X : list column) : string :=
  ("Cannot use mean strategy with non-numeric data:" ++ newline ++ convert_error X)%string.

Fixpoint impute_most_frequent (X : list column) : result (list (list cell)) :=
  match X with
  | [] => Ok []
  | c :: X' =>
      rbind (most_frequent (col_cells c)) (fun stat =>
      rbind (impute_most_frequent X') (fun out =>
      Ok (impute stat (col_cells c) ++ out)))
  end.

(** [SimpleImputer(strategy=...).fit_transform(X)] on a frame [X] of [nrows]
    rows.  Input validation refuses a frame without columns or without rows;
    the mean strategy converts the frame to float64, the most-frequent
    strategy keeps a numeric frame numeric and works on an object array
    otherwise. *)
Definition fit_transform (s : strategy) (nrows : nat) (X : list column) : result ndarray :=
  match X with
  | [] => Raise (mkException ValueError "at least one array or dtype is required")
  | _ :: _ =>
      if nrows =? 0 then
        Raise (mkException ValueError
                 ("Found array with 0 sample(s) (shape=(0, " ++ str_of_nat (length X)
                  ++ ")) while a minimum of 1 is required by SimpleImputer.")%string)
      else
        match s with
        | Mean =>
            rbind (impute_mean (non_numeric X) X) (fun out => Ok (mkArray DNumeric out))
        | MostFrequent =>
            rbind (impute_most_frequent X) (fun out =>
            Ok (mkArray (if forallb is_numeric_dtype X then DNumeric else DObject) out))
        end
  end.

(* ================================================================== *)
(** * pandas: [get_dummies] *)

(** [str(level)] for a category of the column labelled [col]. *)
Definition value_to_str (col : string) (v : value) : string :=
  match v with
  | VNum q => num_to_str col q
  | VStr s => s
  end.

(** The order of the categories: numbers by value, before strings in
    lexicographic order. *)
Definition value_leb (a b : value) : bool :=
  match a, b with
  | VNum p, VNum q => Qle_bool p q
  | VNum _, VStr _ => true
  | VStr _, VNum _ => false
  | VStr s, VStr t => String.leb s t
  end.

Fixpoint insert_sorted (v : value) (l : list value) : list value :=
  match l with
  | [] => [v]
  | x :: r => if value_leb v x then v :: x :: r else x :: insert_sorted v r
  end.

Definition sort_values (l : list value) : list value :=
  fold_right insert_sorted [] l.

(** The categories of a column: its distinct observed values, sorted. *)
Definition levels (cells : list cell) : list value := sort_values (unique cells).

Definition one : cell := Some (VNum (1 # 1)%Q).
Definition zero : cell := Some (VNum (0 # 1)%Q).

(** The indicator of [level] on one cell (1 and 0; pandas 2 prints them
    [True] and [False]). *)
Definition indicator (level : value) (c : cell) : cell :=
  match c with
  | Some v => if value_eq_dec (canon v) level then one else zero
  | None => zero
  end.

(** One indicator column per category, named [prefix_level]. *)
Definition get_dummies_1d (c : column) : list column :=
  map (fun level =>
         mkColumn (col_name c ++ "_" ++ value_to_str (col_name c) level)%string DNumeric
                  (map (indicator level) (col_cells c)))
      (levels (col_cells c)).

(** [pd.get_dummies(df, columns=cols)]: the columns not listed, in frame
    order, followed by the indicator columns of each listed column. *)
Definition get_dummies (df : DataFrame) (cols : list string) : result DataFrame :=
  rbind (getitem_list (df_cols df) cols) (fun data_to_encode =>
  Ok {| df_nrows := df_nrows df;
        df_cols := filter (fun c => negb (mem (col_name c) cols)) (df_cols df)
                   ++ flat_map get_dummies_1d data_to_encode |}).

(* ================================================================== *)
(** * The schema aligner: [preprocess_dataset] *)

(** [dataset[keys] = imputer.fit_transform(dataset[keys])], on the frame of
    the world. *)
Definition impute_in_place (s : strategy) (keys : list string) : M unit :=
  dataset <- get_frame ;;
  X <- lift (getitem_list (df_cols dataset) keys) ;;
  a <- lift (fit_transform s (df_nrows dataset) X) ;;
  dataset' <- lift (setitem_list dataset keys a) ;;
  put_frame dataset'.

(** [n] zeros: the column [dataset_encoded[col] = 0]. *)
Definition zeros (n : nat) : list cell := repeat zero n.

(** One turn of the loop over [model_columns]. *)
Definition add_missing (nrows : nat) (dataset_encoded : list column) (col : string)
  : list column :=
  if negb (mem col (map col_name dataset_encoded)) then
    setitem dataset_encoded col DNumeric (zeros nrows)
  else dataset_encoded.

(** [dataset_encoded.to_csv("artifacts/X_processed.csv", index=True)] *)
Definition to_csv (m : DataFrame) : M unit :=
  fun w =>
    if artifacts_dir w then
      (Ok tt, {| frame := frame w; artifacts_dir := true; X_processed := Some m |})
    else
      (Raise (mkException OSError "Cannot save file into a non-existent directory: 'artifacts'"), w).

(** The body of the [try] block. *)
Definition preprocess_body (model_columns : list string) : M DataFrame :=
  dataset <- get_frame ;;
  let column_types := detect_column_types dataset in
  let numeric_features := numeric column_types in
  let categorical_features := categorical column_types in
  impute_in_place Mean numeric_features ;;;
  impute_in_place MostFrequent categorical_features ;;;
  dataset <- get_frame ;;
  dataset_encoded <- lift (get_dummies dataset categorical_features) ;;
  let encoded_cols :=
    fold_left (add_missing (df_nrows dataset_encoded)) model_columns
              (df_cols dataset_encoded) in
  selected <- lift (getitem_list encoded_cols model_columns) ;;
  let dataset_encoded := {| df_nrows := df_nrows dataset_encoded; df_cols := selected |} in
  to_csv dataset_encoded ;;;
  ret dataset_encoded.

Definition preprocess_dataset (model_columns : list string) : M DataFrame :=
  try_except (preprocess_body model_columns)
    (fun e => raise ValueError ("Preprocessing failed: " ++ exc_msg e)%string).

(* ================================================================== *)
(** * The validator: [validate_dataframe] *)

Definition identifier_keywords : list string :=
  ["id"; "uuid"; "name"; "code"; "ref"; "number"].

(** [nunique > 0.9 * total], on rationals: the float product [0.9 * total]
    is the exact 9*total/10 whenever that is a whole number, so comparing it
    with the whole number [nunique] gives what the exact comparison gives. *)
Definition exceeds_90_percent (nunique_ total : nat) : bool :=
  Qltb (Qmult (9 # 10) (inject_Z (Z.of_nat total))) (inject_Z (Z.of_nat nunique_)).

(** [nunique < df.shape[0] * 0.9] *)
Definition below_90_percent (nunique_ total : nat) : bool :=
  Qltb (inject_Z (Z.of_nat nunique_)) (Qmult (inject_Z (Z.of_nat total)) (9 # 10)).

(** The body of the loop of [check_high_cardinality_and_identifiers]; the
    state is the pair [(high_cardinality, likely_ids)]. *)
Definition check_column (total : nat) (acc : list string * list string) (c : column)
  : list string * list string :=
  let (high_cardinality, likely_ids) := acc in
  let col := col_name c in
  let nunique_ := nunique (col_cells c) in
  if exceeds_90_percent nunique_ total then
    let high_cardinality := high_cardinality ++ [col] in
    let col_lower := lower col in
    if existsb (fun keyword => contains col_lower keyword) identifier_keywords then
      (high_cardinality, likely_ids ++ [col])
    else (high_cardinality, likely_ids)
  else (high_cardinality, likely_ids).

Definition check_high_cardinality_and_identifiers (df : DataFrame)
  : list string * list string :=
  fold_left (check_column (df_nrows df)) (df_cols df) ([], []).

Record Report : Type := mkReport {
  r_columns : list string;
  r_column_types : ColumnTypes;
  r_row_count : nat;
  r_missing_values : nat;
  r_column_count : nat;
  r_target_candidates : list string;
  r_warnings : list string
}.

(** [warnings.append(text)] when [cond] holds. *)
Definition warn_if (cond : bool) (text : string) (warnings : list string) : list string :=
  if cond then warnings ++ [text] else warnings.

Definition nonempty {A} (l : list A) : bool :=
  match l with [] => false | _ :: _ => true end.

(** [df.isnull().all().all()] *)
Definition all_null (df : DataFrame) : bool :=
  forallb (fun c => forallb isnull (col_cells c)) (df_cols df).

Definition validate_dataframe : M Report :=
  df <- get_frame ;;
  if df_nrows df <? 10 then raise ValueError "Too few rows."
  else if df_ncols df <? 2 then raise ValueError "Too few columns."
  else if all_null df then raise ValueError "Dataframe contains only null values."
  else
    let column_types := detect_column_types df in
    let warnings := [] in
    let warnings :=
      warn_if (existsb (fun c => 0 <? count_null (col_cells c)) (df_cols df))
              "Contains null values" warnings in
    let total_nulls := list_sum (map (fun c => count_null (col_cells c)) (df_cols df)) in
    let constant_cols :=
      map col_name (filter (fun c => nunique (col_cells c) <=? 1) (df_cols df)) in
    let warnings :=
      warn_if (nonempty constant_cols)
              ("Constant or empty columns: " ++ repr_list py_repr constant_cols)%string
              warnings in
    let (high_cardinality, likely_ids) := check_high_cardinality_and_identifiers df in
    let warnings :=
      warn_if (nonempty high_cardinality)
              ("High cardinality columns: " ++ repr_list py_repr high_cardinality)%string
              warnings in
    let warnings :=
      warn_if (nonempty likely_ids)
              ("Likely identifier columns: " ++ repr_list py_repr likely_ids)%string
              warnings in
    let target_candidates :=
      map col_name
          (filter (fun c => (1 <? nunique (col_cells c))
                            && below_90_percent (nunique (col_cells c)) (df_nrows df))
                  (df_cols df)) in
    ret {| r_columns := columns df;
           r_column_types := column_types;
           r_row_count := df_nrows df;
           r_missing_values := total_nulls;
           r_column_count := df_ncols df;
           r_target_candidates := target_candidates;
           r_warnings := warnings |}.

(* ================================================================== *)
(** * Notions used in the statements and proofs *)

Definition too_few_rows : exception := mkException ValueError "Too few rows.".
Definition too_few_columns : exception := mkException ValueError "Too few columns.".
Definition only_null : exception :=
  mkException ValueError "Dataframe contains only null values.".

(** The target candidates as the report lists them. *)
Definition is_target_candidate (nrows : nat) (c : column) : bool :=
  (1 <? nunique (col_cells c)) && below_90_percent (nunique (col_cells c)) nrows.

(** The keyword test of [check_high_cardinality_and_identifiers]. *)
Definition has_keyword (col : string) : bool :=
  existsb (fun keyword => contains (lower col) keyword) identifier_keywords.

Definition is_high_cardinality (total : nat) (c : column) : bool :=
  exceeds_90_percent (nunique (col_cells c)) total.

(** The cells of a column after imputation with strategy [s]; [None] when
    the column does not convert (mean), has no observed value, or its
    statistic cannot be computed. *)
Definition imputed_cells (s : strategy) (cells : list cell) : option (list cell) :=
  match s with
  | Mean =>
      match as_float_cells cells with
      | Some cs => option_map (fun m => fillna m cs) (mean cs)
      | None => None
      end
  | MostFrequent =>
      match most_frequent cells with
      | Ok (Some m) => Some (fillna m cells)
      | _ => None
      end
  end.

Definition imputed_or_empty (s : strategy) (c : column) : list cell :=
  match imputed_cells s (col_cells c) with
  | Some out => out
  | None => []
  end.

Definition impute_all (text : string) (s : strategy) (X : list column)
  : result (list (list cell)) :=
  match s with
  | Mean => impute_mean text X
  | MostFrequent => impute_most_frequent X
  end.

(** The dtype of the array [fit_transform] returns. *)
Definition out_dtype (s : strategy) (X : list column) : dtype :=
  match s with
  | Mean => DNumeric
  | MostFrequent => if forallb is_numeric_dtype X then DNumeric else DObject
  end.

(** The frame after a successful [dataset[keys] = fit_transform(dataset[keys])]
    on the columns picked by [q]. *)
Definition imputed_frame (s : strategy) (q : column -> bool) (df : DataFrame) : DataFrame :=
  {| df_nrows := df_nrows df;
     df_cols := map (fun c => if q c
                              then mkColumn (col_name c)
                                            (out_dtype s (filter q (df_cols df)))
                                            (imputed_or_empty s c)
                              else c) (df_cols df) |}.

Definition with_frame (w : World) (df : DataFrame) : World :=
  {| frame := df; artifacts_dir := artifacts_dir w; X_processed := X_processed w |}.

(** What follows the two imputations: indicator expansion, the loop over
    [model_columns] and the final selection, on the imputed frame. *)
Definition encode_and_align (model_columns : list string) (dataset : DataFrame)
           (categorical_features : list string) : result DataFrame :=
  rbind (get_dummies dataset categorical_features) (fun dataset_encoded =>
  rbind (getitem_list
           (fold_left (add_missing (df_nrows dataset_encoded)) model_columns
                      (df_cols dataset_encoded))
           model_columns) (fun selected =>
  Ok {| df_nrows := df_nrows dataset_encoded; df_cols := selected |})).

Definition no_directory : exception :=
  mkException OSError "Cannot save file into a non-existent directory: 'artifacts'".

(** The error [preprocess_dataset] raises for the failure [cause]. *)
Definition wrap (cause : exception) : exception :=
  mkException ValueError ("Preprocessing failed: " ++ exc_msg cause)%string.

(** The column synthesized for a label the encoded table lacks. *)
Definition zero_column (nrows : nat) (key : string) : column :=
  mkColumn key DNumeric (zeros nrows).

(** What the final selection returns for one label of the schema. *)
Definition aligned (nrows : nat) (cols : list column) (key : string) : list column :=
  if mem key (map col_name cols) then lookup cols key else [zero_column nrows key].

(** A cell that holds a number. *)
Definition is_number (c : cell) : bool :=
  match c with Some (VNum _) => true | _ => false end.

(** A cell that holds text or is missing. *)
Definition is_text_cell (c : cell) : bool :=
  match c with Some (VNum _) => false | _ => true end.

Definition is_num_value (v : value) : bool :=
  match v with VNum _ => true | VStr _ => false end.

Definition is_str_value (v : value) : bool :=
  match v with VNum _ => false | VStr _ => true end.

(** A numeric-dtype column holds no text. *)
Definition typed (c : column) : bool :=
  if is_numeric_dtype c then forallb is_num_cell (col_cells c) else true.

(** A column that is not of numeric dtype holds only text and missing
    cells. *)
Definition textual (c : column) : bool :=
  is_numeric_dtype c || forallb is_text_cell (col_cells c).

(** Every column that is not of numeric dtype holds only text and missing
    cells: what reading a CSV file produces. *)
Definition text_only (df : DataFrame) : bool := forallb textual (df_cols df).

(** A cell whose number, or the number its text reads as, is one that
    float64 represents. *)
Definition float_valued (c : cell) : bool :=
  match to_numeric c with
  | Some (VNum q) => is_float64 q
  | _ => true
  end.

(** Every number of the table is a float64 number: the conversion of the
    mean imputer changes no value. *)
Definition float_table (df : DataFrame) : bool :=
  forallb (fun c => forallb float_valued (col_cells c)) (df_cols df).

(** A column is settled when the imputer of its label returns its own cells
    and its dtype is the one the imputer's output array has. *)
Definition settled (dt : dtype) (c : column) : Prop :=
  if is_numeric_col c then
    col_dtype c = DNumeric /\ imputed_cells Mean (col_cells c) = Some (col_cells c)
  else
    col_dtype c = dt /\ imputed_cells MostFrequent (col_cells c) = Some (col_cells c).

(** The column of the imputed frame that comes from column [c]. *)
Definition imputed_column (dt : dtype) (c : column) : column :=
  if is_numeric_col c
  then mkColumn (col_name c) DNumeric (imputed_or_empty Mean c)
  else mkColumn (col_name c) dt (imputed_or_empty MostFrequent c).

(* ================================================================== *)
(** * Properties *)

(** ** Lists of labels *)

Lemma mem_In (x : string) (l : list string) : mem x l = true <-> In x l.
Proof.
  unfold mem. rewrite existsb_exists. split.
  - intros [y [Hy Heq]]. apply String.eqb_eq in Heq. now subst.
  - intros H. exists x. split; [assumption | apply String.eqb_refl].
Qed.

Lemma mem_false (x : string) (l : list string) : mem x l = false <-> ~ In x l.
Proof.
  rewrite <- mem_In. destruct (mem x l); split; intros; congruence.
Qed.

Lemma distinct_names_NoDup (l : list string) : distinct_names l = true <-> NoDup l.
Proof.
  induction l as [|x r IH]; simpl.
  - split; [constructor | reflexivity].
  - rewrite andb_true_iff, negb_true_iff, IH. fold (mem x r). rewrite mem_false.
    split.
    + intros [Hx Hr]. now constructor.
    + intros H. inversion H; subst. now split.
Qed.

(** In a frame with distinct labels, a label picked by a filter names a
    column that passes the filter. *)
Lemma In_names_filter (p : column -> bool) (cols : list column) (c : column) :
  NoDup (map col_name cols) -> In c cols ->
  (In (col_name c) (map col_name (filter p cols)) <-> p c = true).
Proof.
  intros Hnd Hc. split.
  - intros Hin. apply in_map_iff in Hin. destruct Hin as [c' [Hname Hc']].
    apply filter_In in Hc'. destruct Hc' as [Hc' Hp].
    assert (c' = c) as ->; [|assumption].
    clear Hp. induction cols as [|x r IH]; [contradiction|].
    simpl in Hnd. inversion Hnd as [|? ? Hx Hr]; subst.
    destruct Hc as [->|Hc], Hc' as [->|Hc']; try reflexivity.
    + exfalso. apply Hx. rewrite <- Hname. now apply in_map.
    + exfalso. apply Hx. rewrite Hname. now apply in_map.
    + now apply IH.
  - intros Hp. apply in_map. apply filter_In. now split.
Qed.

Lemma filter_partition_perm (p : column -> bool) (cols : list column) :
  Permutation (map col_name (filter p cols) ++ map col_name (filter (fun c => negb (p c)) cols))
              (map col_name cols).
Proof.
  induction cols as [|x r IH]; simpl; [constructor|].
  destruct (p x); simpl.
  - now constructor.
  - apply Permutation_sym. apply Permutation_cons_app. now apply Permutation_sym.
Qed.

(** ** The classifier loop *)

Lemma length_successes (cells : list cell) :
  length (filter notnull (map (to_numeric) cells)) <= length cells.
Proof.
  etransitivity; [apply filter_length_le | now rewrite length_map].
Qed.

Lemma Qltb_lt (p q : Q) : Qltb p q = true <-> Qlt p q.
Proof.
  unfold Qltb. rewrite Qlt_alt. destruct (Qcompare p q); split; congruence.
Qed.

(** The comparison of the ratio with 0.8 is a comparison of whole numbers. *)
Lemma ratio_above_80_percent (k n : nat) :
  k <= n ->
  Qltb (8 # 10) (Qdiv (inject_Z (Z.of_nat k)) (inject_Z (Z.of_nat n))) = (4 * n <? 5 * k).
Proof.
  intros Hk. destruct n as [|n].
  - assert (k = 0) as -> by lia. reflexivity.
  - apply eq_true_iff_eq. rewrite Nat.ltb_lt. unfold Qltb.
    fold (Qltb (8 # 10) (Qdiv (inject_Z (Z.of_nat k)) (inject_Z (Z.of_nat (S n))))).
    rewrite Qltb_lt.
    assert (Hn : Z.of_nat (S n) = Z.pos (Pos.of_succ_nat n)) by (simpl; reflexivity).
    rewrite Hn, <- Qmake_Qdiv. unfold Qlt. simpl. lia.
Qed.

Lemma detect_column_classify (result : ColumnTypes) (c : column) :
  detect_column result c =
  if is_numeric_col c then append_numeric result (col_name c)
  else append_categorical result (col_name c).
Proof.
  unfold detect_column, is_numeric_col, classify, valid_ratio, successes.
  rewrite ratio_above_80_percent by apply length_successes.
  destruct (is_numeric_dtype c).
  - destruct (15 <? nunique (col_cells c)); reflexivity.
  - destruct (is_string_dtype c || is_categorical_dtype c); [reflexivity|].
    destruct (4 * length (col_cells c) <? _); [|reflexivity].
    destruct (15 <? nunique _); reflexivity.
Qed.

Lemma is_categorical_col_negb (c : column) :
  is_categorical_col c = negb (is_numeric_col c).
Proof.
  unfold is_categorical_col, is_numeric_col.
  destruct (classify c); reflexivity.
Qed.

Lemma detect_fold (cols : list column) (acc : ColumnTypes) :
  fold_left (detect_column) cols acc =
  {| numeric := numeric acc ++ map col_name (filter (is_numeric_col) cols);
     categorical := categorical acc
                    ++ map col_name (filter (fun c => negb (is_numeric_col c)) cols) |}.
Proof.
  revert acc. induction cols as [|c r IH]; intros acc; simpl.
  - rewrite !app_nil_r. now destruct acc.
  - rewrite IH, detect_column_classify.
    destruct (is_numeric_col c); simpl; now rewrite <- app_assoc.
Qed.

(** The report of the classifier, column by column. *)
Lemma detect_column_types_filter (df : DataFrame) :
  detect_column_types df =
  {| numeric := map col_name (filter (is_numeric_col) (df_cols df));
     categorical := map col_name (filter (fun c => negb (is_numeric_col c)) (df_cols df)) |}.
Proof.
  unfold detect_column_types. now rewrite detect_fold.
Qed.

Lemma in_columns (df : DataFrame) (col : string) :
  In col (columns df) <-> exists c, In c (df_cols df) /\ col_name c = col.
Proof.
  unfold columns. rewrite in_map_iff. split; intros [c [H1 H2]]; exists c; tauto.
Qed.

Lemma In_numeric (df : DataFrame) (c : column) :
  NoDup (columns df) -> In c (df_cols df) ->
  (In (col_name c) (numeric (detect_column_types df))
   <-> is_numeric_col c = true).
Proof.
  intros Hnd Hc. rewrite detect_column_types_filter. simpl.
  now apply In_names_filter.
Qed.

Lemma In_categorical (df : DataFrame) (c : column) :
  NoDup (columns df) -> In c (df_cols df) ->
  (In (col_name c) (categorical (detect_column_types df))
   <-> is_numeric_col c = false).
Proof.
  intros Hnd Hc. rewrite detect_column_types_filter. simpl.
  rewrite (In_names_filter (fun c => negb (is_numeric_col c)) _ _ Hnd Hc).
  apply negb_true_iff.
Qed.

(** C2. In a table with distinct labels, the report of the classifier is a
    partition of the column labels: every label of the table is in exactly
    one of [numeric] and [categorical], the two lists hold nothing else, and
    together they are a rearrangement of [df.columns]. *)
Theorem detect_column_types_partition (df : DataFrame) :
  NoDup (columns df) ->
  let report := detect_column_types df in
  (forall col, In col (columns df) ->
     (In col (numeric report) /\ ~ In col (categorical report)) \/
     (~ In col (numeric report) /\ In col (categorical report))) /\
  (forall col, In col (numeric report) \/ In col (categorical report) ->
     In col (columns df)) /\
  Permutation (numeric report ++ categorical report) (columns df).
Proof.
  intros Hnd report. repeat split.
  - intros col Hcol. apply in_columns in Hcol. destruct Hcol as [c [Hc <-]].
    subst report.
    pose proof (In_numeric df c Hnd Hc) as Hn.
    pose proof (In_categorical df c Hnd Hc) as Hk.
    destruct (is_numeric_col c).
    + left. split; [now apply Hn|]. intros H. apply Hk in H. discriminate.
    + right. split; [|now apply Hk]. intros H. apply Hn in H. discriminate.
  - intros col H. subst report. rewrite detect_column_types_filter in H. simpl in H.
    unfold columns.
    destruct H as [H|H]; apply in_map_iff in H; destruct H as [c [<- H]];
      apply filter_In in H; apply in_map; tauto.
  - subst report. rewrite detect_column_types_filter. simpl.
    apply filter_partition_perm.
Qed.

Lemma is_numeric_col_step1 (c : column) :
  is_numeric_dtype c = true ->
  is_numeric_col c = (15 <? nunique (col_cells c)).
Proof.
  intros Hdt. unfold is_numeric_col, classify. rewrite Hdt.
  now destruct (15 <? nunique (col_cells c)).
Qed.

Lemma is_numeric_col_step2 (c : column) :
  is_numeric_dtype c = false ->
  is_string_dtype c || is_categorical_dtype c = true ->
  is_numeric_col c = false.
Proof.
  intros Hdt Hs. unfold is_numeric_col, classify. now rewrite Hdt, Hs.
Qed.

Lemma is_numeric_col_step3 (c : column) :
  is_numeric_dtype c = false ->
  is_string_dtype c || is_categorical_dtype c = false ->
  is_numeric_col c =
  Qltb (8 # 10)
       (Qdiv (inject_Z (Z.of_nat (length (filter notnull
                                   (map (to_numeric) (col_cells c))))))
             (inject_Z (Z.of_nat (length (col_cells c)))))
  && (15 <? nunique (map (to_numeric) (col_cells c))).
Proof.
  intros Hdt Hs. unfold is_numeric_col, classify, successes. rewrite Hdt, Hs.
  rewrite (ratio_above_80_percent (length_successes (col_cells c))).
  now destruct (_ && _).
Qed.


(** ** The validator *)

(** The four ways through [validate_dataframe]; none of them changes the
    world. *)
Lemma validate_dataframe_cases (w : World) :
  let df := frame w in
  ((df_nrows df <? 10) = true /\
   validate_dataframe w = (Raise too_few_rows, w)) \/
  ((df_nrows df <? 10) = false /\ (df_ncols df <? 2) = true /\
   validate_dataframe w = (Raise too_few_columns, w)) \/
  ((df_nrows df <? 10) = false /\ (df_ncols df <? 2) = false /\ all_null df = true /\
   validate_dataframe w = (Raise only_null, w)) \/
  ((df_nrows df <? 10) = false /\ (df_ncols df <? 2) = false /\ all_null df = false /\
   exists report,
     validate_dataframe w = (Ok report, w) /\
     r_columns report = columns df /\
     r_column_types report = detect_column_types df /\
     r_row_count report = df_nrows df /\
     r_column_count report = df_ncols df /\
     r_target_candidates report
     = map col_name (filter (is_target_candidate (df_nrows df)) (df_cols df))).
Proof.
  intros df. unfold validate_dataframe, bind, get_frame. fold df.
  destruct (df_nrows df <? 10); [left; now split|].
  destruct (df_ncols df <? 2); [right; left; now repeat split|].
  destruct (all_null df); [right; right; left; now repeat split|].
  right; right; right. repeat split.
  destruct (check_high_cardinality_and_identifiers df) as [hc ids].
  eexists. split; [reflexivity|]. simpl. now repeat split.
Qed.

Lemma all_null_iff (df : DataFrame) :
  all_null df = true <->
  (forall c, In c (df_cols df) -> forall x, In x (col_cells c) -> x = None).
Proof.
  unfold all_null. rewrite forallb_forall. split.
  - intros H c Hc x Hx. specialize (H c Hc). rewrite forallb_forall in H.
    specialize (H x Hx). now destruct x.
  - intros H c Hc. apply forallb_forall. intros x Hx. now rewrite (H c Hc x Hx).
Qed.

(** C3. [validate_dataframe] raises exactly when the table has fewer than 10
    rows, or fewer than 2 columns, or only missing cells; the conditions are
    tried in that order and the first that holds gives the error, so fewer
    than 10 rows is "Too few rows." whatever the column count (9 rows and 1
    column included); a table that fails none of them yields a report. *)
Theorem validate_dataframe_hard_failures (w : World) :
  let df := frame w in
  let every_cell_missing :=
    forall c, In c (df_cols df) -> forall x, In x (col_cells c) -> x = None in
  let outcome := fst (validate_dataframe w) in
  (df_nrows df < 10 -> outcome = Raise too_few_rows) /\
  (10 <= df_nrows df -> df_ncols df < 2 -> outcome = Raise too_few_columns) /\
  (10 <= df_nrows df -> 2 <= df_ncols df -> every_cell_missing ->
     outcome = Raise only_null) /\
  (10 <= df_nrows df -> 2 <= df_ncols df -> ~ every_cell_missing ->
     exists report, outcome = Ok report) /\
  ((exists e, outcome = Raise e) <->
     df_nrows df < 10 \/ df_ncols df < 2 \/ every_cell_missing) /\
  (df_nrows df = 9 -> df_ncols df = 1 -> outcome = Raise too_few_rows).
Proof.
  intros df every_cell_missing outcome. subst outcome.
  assert (Hnull : all_null df = true <-> every_cell_missing) by apply all_null_iff.
  destruct (validate_dataframe_cases w) as
      [[Hr ->] | [[Hr [Hc ->]] | [[Hr [Hc [Ha ->]]] | [Hr [Hc [Ha [report [-> _]]]]]]]];
    fold df in Hr; try fold df in Hc; try fold df in Ha; simpl fst.
  - apply Nat.ltb_lt in Hr.
    repeat split; intros;
      first [reflexivity | lia | (eexists; reflexivity)].
  - apply Nat.ltb_ge in Hr. apply Nat.ltb_lt in Hc.
    repeat split; intros;
      first [reflexivity | lia | (eexists; reflexivity)].
  - apply Nat.ltb_ge in Hr. apply Nat.ltb_ge in Hc. apply Hnull in Ha.
    repeat split; intros;
      first [reflexivity | lia | tauto | (eexists; reflexivity)].
  - apply Nat.ltb_ge in Hr. apply Nat.ltb_ge in Hc.
    assert (~ every_cell_missing) as Hn by (rewrite <- Hnull; congruence).
    repeat split; intros; try lia; try tauto.
    + now exists report.
    + destruct H as [e He]. discriminate.
    + destruct H as [H|[H|H]]; [lia|lia|tauto].
Qed.

(** C8. [validate_dataframe] leaves the world, and so the table it was
    handed, as it found it, whether it returns a report or raises. *)
Theorem validate_dataframe_no_mutation (w : World) :
  snd (validate_dataframe w) = w /\
  frame (snd (validate_dataframe w)) = frame w.
Proof.
  destruct (validate_dataframe_cases w) as
      [[_ ->] | [[_ [_ ->]] | [[_ [_ [_ ->]]] | [_ [_ [_ [report [-> _]]]]]]]];
    now split.
Qed.

Lemma below_90_percent_int (k n : nat) :
  below_90_percent k n = (10 * k <? 9 * n).
Proof.
  apply eq_true_iff_eq. unfold below_90_percent.
  rewrite Qltb_lt, Nat.ltb_lt. unfold Qlt. simpl. lia.
Qed.

Lemma exceeds_90_percent_int (k n : nat) :
  exceeds_90_percent k n = (9 * n <? 10 * k).
Proof.
  apply eq_true_iff_eq. unfold exceeds_90_percent.
  rewrite Qltb_lt, Nat.ltb_lt. unfold Qlt, Qmult, inject_Z. cbn [Qnum Qden].
  change (Z.pos (10 * 1)) with 10%Z. lia.
Qed.

(** C6. When [validate_dataframe] yields a report on a table with distinct
    labels, a column is a target candidate exactly when its number of
    distinct values is greater than 1 and below 90% of the row count; a
    column with as many distinct values as there are rows is left out, and
    a column with 2 distinct values in 100 rows is listed. *)
Theorem validate_dataframe_target_candidates (w : World) (report : Report) :
  let df := frame w in
  NoDup (columns df) ->
  fst (validate_dataframe w) = Ok report ->
  (forall c, In c (df_cols df) ->
     (In (col_name c) (r_target_candidates report) <->
      1 < nunique (col_cells c) /\ 10 * nunique (col_cells c) < 9 * df_nrows df)) /\
  (forall col, In col (r_target_candidates report) -> In col (columns df)) /\
  (forall c, In c (df_cols df) -> nunique (col_cells c) = df_nrows df ->
     ~ In (col_name c) (r_target_candidates report)) /\
  (forall c, In c (df_cols df) -> nunique (col_cells c) = 2 -> df_nrows df = 100 ->
     In (col_name c) (r_target_candidates report)).
Proof.
  intros df Hnd Hok.
  assert (Hlist : r_target_candidates report
                  = map col_name (filter (is_target_candidate (df_nrows df)) (df_cols df))).
  { destruct (validate_dataframe_cases w) as
        [[_ E] | [[_ [_ E]] | [[_ [_ [_ E]]] | [_ [_ [_ [r [E H]]]]]]]];
      rewrite E in Hok; simpl in Hok; try discriminate.
    injection Hok as <-. apply H. }
  assert (Hchar : forall c, In c (df_cols df) ->
     (In (col_name c) (r_target_candidates report) <->
      1 < nunique (col_cells c) /\ 10 * nunique (col_cells c) < 9 * df_nrows df)).
  { intros c Hc. rewrite Hlist, (In_names_filter _ _ _ Hnd Hc).
    unfold is_target_candidate.
    rewrite below_90_percent_int, andb_true_iff, !Nat.ltb_lt. reflexivity. }
  split; [exact Hchar|]. split; [|split].
  - intros col Hcol. rewrite Hlist in Hcol. apply in_map_iff in Hcol.
    destruct Hcol as [c [<- Hc]]. apply filter_In in Hc. apply in_map. tauto.
  - intros c Hc Hall Hin. apply (Hchar c Hc) in Hin. lia.
  - intros c Hc H2 H100. apply (Hchar c Hc). lia.
Qed.

(** ** High cardinality and identifiers *)

Lemma prefix_app (k s : string) :
  String.prefix k s = true <-> exists post, s = (k ++ post)%string.
Proof.
  revert s. induction k as [|a k IH]; intros s.
  - destruct s; simpl; split; intros; try reflexivity; eexists; reflexivity.
  - destruct s as [|b s]; simpl.
    + split; [discriminate | intros [post H]; discriminate].
    + destruct (ascii_dec a b) as [->|Hab].
      * rewrite IH. split; intros [post H]; exists post.
        -- now rewrite H.
        -- now injection H.
      * split; [discriminate|]. intros [post H]. injection H as H1 H2. congruence.
Qed.

(** [contains] is Python's [in]: the keyword occurs somewhere in the text. *)
Lemma contains_spec (s keyword : string) :
  contains s keyword = true <-> exists pre post, s = (pre ++ keyword ++ post)%string.
Proof.
  induction s as [|a s IH].
  - cbn [contains]. rewrite orb_false_r, prefix_app. split.
    + intros [post H]. now exists EmptyString, post.
    + intros [pre [post H]]. destruct pre; [now exists post | discriminate].
  - cbn [contains]. rewrite orb_true_iff, IH, prefix_app. split.
    + intros [[post H] | [pre [post H]]].
      * now exists EmptyString, post.
      * exists (String a pre), post. simpl. now rewrite H.
    + intros [pre [post H]]. destruct pre as [|b pre].
      * left. now exists post.
      * right. simpl in H. injection H as _ H. now exists pre, post.
Qed.

Lemma check_column_step (total : nat) (c : column) (hc ids : list string) :
  check_column total (hc, ids) c =
  if is_high_cardinality total c then
    (hc ++ [col_name c], if has_keyword (col_name c) then ids ++ [col_name c] else ids)
  else (hc, ids).
Proof.
  unfold check_column, is_high_cardinality, has_keyword.
  destruct (exceeds_90_percent _ _); [|reflexivity].
  now destruct (existsb _ _).
Qed.

Lemma check_fold (total : nat) (cols : list column) (hc ids : list string) :
  fold_left (check_column total) cols (hc, ids) =
  (hc ++ map col_name (filter (is_high_cardinality total) cols),
   ids ++ filter has_keyword (map col_name (filter (is_high_cardinality total) cols))).
Proof.
  revert hc ids. induction cols as [|c r IH]; intros hc ids; cbn [fold_left filter].
  - simpl. now rewrite !app_nil_r.
  - rewrite check_column_step.
    destruct (is_high_cardinality total c); [|apply IH].
    cbn [map filter].
    destruct (has_keyword (col_name c)); rewrite IH, <- !app_assoc; reflexivity.
Qed.

(** C7. The likely identifiers are the high-cardinality labels whose
    lower-cased text contains one of id, uuid, name, code, ref, number; the
    high-cardinality labels are those of the columns with more distinct
    values than 90% of the row count.  So every likely identifier is a
    high-cardinality label, a high-cardinality [customer_id] is in both
    lists, and [transaction_amount] is never a likely identifier. *)
Theorem check_high_cardinality_and_identifiers_lists (df : DataFrame) :
  NoDup (columns df) ->
  let high_cardinality := fst (check_high_cardinality_and_identifiers df) in
  let likely_ids := snd (check_high_cardinality_and_identifiers df) in
  let named_like_an_identifier col :=
    exists keyword,
      In keyword ["id"; "uuid"; "name"; "code"; "ref"; "number"] /\
      exists pre post, lower col = (pre ++ keyword ++ post)%string in
  (forall c, In c (df_cols df) ->
     (In (col_name c) high_cardinality <->
      9 * df_nrows df < 10 * nunique (col_cells c))) /\
  (forall col, In col high_cardinality -> In col (columns df)) /\
  likely_ids = filter has_keyword high_cardinality /\
  (forall col, In col likely_ids <->
     In col high_cardinality /\ named_like_an_identifier col) /\
  (forall col, In col likely_ids -> In col high_cardinality) /\
  (In "customer_id" high_cardinality -> In "customer_id" likely_ids) /\
  ~ In "transaction_amount" likely_ids.
Proof.
  intros Hnd high_cardinality likely_ids named.
  assert (Hkw : forall col, has_keyword col = true <-> named col).
  { intros col. unfold has_keyword. rewrite existsb_exists. subst named.
    split; intros [k [Hk H]]; exists k; (split; [exact Hk|]);
      now apply contains_spec. }
  assert (Hhc : high_cardinality
                = map col_name (filter (is_high_cardinality (df_nrows df)) (df_cols df))).
  { subst high_cardinality. unfold check_high_cardinality_and_identifiers.
    now rewrite check_fold. }
  assert (Hids : likely_ids = filter has_keyword high_cardinality).
  { rewrite Hhc. subst likely_ids. unfold check_high_cardinality_and_identifiers.
    now rewrite check_fold. }
  assert (Hchar : forall col, In col likely_ids <-> In col high_cardinality /\ named col).
  { intros col. rewrite Hids, filter_In, Hkw. reflexivity. }
  split; [|split; [|split; [exact Hids | split; [exact Hchar | split; [|split]]]]].
  - intros c Hc. rewrite Hhc, (In_names_filter _ _ _ Hnd Hc).
    unfold is_high_cardinality. rewrite exceeds_90_percent_int. apply Nat.ltb_lt.
  - intros col Hcol. rewrite Hhc in Hcol. apply in_map_iff in Hcol.
    destruct Hcol as [c [<- Hc]]. apply filter_In in Hc. apply in_map. tauto.
  - intros col Hcol. now apply Hchar in Hcol.
  - intros H. rewrite Hids. apply filter_In. split; [exact H | reflexivity].
  - intros H. rewrite Hids in H. apply filter_In in H. destruct H as [_ H].
    discriminate.
Qed.

(** ** Selecting and assigning columns by label *)

Lemma filter_none {A} (p : A -> bool) (l : list A) :
  (forall x, In x l -> p x = false) -> filter p l = [].
Proof.
  induction l as [|x r IH]; intros H; [reflexivity|].
  simpl. rewrite (H x) by now left. apply IH. intros y Hy. apply H. now right.
Qed.

Lemma lookup_unique (cols : list column) (c : column) :
  NoDup (map col_name cols) -> In c cols -> lookup cols (col_name c) = [c].
Proof.
  unfold lookup. induction cols as [|x r IH]; intros Hnd Hc; [contradiction|].
  simpl in Hnd. inversion Hnd as [|? ? Hx Hr]; subst. simpl.
  destruct Hc as [->|Hc].
  - rewrite String.eqb_refl. f_equal.
    apply filter_none.
    intros y Hy. apply String.eqb_neq. intros E. apply Hx. rewrite <- E.
    now apply in_map.
  - destruct (String.eqb_spec (col_name x) (col_name c)) as [E|E].
    + exfalso. apply Hx. rewrite E. now apply in_map.
    + now apply IH.
Qed.

Lemma lookup_names (cols : list column) (key : string) :
  Forall (fun c => col_name c = key) (lookup cols key).
Proof.
  apply Forall_forall. intros c Hc. apply filter_In in Hc.
  now apply String.eqb_eq.
Qed.

(** In a frame with distinct labels, selecting the labels of some of its
    columns returns those columns. *)
Lemma getitem_list_names (cols l : list column) :
  NoDup (map col_name cols) -> incl l cols ->
  getitem_list cols (map col_name l) = Ok l.
Proof.
  intros Hnd. induction l as [|c l IH]; intros Hl; [reflexivity|].
  simpl. rewrite lookup_unique by (assumption || apply Hl; now left).
  rewrite IH by (intros x Hx; apply Hl; now right). reflexivity.
Qed.

Lemma setitem_names (cols : list column) (key : string) (dt : dtype) (cells : list cell) :
  In key (map col_name cols) ->
  setitem cols key dt cells
  = map (fun c => if String.eqb (col_name c) key then mkColumn key dt cells else c) cols.
Proof.
  intros H. unfold setitem. apply mem_In in H. now rewrite H.
Qed.

(** Assigning computed cells to some of the columns of a frame with distinct
    labels rewrites exactly those columns, where they stand. *)
Lemma setitem_each_map (f : column -> list cell) (dt : dtype) (l cols : list column) :
  NoDup (map col_name cols) -> NoDup (map col_name l) -> incl l cols ->
  setitem_each cols (map col_name l) dt (map f l)
  = map (fun c => if mem (col_name c) (map col_name l)
                  then mkColumn (col_name c) dt (f c) else c) cols.
Proof.
  revert cols. induction l as [|c0 l IH]; intros cols Hnd Hl Hincl.
  - simpl. symmetry. erewrite map_ext; [apply map_id|]. reflexivity.
  - simpl in Hl. inversion Hl as [|? ? Hc0 Hl']; subst.
    assert (Hin0 : In c0 cols) by (apply Hincl; now left).
    cbn [map setitem_each].
    rewrite setitem_names by now apply in_map.
    set (upd := fun c => if String.eqb (col_name c) (col_name c0)
                         then mkColumn (col_name c0) dt (f c0) else c).
    assert (Hnames : map col_name (map upd cols) = map col_name cols).
    { rewrite map_map. apply map_ext. intros c. unfold upd.
      destruct (String.eqb_spec (col_name c) (col_name c0)) as [E|E];
        [now rewrite E | reflexivity]. }
    rewrite IH.
    + rewrite map_map. apply map_ext_in. intros c Hc. unfold upd.
      destruct (String.eqb_spec (col_name c) (col_name c0)) as [E|E].
      * assert (c = c0) as ->.
        { pose proof (lookup_unique cols c Hnd Hc) as H1.
          pose proof (lookup_unique cols c0 Hnd Hin0) as H2.
          rewrite E in H1. congruence. }
        cbn [col_name]. unfold mem at 2. cbn [existsb].
        rewrite String.eqb_refl. cbn [orb].
        assert (mem (col_name c0) (map col_name l) = false) as ->
            by now apply mem_false.
        reflexivity.
      * unfold mem at 2. cbn [existsb].
        assert (String.eqb (col_name c) (col_name c0) = false) as ->
            by now apply String.eqb_neq.
        reflexivity.
    + now rewrite Hnames.
    + assumption.
    + intros c Hc. apply in_map_iff. exists c. split.
      * unfold upd. destruct (String.eqb_spec (col_name c) (col_name c0)) as [E|E];
          [|reflexivity].
        exfalso. apply Hc0. rewrite <- E. now apply in_map.
      * apply Hincl. now right.
Qed.

Lemma NoDup_names_filter (q : column -> bool) (cols : list column) :
  NoDup (map col_name cols) -> NoDup (map col_name (filter q cols)).
Proof.
  induction cols as [|c r IH]; intros H; simpl; [constructor|].
  simpl in H. inversion H as [|? ? Hc Hr]; subst.
  destruct (q c); simpl; [|now apply IH].
  constructor; [|now apply IH].
  intros Hin. apply Hc. apply in_map_iff in Hin. destruct Hin as [x [Hx Hin]].
  apply filter_In in Hin. rewrite <- Hx. apply in_map. tauto.
Qed.

Lemma mem_names_filter (q : column -> bool) (cols : list column) (c : column) :
  NoDup (map col_name cols) -> In c cols ->
  mem (col_name c) (map col_name (filter q cols)) = q c.
Proof.
  intros Hnd Hc. apply eq_true_iff_eq. rewrite mem_In. now apply In_names_filter.
Qed.

(** The same, for the columns picked by a test. *)
Lemma setitem_each_filter (f : column -> list cell) (dt : dtype) (q : column -> bool)
      (cols : list column) :
  NoDup (map col_name cols) ->
  setitem_each cols (map col_name (filter q cols)) dt (map f (filter q cols))
  = map (fun c => if q c then mkColumn (col_name c) dt (f c) else c) cols.
Proof.
  intros Hnd. rewrite setitem_each_map.
  - apply map_ext_in. intros c Hc. now rewrite mem_names_filter.
  - assumption.
  - now apply NoDup_names_filter.
  - intros c Hc. apply filter_In in Hc. tauto.
Qed.

(** ** The imputer, column by column *)

Lemma length_impute (stat : option value) (cells : list cell) :
  length (impute stat cells) <= 1.
Proof. destruct stat; simpl; lia. Qed.

Lemma impute_all_length (text : string) (s : strategy) (X : list column)
      (out : list (list cell)) :
  impute_all text s X = Ok out -> length out <= length X.
Proof.
  revert out. induction X as [|c X IH]; intros out H.
  - destruct s; simpl in H; injection H as <-; simpl; lia.
  - destruct s; simpl in H.
    + destruct (as_float_cells (col_cells c)) as [cs|]; [|discriminate].
      destruct (impute_mean text X) as [out'|] eqn:E; [|discriminate].
      simpl in H. injection H as <-. rewrite length_app. simpl.
      pose proof (length_impute (mean cs) cs). specialize (IH out' E). lia.
    + destruct (most_frequent (col_cells c)) as [stat|]; [|discriminate].
      simpl in H.
      destruct (impute_most_frequent X) as [out'|] eqn:E; [|discriminate].
      simpl in H. injection H as <-. rewrite length_app. simpl.
      pose proof (length_impute stat (col_cells c)). specialize (IH out' E). lia.
Qed.

(** When no column is left out, every column was imputed. *)
Lemma impute_all_full (text : string) (s : strategy) (X : list column)
      (out : list (list cell)) :
  impute_all text s X = Ok out -> length out = length X ->
  out = map (imputed_or_empty s) X /\
  Forall (fun c => imputed_cells s (col_cells c) <> None) X.
Proof.
  revert out. induction X as [|c X IH]; intros out H Hlen.
  - destruct s; simpl in H; injection H as <-; (split; [reflexivity | apply Forall_nil]).
  - destruct s; simpl in H.
    + destruct (as_float_cells (col_cells c)) as [cs|] eqn:Ec; [|discriminate].
      destruct (impute_mean text X) as [out'|] eqn:E; [|discriminate].
      simpl in H. injection H as <-.
      pose proof (impute_all_length text Mean X E) as Hle.
      rewrite length_app in Hlen. simpl in Hlen.
      destruct (mean cs) as [m|] eqn:Em; simpl in Hlen; [|lia].
      destruct (IH out' E ltac:(lia)) as [-> HF]. split.
      * assert (imputed_or_empty Mean c = fillna m cs) as Hc
            by (unfold imputed_or_empty, imputed_cells; now rewrite Ec, Em).
        cbn [map impute app]. now rewrite Hc.
      * constructor; [|assumption]. unfold imputed_cells. rewrite Ec, Em. discriminate.
    + destruct (most_frequent (col_cells c)) as [stat|] eqn:Ec; [|discriminate].
      simpl in H.
      destruct (impute_most_frequent X) as [out'|] eqn:E; [|discriminate].
      simpl in H. injection H as <-.
      pose proof (impute_all_length text MostFrequent X E) as Hle.
      rewrite length_app in Hlen. simpl in Hlen.
      destruct stat as [m|]; simpl in Hlen; [|lia].
      destruct (IH out' E ltac:(lia)) as [-> HF]. split.
      * assert (imputed_or_empty MostFrequent c = fillna m (col_cells c)) as Hc
            by (unfold imputed_or_empty, imputed_cells; now rewrite Ec).
        cbn [map impute app]. now rewrite Hc.
      * constructor; [|assumption]. unfold imputed_cells. rewrite Ec. discriminate.
Qed.

(** Conversely, columns that can all be imputed are all in the output. *)
Lemma impute_all_complete (text : string) (s : strategy) (X : list column) :
  Forall (fun c => imputed_cells s (col_cells c) <> None) X ->
  impute_all text s X = Ok (map (imputed_or_empty s) X).
Proof.
  induction 1 as [|c X Hc HX IH]; [now destruct s|].
  destruct s; cbn [impute_all impute_mean impute_most_frequent map] in *.
  - assert (exists cs m, as_float_cells (col_cells c) = Some cs
                         /\ mean cs = Some m) as [cs [m [Ec Em]]].
    { unfold imputed_cells in Hc.
      destruct (as_float_cells (col_cells c)) as [cs|]; [|congruence].
      destruct (mean cs) as [m|] eqn:Em; [|simpl in Hc; congruence].
      now exists cs, m. }
    assert (imputed_or_empty Mean c = fillna m cs) as ->
        by (unfold imputed_or_empty, imputed_cells; now rewrite Ec, Em).
    rewrite Ec, IH, Em. reflexivity.
  - assert (exists m, most_frequent (col_cells c) = Ok (Some m)) as [m Ec].
    { unfold imputed_cells in Hc.
      destruct (most_frequent (col_cells c)) as [[m|]|]; try congruence.
      now exists m. }
    assert (imputed_or_empty MostFrequent c = fillna m (col_cells c)) as ->
        by (unfold imputed_or_empty, imputed_cells; now rewrite Ec).
    rewrite Ec, IH. reflexivity.
Qed.

Lemma fit_transform_impute_all (s : strategy) (n : nat) (X : list column) :
  fit_transform s n X =
  if nonempty X then
    if n =? 0 then
      Raise (mkException ValueError
               ("Found array with 0 sample(s) (shape=(0, " ++ str_of_nat (length X)
                ++ ")) while a minimum of 1 is required by SimpleImputer.")%string)
    else rbind (impute_all (non_numeric X) s X) (fun out => Ok (mkArray (out_dtype s X) out))
  else Raise (mkException ValueError "at least one array or dtype is required").
Proof.
  destruct X as [|c X]; [reflexivity|]. unfold fit_transform, nonempty.
  destruct (n =? 0); [reflexivity|]. now destruct s.
Qed.

Lemma nonempty_true {A} (l : list A) : nonempty l = true <-> l <> [].
Proof. destruct l; simpl; split; congruence. Qed.

Lemma impute_in_place_ok (s : strategy) (q : column -> bool) (w w1 : World) :
  let df := frame w in
  NoDup (columns df) ->
  impute_in_place s (map col_name (filter q (df_cols df))) w = (Ok tt, w1) ->
  filter q (df_cols df) <> [] /\ df_nrows df <> 0 /\
  Forall (fun c => imputed_cells s (col_cells c) <> None) (filter q (df_cols df)) /\
  w1 = with_frame w (imputed_frame s q df).
Proof.
  intros df Hnd. unfold impute_in_place, bind, get_frame, lift, put_frame. fold df.
  rewrite getitem_list_names;
    [|assumption | intros c Hc; apply filter_In in Hc; tauto].
  rewrite fit_transform_impute_all.
  destruct (nonempty (filter q (df_cols df))) eqn:EX; [|discriminate].
  apply nonempty_true in EX.
  destruct (Nat.eqb_spec (df_nrows df) 0) as [|Hn]; [discriminate|].
  destruct (impute_all _ s (filter q (df_cols df))) as [out|] eqn:Eout; [|discriminate].
  cbn [rbind]. unfold setitem_list. cbn [arr_cols arr_dtype].
  rewrite length_map.
  destruct (Nat.eqb_spec (length (filter q (df_cols df))) (length out)) as [Hlen|Hlen];
    [|discriminate].
  destruct (impute_all_full _ s _ Eout (eq_sym Hlen)) as [-> HF].
  intros [= <-]. repeat split; try assumption.
  unfold with_frame, imputed_frame. f_equal. f_equal.
  now rewrite setitem_each_filter.
Qed.

Lemma impute_in_place_complete (s : strategy) (q : column -> bool) (w : World) :
  let df := frame w in
  NoDup (columns df) ->
  filter q (df_cols df) <> [] -> df_nrows df <> 0 ->
  Forall (fun c => imputed_cells s (col_cells c) <> None) (filter q (df_cols df)) ->
  impute_in_place s (map col_name (filter q (df_cols df))) w
  = (Ok tt, with_frame w (imputed_frame s q df)).
Proof.
  intros df Hnd HX Hn HF.
  unfold impute_in_place, bind, get_frame, lift, put_frame. fold df.
  rewrite getitem_list_names;
    [|assumption | intros c Hc; apply filter_In in Hc; tauto].
  rewrite fit_transform_impute_all.
  apply nonempty_true in HX. rewrite HX.
  apply Nat.eqb_neq in Hn. rewrite Hn.
  rewrite impute_all_complete by exact HF. cbn [rbind].
  unfold setitem_list. cbn [arr_cols arr_dtype]. rewrite !length_map, Nat.eqb_refl.
  unfold with_frame, imputed_frame. f_equal. f_equal. f_equal.
  now rewrite setitem_each_filter.
Qed.

(** A failed imputation leaves the world as it was. *)
Lemma impute_in_place_raise (s : strategy) (keys : list string) (w w1 : World)
      (e : exception) :
  impute_in_place s keys w = (Raise e, w1) -> w1 = w.
Proof.
  unfold impute_in_place, bind, get_frame, lift, put_frame.
  destruct (getitem_list _ _); [|now intros [= _ <-]].
  destruct (fit_transform _ _ _); [|now intros [= _ <-]].
  destruct (setitem_list _ _ _); [discriminate | now intros [= _ <-]].
Qed.

(** ** The aligner, step by step *)

Lemma preprocess_body_steps (model_columns : list string) (w : World) :
  preprocess_body model_columns w =
  let column_types := detect_column_types (frame w) in
  match impute_in_place Mean (numeric column_types) w with
  | (Raise e, w') => (Raise e, w')
  | (Ok _, w1) =>
      match impute_in_place MostFrequent (categorical column_types) w1 with
      | (Raise e, w') => (Raise e, w')
      | (Ok _, w2) =>
          match encode_and_align model_columns (frame w2) (categorical column_types) with
          | Raise e => (Raise e, w2)
          | Ok out =>
              if artifacts_dir w2 then
                (Ok out, {| frame := frame w2; artifacts_dir := true;
                            X_processed := Some out |})
              else (Raise no_directory, w2)
          end
      end
  end.
Proof.
  unfold preprocess_body, bind, get_frame. cbv zeta.
  destruct (impute_in_place Mean _ w) as [[[]|e] w1]; [|reflexivity].
  destruct (impute_in_place MostFrequent _ w1) as [[[]|e] w2]; [|reflexivity].
  unfold encode_and_align, lift.
  destruct (get_dummies (frame w2) _) as [enc|e]; [|reflexivity].
  cbn [rbind].
  destruct (getitem_list _ model_columns) as [selected|e]; [|reflexivity].
  cbn [rbind]. unfold to_csv, ret.
  destruct (artifacts_dir w2); reflexivity.
Qed.

Lemma preprocess_dataset_body (model_columns : list string) (w : World) :
  preprocess_dataset model_columns w =
  match preprocess_body model_columns w with
  | (Ok out, w') => (Ok out, w')
  | (Raise cause, w') => (Raise (wrap cause), w')
  end.
Proof. reflexivity. Qed.

Lemma impute_in_place_nothing (s : strategy) (w : World) :
  impute_in_place s [] w
  = (Raise (mkException ValueError "at least one array or dtype is required"), w).
Proof. reflexivity. Qed.

(** C5. Whatever fails inside [preprocess_dataset] (the imputation of the
    numeric columns, that of the categorical columns, the encoding and
    reconciliation with the schema, or saving the file) comes out as one
    [ValueError] whose message is "Preprocessing failed: " followed by the
    message of the cause; no other exception leaves the function, and an
    outcome is either that error or the matrix the body returned. *)
Theorem preprocess_dataset_wraps_failures (model_columns : list string) (w : World) :
  let column_types := detect_column_types (frame w) in
  let outcome := fst (preprocess_dataset model_columns w) in
  (forall cause,
     fst (preprocess_body model_columns w) = Raise cause ->
     outcome = Raise (wrap cause)) /\
  (forall e, outcome = Raise e ->
     exc_type e = ValueError /\
     exists cause,
       fst (preprocess_body model_columns w) = Raise cause /\
       exc_msg e = ("Preprocessing failed: " ++ exc_msg cause)%string) /\
  (forall out, outcome = Ok out <->
     fst (preprocess_body model_columns w) = Ok out) /\
  (forall cause,
     fst (impute_in_place Mean (numeric column_types) w) = Raise cause ->
     outcome = Raise (wrap cause)) /\
  (forall w1 cause,
     impute_in_place Mean (numeric column_types) w = (Ok tt, w1) ->
     fst (impute_in_place MostFrequent (categorical column_types) w1)
     = Raise cause ->
     outcome = Raise (wrap cause)) /\
  (forall w1 w2 cause,
     impute_in_place Mean (numeric column_types) w = (Ok tt, w1) ->
     impute_in_place MostFrequent (categorical column_types) w1
     = (Ok tt, w2) ->
     encode_and_align model_columns (frame w2) (categorical column_types) = Raise cause ->
     outcome = Raise (wrap cause)).
Proof.
  intros column_types outcome. subst outcome.
  rewrite preprocess_dataset_body.
  split; [|split; [|split; [|split; [|split]]]].
  - intros cause H.
    destruct (preprocess_body _ w) as [[out|e] w']; simpl in *; congruence.
  - intros e H.
    destruct (preprocess_body _ w) as [[out|cause] w']; simpl in *; [discriminate|].
    injection H as <-. split; [reflexivity|]. now exists cause.
  - intros out.
    destruct (preprocess_body _ w) as [[out'|cause] w']; simpl; split; congruence.
  - intros cause H. rewrite preprocess_body_steps. cbv zeta. fold column_types.
    destruct (impute_in_place Mean _ w) as [[[]|e] w1]; simpl in *; congruence.
  - intros w1 cause H1 H2. rewrite preprocess_body_steps. cbv zeta. fold column_types.
    rewrite H1.
    destruct (impute_in_place MostFrequent _ w1) as [[[]|e] w2]; simpl in *; congruence.
  - intros w1 w2 cause H1 H2 H3. rewrite preprocess_body_steps. cbv zeta.
    fold column_types. now rewrite H1, H2, H3.
Qed.

(** C10. When the classifier reports no numeric column, or no categorical
    column, [preprocess_dataset] raises: an imputer is handed an empty
    selection of columns.  This happens on well-formed tables without a
    missing value: a table of text columns, and a table of numeric columns
    with more than 15 distinct values each. *)
Theorem preprocess_dataset_empty_selection (model_columns : list string) (w : World) :
  let column_types := detect_column_types (frame w) in
  let outcome := fst (preprocess_dataset model_columns w) in
  let run df :=
    fst (preprocess_dataset model_columns (world_of df)) in
  let complete df :=
    forall c, In c (df_cols df) -> forall x, In x (col_cells c) -> x <> None in
  let no_columns :=
    mkException ValueError
      "Preprocessing failed: at least one array or dtype is required" in
  (numeric column_types = [] -> outcome = Raise no_columns) /\
  (numeric column_types = [] \/ categorical column_types = [] ->
     exists msg,
       outcome = Raise (mkException ValueError ("Preprocessing failed: " ++ msg)%string)) /\
  (wf_table text_table = true /\ complete text_table /\
   numeric (detect_column_types text_table) = [] /\
   run text_table = Raise no_columns) /\
  (wf_table number_table = true /\ complete number_table /\
   categorical (detect_column_types number_table) = [] /\
   run number_table = Raise no_columns).
Proof.
  intros column_types outcome run complete no_columns.
  assert (Hnum : numeric column_types = [] -> outcome = Raise no_columns).
  { intros H. subst outcome.
    rewrite preprocess_dataset_body, preprocess_body_steps. cbv zeta.
    fold column_types. rewrite H, impute_in_place_nothing. reflexivity. }
  split; [exact Hnum|]. split; [|split].
  - intros [H|H].
    + eexists. rewrite (Hnum H). reflexivity.
    + subst outcome.
      rewrite preprocess_dataset_body, preprocess_body_steps. cbv zeta.
      fold column_types. rewrite H.
      destruct (impute_in_place Mean _ w) as [[[]|e] w1].
      * rewrite impute_in_place_nothing. eexists. reflexivity.
      * exists (exc_msg e). reflexivity.
  - split; [reflexivity|]. split; [|split; reflexivity].
    intros c Hc x Hx.
    simpl in Hc. destruct Hc as [<-|[<-|[]]]; simpl in Hx;
      repeat (destruct Hx as [<-|Hx]; [discriminate|]); contradiction.
  - split; [reflexivity|]. split; [|split; reflexivity].
    intros c Hc x Hx.
    simpl in Hc. destruct Hc as [<-|[<-|[]]]; simpl in Hx;
      repeat (destruct Hx as [<-|Hx]; [discriminate|]); contradiction.
Qed.

(** ** Reconciliation with the schema *)

Lemma lookup_app (cols cols' : list column) (key : string) :
  lookup (cols ++ cols') key = lookup cols key ++ lookup cols' key.
Proof. unfold lookup. apply filter_app. Qed.

Lemma lookup_absent (cols : list column) (key : string) :
  mem key (map col_name cols) = false -> lookup cols key = [].
Proof.
  intros H. apply filter_none. intros c Hc. apply String.eqb_neq. intros E.
  apply mem_false in H. apply H. rewrite <- E. now apply in_map.
Qed.

Lemma lookup_present (cols : list column) (key : string) :
  mem key (map col_name cols) = true -> lookup cols key <> [].
Proof.
  intros H. apply mem_In, in_map_iff in H. destruct H as [c [E Hc]].
  intros Hnil. assert (In c (lookup cols key)) as Hin.
  { apply filter_In. split; [assumption|]. now apply String.eqb_eq. }
  rewrite Hnil in Hin. contradiction.
Qed.

Lemma mem_app (x : string) (l l' : list string) :
  mem x (l ++ l') = mem x l || mem x l'.
Proof. unfold mem. apply existsb_app. Qed.

(** The columns labelled [key] once the loop over [keys] has run. *)
Lemma lookup_add_missing (nrows : nat) (keys : list string) (cols : list column)
      (key : string) :
  lookup (fold_left (add_missing nrows) keys cols) key =
  if mem key (map col_name cols) then lookup cols key
  else if mem key keys then [zero_column nrows key] else [].
Proof.
  revert cols. induction keys as [|k ks IH]; intros cols; cbn [fold_left].
  - destruct (mem key (map col_name cols)) eqn:E; [reflexivity|].
    now apply lookup_absent.
  - rewrite IH. unfold add_missing, setitem.
    destruct (mem k (map col_name cols)) eqn:Ek; cbn [negb].
    + destruct (mem key (map col_name cols)) eqn:E; [reflexivity|].
      unfold mem at 2. cbn [existsb]. fold (mem key ks).
      destruct (String.eqb_spec key k) as [->|Hne]; [congruence | reflexivity].
    + rewrite map_app, mem_app, lookup_app. cbn [map col_name].
      unfold mem at 2. cbn [existsb]. rewrite orb_false_r.
      unfold mem at 4. cbn [existsb]. fold (mem key ks).
      unfold lookup at 2. cbn [filter col_name].
      rewrite (String.eqb_sym k key).
      destruct (String.eqb_spec key k) as [->|Hne].
      * rewrite Ek, (lookup_absent _ _ Ek). reflexivity.
      * rewrite orb_false_r, app_nil_r. reflexivity.
Qed.

Lemma getitem_list_all (cols : list column) (keys : list string) :
  (forall key, In key keys -> lookup cols key <> []) ->
  getitem_list cols keys = Ok (flat_map (lookup cols) keys).
Proof.
  induction keys as [|k ks IH]; intros H; [reflexivity|].
  cbn [getitem_list flat_map].
  rewrite IH by (intros key Hk; apply H; now right).
  destruct (lookup cols k) eqn:E; [|reflexivity].
  exfalso. apply (H k); [now left | assumption].
Qed.

Lemma flat_map_agree {A B} (f g : A -> list B) (l : list A) :
  (forall x, In x l -> f x = g x) -> flat_map f l = flat_map g l.
Proof.
  induction l as [|x r IH]; intros H; [reflexivity|].
  simpl. rewrite (H x) by now left. rewrite IH; [reflexivity|].
  intros y Hy. apply H. now right.
Qed.

(** After the loop, the final selection never fails, and returns for each
    label of the schema the encoded columns that carry it, or a column of
    zeros when there is none. *)
Lemma getitem_list_add_missing (nrows : nat) (cols : list column) (keys : list string) :
  getitem_list (fold_left (add_missing nrows) keys cols) keys
  = Ok (flat_map (aligned nrows cols) keys).
Proof.
  rewrite getitem_list_all.
  - f_equal. apply flat_map_agree. intros key Hkey.
    rewrite lookup_add_missing. unfold aligned.
    apply mem_In in Hkey. now rewrite Hkey.
  - intros key Hkey. rewrite lookup_add_missing.
    destruct (mem key (map col_name cols)) eqn:E; [now apply lookup_present|].
    apply mem_In in Hkey. rewrite Hkey. discriminate.
Qed.

(** ** Rounding to float64 *)

Unset Implicit Arguments.

Open Scope Q_scope.

Lemma two_nonzero : ~ 2 == 0.
Proof. discriminate. Qed.

Lemma pow2_pos (z : Z) : 0 < 2 ^ z.
Proof. apply Qpower_0_lt. reflexivity. Qed.

Lemma pow2_plus (a b : Z) : 2 ^ (a + b) == 2 ^ a * 2 ^ b.
Proof. apply Qpower_plus, two_nonzero. Qed.

Lemma pow2_Z (a : Z) : (0 <= a)%Z -> inject_Z (2 ^ a) == 2 ^ a.
Proof. intros H. now rewrite Zpower_Qpower. Qed.

Lemma pow2_cancel (k : Z) : 2 ^ k * 2 ^ (- k) == 1.
Proof. rewrite <- pow2_plus. now rewrite Z.add_opp_diag_r. Qed.

Lemma binade_spec (q : Q) : 0 < q -> 2 ^ binade q <= q /\ q < 2 ^ (binade q + 1).
Proof.
  intros Hq. destruct q as [n d]. unfold binade. cbn [Qnum Qden].
  assert (Hn : (0 < n)%Z) by (unfold Qlt in Hq; simpl in Hq; lia).
  set (a := Z.log2 n). set (b := Z.log2 (Z.pos d)).
  destruct (Z.log2_spec n Hn) as [Ha1 Ha2]. fold a in Ha1, Ha2.
  destruct (Z.log2_spec (Z.pos d) eq_refl) as [Hb1 Hb2]. fold b in Hb1, Hb2.
  assert (Ha : (0 <= a)%Z) by apply Z.log2_nonneg.
  assert (Hb : (0 <= b)%Z) by apply Z.log2_nonneg.
  assert (Hd : 0 < inject_Z (Z.pos d)) by reflexivity.
  assert (Hnd : (n # d) * inject_Z (Z.pos d) == inject_Z n).
  { unfold Qeq, Qmult, inject_Z. simpl. lia. }
  assert (QA1 : 2 ^ a <= inject_Z n) by (rewrite <- pow2_Z by lia; now rewrite <- Zle_Qle).
  assert (QA2 : inject_Z n < 2 ^ (a + 1))
    by (rewrite <- pow2_Z by lia; now rewrite <- Zlt_Qlt; replace (a + 1)%Z with (Z.succ a) by lia).
  assert (QB1 : 2 ^ b <= inject_Z (Z.pos d)) by (rewrite <- pow2_Z by lia; now rewrite <- Zle_Qle).
  assert (QB2 : inject_Z (Z.pos d) < 2 ^ (b + 1))
    by (rewrite <- pow2_Z by lia; now rewrite <- Zlt_Qlt; replace (b + 1)%Z with (Z.succ b) by lia).
  assert (Hup : (n # d) < 2 ^ (a - b + 1)).
  { apply (Qmult_lt_r _ _ (inject_Z (Z.pos d)) Hd). rewrite Hnd.
    apply (Qlt_le_trans _ _ _ QA2).
    replace (a + 1)%Z with ((a - b + 1) + b)%Z by lia. rewrite pow2_plus.
    apply Qmult_le_l; [apply pow2_pos | exact QB1]. }
  assert (Hlo : 2 ^ (a - b - 1) <= (n # d)).
  { apply Qlt_le_weak. apply (Qmult_lt_r _ _ (inject_Z (Z.pos d)) Hd). rewrite Hnd.
    apply (Qlt_le_trans _ (2 ^ a)); [|exact QA1].
    replace a with ((a - b - 1) + (b + 1))%Z at 2 by lia. rewrite pow2_plus.
    apply Qmult_lt_l; [apply pow2_pos | exact QB2]. }
  destruct (Qle_bool (2 ^ (a - b)) (n # d)) eqn:E.
  - apply Qle_bool_iff in E. split; assumption.
  - split; [exact Hlo|]. replace (a - b - 1 + 1)%Z with (a - b)%Z by lia.
    apply Qnot_le_lt. intros H. apply Qle_bool_iff in H. congruence.
Qed.

Lemma binade_unique (q : Q) (e : Z) :
  2 ^ e <= q -> q < 2 ^ (e + 1) -> binade q = e.
Proof.
  intros H1 H2.
  assert (Hq : 0 < q) by (apply (Qlt_le_trans _ (2 ^ e)); [apply pow2_pos | exact H1]).
  destruct (binade_spec q Hq) as [B1 B2].
  assert (L1 : (e < binade q + 1)%Z).
  { apply (Qpower_lt_compat_l_inv 2); [|reflexivity].
    apply (Qle_lt_trans _ q); assumption. }
  assert (L2 : (binade q < e + 1)%Z).
  { apply (Qpower_lt_compat_l_inv 2); [|reflexivity].
    apply (Qle_lt_trans _ q); assumption. }
  lia.
Qed.

Lemma round_half_even_comp (p q : Q) : p == q -> round_half_even p = round_half_even q.
Proof.
  intros H. unfold round_half_even. rewrite (Qfloor_comp _ _ H).
  assert (E : p - inject_Z (Qfloor q) == q - inject_Z (Qfloor q)) by now rewrite H.
  now rewrite (Qcompare_comp _ _ E _ _ (Qeq_refl (1 # 2))).
Qed.

Lemma round_half_even_Z (z : Z) : round_half_even (inject_Z z) = z.
Proof.
  unfold round_half_even. rewrite Qfloor_Z.
  assert (E : inject_Z z - inject_Z z == 0) by ring.
  now rewrite (Qcompare_comp _ _ E _ _ (Qeq_refl (1 # 2))).
Qed.

Lemma round_half_even_bounds (q : Q) (lo hi : Z) :
  inject_Z lo <= q -> q <= inject_Z hi ->
  (lo <= round_half_even q <= hi)%Z.
Proof.
  intros H1 H2.
  assert (F1 : (lo <= Qfloor q)%Z)
    by (rewrite <- (Qfloor_Z lo); now apply Qfloor_resp_le).
  assert (F2 : (Qfloor q <= hi)%Z)
    by (rewrite <- (Qfloor_Z hi); now apply Qfloor_resp_le).
  destruct (Z.eq_dec (Qfloor q) hi) as [E|E].
  - assert (Hq : q == inject_Z hi).
    { apply Qle_antisym; [exact H2|]. rewrite <- E. apply Qfloor_le. }
    rewrite (round_half_even_comp _ _ Hq), round_half_even_Z. lia.
  - unfold round_half_even.
    destruct (Qcompare _ _); [destruct (Z.even _)| |]; lia.
Qed.

(** A number of 53 bits scaled by a power of two is fixed. *)
Lemma round_53_scaled (y : Q) (m k : Z) :
  (2 ^ 52 <= m <= 2 ^ 53)%Z -> y == inject_Z m * 2 ^ k ->
  round_53 y == y.
Proof.
  intros Hm Hy.
  assert (Q52 : inject_Z (2 ^ 52) == 2 ^ 52) by reflexivity.
  assert (Q53 : inject_Z (2 ^ 53) == 2 ^ 53) by reflexivity.
  destruct (Z.eq_dec m (2 ^ 53)) as [E|E].
  - assert (Hb : binade y = (53 + k)%Z).
    { apply binade_unique.
      - rewrite Hy, E, Q53, <- pow2_plus. apply Qle_refl.
      - rewrite Hy, E, Q53, <- pow2_plus.
        apply Qpower_lt_compat_l; [lia | reflexivity]. }
    unfold round_53. rewrite Hb.
    replace (53 + k - 52)%Z with (k + 1)%Z by lia.
    assert (Hx : y * 2 ^ (- (k + 1)) == inject_Z (2 ^ 52)).
    { rewrite Hy, E, Q53, Q52, <- !pow2_plus. now replace (53 + k + - (k + 1))%Z with 52%Z by lia. }
    rewrite (round_half_even_comp _ _ Hx), round_half_even_Z.
    rewrite Hy, E, Q52, Q53, <- !pow2_plus. now replace (52 + (k + 1))%Z with (53 + k)%Z by lia.
  - assert (Hb : binade y = (52 + k)%Z).
    { apply binade_unique.
      - rewrite Hy, pow2_plus. apply Qmult_le_r; [apply pow2_pos|].
        rewrite <- Q52. rewrite <- Zle_Qle. lia.
      - rewrite Hy. replace (52 + k + 1)%Z with (53 + k)%Z by lia. rewrite pow2_plus.
        apply Qmult_lt_r; [apply pow2_pos|].
        rewrite <- Q53. rewrite <- Zlt_Qlt. lia. }
    unfold round_53. rewrite Hb.
    replace (52 + k - 52)%Z with k by lia.
    assert (Hx : y * 2 ^ (- k) == inject_Z m).
    { rewrite Hy, <- Qmult_assoc, pow2_cancel. ring. }
    rewrite (round_half_even_comp _ _ Hx), round_half_even_Z. now rewrite Hy.
Qed.

Lemma round_53_form (q : Q) :
  0 < q -> exists m, (2 ^ 52 <= m <= 2 ^ 53)%Z /\
                     round_53 q == inject_Z m * 2 ^ (binade q - 52).
Proof.
  intros Hq. destruct (binade_spec q Hq) as [B1 B2].
  set (k := (binade q - 52)%Z).
  exists (round_half_even (q * 2 ^ (- k))). split; [|reflexivity].
  apply round_half_even_bounds.
  - change (inject_Z (2 ^ 52)) with (2 ^ 52).
    apply (Qmult_le_r _ _ (2 ^ k)); [apply pow2_pos|].
    rewrite <- Qmult_assoc, (Qmult_comm (2 ^ (- k))), pow2_cancel, Qmult_1_r, <- pow2_plus.
    now replace (52 + k)%Z with (binade q) by (unfold k; lia).
  - change (inject_Z (2 ^ 53)) with (2 ^ 53).
    apply (Qmult_le_r _ _ (2 ^ k)); [apply pow2_pos|].
    rewrite <- Qmult_assoc, (Qmult_comm (2 ^ (- k))), pow2_cancel, Qmult_1_r, <- pow2_plus.
    replace (53 + k)%Z with (binade q + 1)%Z by (unfold k; lia).
    now apply Qlt_le_weak.
Qed.

Lemma round_53_pos (q : Q) : 0 < q -> 0 < round_53 q.
Proof.
  intros Hq. destruct (round_53_form q Hq) as [m [Hm ->]].
  apply Qmult_lt_0_compat; [|apply pow2_pos].
  change 0 with (inject_Z 0). rewrite <- Zlt_Qlt. lia.
Qed.

Lemma round_53_idem (p q : Q) : 0 < q -> p == round_53 q -> round_53 p == p.
Proof.
  intros Hq Hp. destruct (round_53_form q Hq) as [m [Hm E]].
  apply (round_53_scaled p m (binade q - 52) Hm). now rewrite Hp.
Qed.

(** Rounding gives a float64 number, and leaves a float64 number as it is. *)
Lemma float64_idem (q : Q) : float64 (float64 q) = float64 q.
Proof.
  remember (float64 q) as y eqn:Ey. unfold float64 in Ey.
  destruct (Qcompare_spec q 0) as [H|H|H].
  - now subst y.
  - assert (Hn : 0 < - q) by (rewrite <- (Qopp_involutive 0); now apply Qopp_lt_compat).
    pose proof (round_53_pos _ Hn) as Hr.
    assert (Hy : y == - round_53 (- q)) by (subst y; apply Qred_correct).
    assert (Hneg : y < 0).
    { rewrite Hy. change 0 with (- 0). now apply Qopp_lt_compat. }
    unfold float64. destruct (Qcompare_spec y 0) as [H0|H0|H0].
    + rewrite H0 in Hneg. now apply Qlt_irrefl in Hneg.
    + rewrite Ey at 2. apply Qred_complete. apply Qopp_comp.
      rewrite (round_53_idem (- y) (- q) Hn) by (rewrite Hy; ring).
      rewrite Hy. ring.
    + exfalso. apply (Qlt_irrefl 0). now apply (Qlt_trans _ y).
  - pose proof (round_53_pos _ H) as Hr.
    assert (Hy : y == round_53 q) by (subst y; apply Qred_correct).
    unfold float64. destruct (Qcompare_spec y 0) as [H0|H0|H0].
    + rewrite Hy in H0. rewrite H0 in Hr. now apply Qlt_irrefl in Hr.
    + exfalso. rewrite Hy in H0. apply (Qlt_irrefl 0). now apply (Qlt_trans _ (round_53 q)).
    + rewrite Ey at 2. apply Qred_complete.
      rewrite (round_53_idem y q H Hy). exact Hy.
Qed.

Close Scope Q_scope.

Lemma float_cell_idem (c : cell) : float_cell (float_cell c) = float_cell c.
Proof. destruct c as [[q|t]|]; simpl; [|reflexivity|reflexivity]. now rewrite float64_idem. Qed.

(** A float64 number and its rounding are one value. *)
Lemma is_float64_canon (q : Q) :
  is_float64 q = true -> canon (VNum (float64 q)) = canon (VNum q).
Proof.
  unfold is_float64. intros H. apply Qeq_bool_iff in H. simpl. f_equal.
  now apply Qred_complete.
Qed.

(** ** Cells under imputation *)

Lemma as_float_cells_spec (cells cs : list cell) :
  as_float_cells cells = Some cs ->
  cs = map float_cell (map to_numeric cells) /\ forallb is_num_cell cs = true.
Proof.
  revert cs. induction cells as [|c r IH]; intros cs H; simpl in H.
  - injection H as <-. now split.
  - destruct (as_float c) as [c'|] eqn:Ec; [|discriminate].
    destruct (as_float_cells r) as [r'|]; [|discriminate].
    injection H as <-. destruct (IH r' eq_refl) as [-> Hr]. split.
    + simpl. f_equal. destruct c as [[q|t]|]; simpl in *.
      * now injection Ec as <-.
      * destruct (str_to_float t); [now injection Ec as <- | discriminate].
      * now injection Ec as <-.
    + simpl. rewrite Hr, andb_true_r. destruct c as [[q|t]|]; simpl in Ec.
      * now injection Ec as <-.
      * destruct (str_to_float t); [now injection Ec as <- | discriminate].
      * now injection Ec as <-.
Qed.

Lemma as_float_cells_numbers (cells : list cell) :
  forallb is_num_cell cells = true ->
  as_float_cells cells = Some (map float_cell cells) /\
  map (to_numeric) cells = cells.
Proof.
  induction cells as [|c r IH]; intros H; [now split|].
  simpl in H. apply andb_true_iff in H. destruct H as [Hc Hr].
  destruct (IH Hr) as [E1 E2]. simpl. rewrite E1, E2.
  destruct c as [[q|t]|]; simpl in *; try discriminate; now split.
Qed.

Lemma is_number_num_cell (cells : list cell) :
  forallb is_number cells = true -> forallb is_num_cell cells = true.
Proof.
  rewrite !forallb_forall. intros H x Hx. specialize (H x Hx).
  now destruct x as [[q|t]|].
Qed.

Lemma mean_some (cs : list cell) (m : value) :
  mean cs = Some m -> (exists q, m = VNum (float64 q)) /\ numbers cs <> [].
Proof.
  unfold mean. destruct (numbers cs) as [|q qs]; [discriminate|].
  intros [= <-]. split; [eexists; reflexivity | discriminate].
Qed.

Lemma float_cell_fillna (q : Q) (cs : list cell) :
  map float_cell (fillna (VNum (float64 q)) (map float_cell cs))
  = fillna (VNum (float64 q)) (map float_cell cs).
Proof.
  unfold fillna. rewrite !map_map. apply map_ext. intros [[p|t]|]; simpl;
    now rewrite ?float64_idem.
Qed.

Lemma fillna_numbers (q : Q) (cs : list cell) :
  forallb is_num_cell cs = true -> forallb is_number (fillna (VNum q) cs) = true.
Proof.
  intros H. rewrite forallb_forall in *. intros x Hx.
  apply in_map_iff in Hx. destruct Hx as [y [<- Hy]]. specialize (H y Hy).
  now destruct y as [[p|t]|].
Qed.

Lemma fillna_fixed (m : value) (cells : list cell) :
  forallb notnull cells = true -> fillna m cells = cells.
Proof.
  induction cells as [|c r IH]; intros H; [reflexivity|].
  simpl in H. apply andb_true_iff in H. destruct H as [Hc Hr].
  simpl. rewrite (IH Hr). now destruct c.
Qed.

Lemma is_number_notnull (cells : list cell) :
  forallb is_number cells = true -> forallb notnull cells = true.
Proof.
  rewrite !forallb_forall. intros H x Hx. specialize (H x Hx). now destruct x.
Qed.

Lemma is_str_notnull (cells : list cell) :
  forallb is_str_cell cells = true -> forallb notnull cells = true.
Proof.
  rewrite !forallb_forall. intros H x Hx. specialize (H x Hx). now destruct x.
Qed.

Lemma numbers_all (cells : list cell) :
  forallb is_number cells = true -> cells <> [] -> numbers cells <> [].
Proof.
  destruct cells as [|[[q|t]|] r]; simpl; intros H Hne; try discriminate.
  contradiction.
Qed.

(** A column of float64 numbers is a fixed point of the mean imputation. *)
Lemma imputed_mean_fixed (o : list cell) :
  forallb is_number o = true -> o <> [] -> map float_cell o = o ->
  imputed_cells Mean o = Some o.
Proof.
  intros Hnum Hne Hfloat. unfold imputed_cells.
  destruct (as_float_cells_numbers o (is_number_num_cell o Hnum)) as [-> _].
  rewrite Hfloat.
  unfold mean. pose proof (numbers_all o Hnum Hne) as Hq.
  destruct (numbers o) as [|q qs]; [congruence|].
  simpl. now rewrite fillna_fixed by now apply is_number_notnull.
Qed.

(** ** Distinct values under imputation *)

Lemma canon_idem (v : value) : canon (canon v) = canon v.
Proof.
  destruct v; simpl; [|reflexivity]. f_equal. apply Qred_complete, Qred_correct.
Qed.

Lemma dropna_canon (cells : list cell) (v : value) :
  In v (dropna cells) -> canon v = v.
Proof.
  induction cells as [|[x|] r IH]; simpl; try tauto.
  intros [<-|H]; [apply canon_idem | now apply IH].
Qed.

Lemma dropna_In (cells : list cell) (v : value) :
  In v (dropna cells) <-> exists x, In (Some x) cells /\ canon x = v.
Proof.
  induction cells as [|[y|] r IH]; simpl.
  - split; [contradiction | intros [x [[] _]]].
  - rewrite IH. split.
    + intros [<-|[x [Hx E]]]; [exists y; tauto | exists x; tauto].
    + intros [x [[[= <-]|Hx] E]]; [now left | right; now exists x].
  - rewrite IH. split; intros [x [Hx E]]; exists x; split; try assumption.
    + now right.
    + destruct Hx as [Hx|Hx]; [discriminate | assumption].
Qed.

Lemma nunique_incl (cells cells' : list cell) :
  incl (dropna cells) (dropna cells') -> nunique cells <= nunique cells'.
Proof.
  intros H. unfold nunique, unique. apply NoDup_incl_length.
  - apply NoDup_nodup.
  - intros v Hv. apply nodup_In. apply H. now apply nodup_In in Hv.
Qed.

Lemma fillna_In (m : value) (cells : list cell) (x : value) :
  In (Some x) (fillna m cells) <-> In (Some x) cells \/ (x = m /\ In None cells).
Proof.
  unfold fillna. rewrite in_map_iff. split.
  - intros [[y|] [E H]]; injection E as <-; [now left | right; now split].
  - intros [H|[-> H]]; [now exists (Some x) | now exists None].
Qed.

(** Filling the missing cells cannot lower the number of distinct values. *)
Lemma nunique_fillna_le (m : value) (cells : list cell) :
  nunique cells <= nunique (fillna m cells).
Proof.
  apply nunique_incl. intros v Hv. apply dropna_In in Hv. destruct Hv as [x [Hx E]].
  apply dropna_In. exists x. split; [|assumption]. apply fillna_In. now left.
Qed.

(** Filling them with an observed value keeps it. *)
Lemma nunique_fillna_observed (m : value) (cells : list cell) :
  In m (dropna cells) -> nunique (fillna m cells) = nunique cells.
Proof.
  intros Hm. apply Nat.le_antisymm; [|apply nunique_fillna_le].
  apply nunique_incl. intros v Hv. apply dropna_In in Hv. destruct Hv as [x [Hx E]].
  apply fillna_In in Hx. destruct Hx as [Hx|[-> _]].
  - apply dropna_In. now exists x.
  - subst v. now rewrite (dropna_canon cells m Hm).
Qed.

(** ** The most frequent value *)

Lemma py_min_from_In (rest : list value) (v m : value) :
  py_min_from v rest = Some m -> In m (v :: rest).
Proof.
  revert v. induction rest as [|x r IH]; intros v H; simpl in H.
  - injection H as <-. now left.
  - destruct (py_lt x v) as [[|]|]; [| |discriminate].
    + right. now apply IH.
    + destruct (IH v H) as [<-|Hm]; [now left | right; now right].
Qed.

(** Between values of one kind, [min] is one of them. *)
Lemma py_min_from_total (p : value -> bool) (rest : list value) (v : value) :
  (forall a b, p a = true -> p b = true -> py_lt a b <> None) ->
  forallb p (v :: rest) = true -> exists m, py_min_from v rest = Some m.
Proof.
  intros Hp. revert v. induction rest as [|x r IH]; intros v H.
  - now exists v.
  - simpl in H. apply andb_true_iff in H. destruct H as [Hv H].
    apply andb_true_iff in H. destruct H as [Hx Hr].
    simpl. pose proof (Hp x v Hx Hv) as Hlt.
    destruct (py_lt x v) as [[|]|]; [| |congruence]; apply IH; simpl;
      now rewrite ?Hv, ?Hx, Hr.
Qed.

Lemma max_attained {A} (f : A -> nat) (l : list A) :
  l <> [] -> exists x, In x l /\ f x = fold_right Nat.max 0 (map f l).
Proof.
  induction l as [|a r IH]; intros H; [congruence|].
  destruct r as [|b r'].
  - exists a. simpl. split; [now left | lia].
  - destruct IH as [x [Hx E]]; [discriminate|].
    cbn [map fold_right] in *.
    destruct (Nat.max_spec (f a) (Nat.max (f b) (fold_right Nat.max 0 (map f r'))))
      as [[_ Hm]|[_ Hm]]; rewrite Hm.
    + exists x. split; [now right | assumption].
    + exists a. split; [now left | reflexivity].
Qed.

Lemma most_frequent_observed (cells : list cell) (m : value) :
  most_frequent cells = Ok (Some m) -> dropna cells <> [].
Proof.
  unfold most_frequent, unique. intros H E. rewrite E in H. discriminate.
Qed.

(** In a column whose values are of one kind, a most frequent value exists
    as soon as a value is observed, and it is one of the observed values. *)
Lemma most_frequent_total (p : value -> bool) (cells : list cell) :
  (forall a b, p a = true -> p b = true -> py_lt a b <> None) ->
  dropna cells <> [] -> forallb p (dropna cells) = true ->
  exists m, most_frequent cells = Ok (Some m) /\ In m (dropna cells).
Proof.
  intros Hp Hne Hall. unfold most_frequent.
  set (f := count (dropna cells)).
  assert (Hu : unique cells <> []).
  { unfold unique. destruct (dropna cells) as [|v r] eqn:E; [congruence|].
    intros Hnil. assert (In v (nodup value_eq_dec (v :: r))) as Hin
        by (apply nodup_In; now left).
    rewrite Hnil in Hin. contradiction. }
  destruct (max_attained f (unique cells) Hu) as [x [Hx Ex]].
  destruct (filter _ (unique cells)) as [|v rest] eqn:E.
  - exfalso. assert (In x []) as Hin; [|contradiction].
    rewrite <- E. apply filter_In. split; [assumption|]. now apply Nat.eqb_eq.
  - assert (Hcand : forallb p (v :: rest) = true).
    { rewrite <- E. apply forallb_forall. intros y Hy. apply filter_In in Hy.
      destruct Hy as [Hy _]. unfold unique in Hy. apply nodup_In in Hy.
      rewrite forallb_forall in Hall. now apply Hall. }
    destruct (py_min_from_total p rest v Hp Hcand) as [m Hm].
    exists m. unfold py_min. rewrite Hm. split; [reflexivity|].
    apply py_min_from_In in Hm. rewrite <- E in Hm.
    apply filter_In in Hm. destruct Hm as [Hm _]. unfold unique in Hm.
    now apply nodup_In in Hm.
Qed.

Lemma most_frequent_In (p : value -> bool) (cells : list cell) (m : value) :
  (forall a b, p a = true -> p b = true -> py_lt a b <> None) ->
  forallb p (dropna cells) = true ->
  most_frequent cells = Ok (Some m) -> In m (dropna cells).
Proof.
  intros Hp Hall Hm.
  destruct (most_frequent_total p cells Hp (most_frequent_observed _ _ Hm) Hall)
    as [m' [E Hin]].
  rewrite Hm in E. now injection E as ->.
Qed.

Lemma py_lt_numbers (a b : value) :
  is_num_value a = true -> is_num_value b = true -> py_lt a b <> None.
Proof. destruct a, b; simpl; congruence. Qed.

Lemma py_lt_strings (a b : value) :
  is_str_value a = true -> is_str_value b = true -> py_lt a b <> None.
Proof. destruct a, b; simpl; congruence. Qed.

Lemma dropna_numbers (cells : list cell) :
  forallb is_num_cell cells = true -> forallb is_num_value (dropna cells) = true.
Proof.
  induction cells as [|[[q|t]|] r IH]; simpl; intros H; try discriminate; auto.
Qed.

Lemma dropna_strings (cells : list cell) :
  forallb is_text_cell cells = true -> forallb is_str_value (dropna cells) = true.
Proof.
  induction cells as [|[[q|t]|] r IH]; simpl; intros H; try discriminate; auto.
Qed.

Lemma dropna_nonempty (cells : list cell) :
  forallb notnull cells = true -> cells <> [] -> dropna cells <> [].
Proof.
  destruct cells as [|[v|] r]; simpl; intros H Hne; try discriminate.
  contradiction.
Qed.

Lemma is_str_text (cells : list cell) :
  forallb is_str_cell cells = true -> forallb is_text_cell cells = true.
Proof.
  rewrite !forallb_forall. intros H x Hx. specialize (H x Hx).
  now destruct x as [[q|t]|].
Qed.

(** A column without missing cells, of numbers or of strings, is a fixed
    point of the most-frequent imputation. *)
Lemma imputed_mode_fixed (o : list cell) :
  o <> [] ->
  forallb is_number o = true \/ forallb is_str_cell o = true ->
  imputed_cells MostFrequent o = Some o.
Proof.
  intros Hne Hkind. unfold imputed_cells.
  assert (Hnn : forallb notnull o = true)
    by (destruct Hkind; [now apply is_number_notnull | now apply is_str_notnull]).
  assert (exists m, most_frequent o = Ok (Some m) /\ In m (dropna o)) as [m [-> _]].
  { destruct Hkind as [H|H].
    - apply (most_frequent_total is_num_value); [exact py_lt_numbers | |].
      + now apply dropna_nonempty.
      + now apply dropna_numbers, is_number_num_cell.
    - apply (most_frequent_total is_str_value); [exact py_lt_strings | |].
      + now apply dropna_nonempty.
      + now apply dropna_strings, is_str_text. }
  now rewrite fillna_fixed.
Qed.

(** ** A column before and after imputation *)

Lemma fillna_nonempty (m : value) (cells : list cell) :
  cells <> [] -> fillna m cells <> [].
Proof. destruct cells; simpl; congruence. Qed.

Lemma numeric_col_distinct (c : column) :
  typed c = true -> is_numeric_col c = true ->
  15 < nunique (map (to_numeric) (col_cells c)).
Proof.
  unfold typed. intros Ht Hp.
  destruct (is_numeric_dtype c) eqn:Hdt.
  - rewrite (is_numeric_col_step1 c Hdt) in Hp.
    destruct (as_float_cells_numbers _ Ht) as [_ ->]. now apply Nat.ltb_lt.
  - destruct (is_string_dtype c || is_categorical_dtype c) eqn:Hs.
    + rewrite (is_numeric_col_step2 c Hdt Hs) in Hp. discriminate.
    + rewrite (is_numeric_col_step3 c Hdt Hs) in Hp.
      apply andb_true_iff in Hp. now apply Nat.ltb_lt.
Qed.

(** The conversion to float64 keeps the distinct values of a column whose
    numbers are float64 numbers. *)
Lemma dropna_float_valued (cells : list cell) :
  forallb float_valued cells = true ->
  dropna (map float_cell (map to_numeric cells)) = dropna (map to_numeric cells).
Proof.
  induction cells as [|c r IH]; intros H; [reflexivity|].
  cbn [forallb] in H. apply andb_true_iff in H. destruct H as [Hc Hr].
  cbn [map]. unfold float_valued in Hc.
  destruct (to_numeric c) as [[q|t]|]; cbn [float_cell dropna];
    rewrite (IH Hr); [|reflexivity|reflexivity].
  f_equal. now apply is_float64_canon.
Qed.

(** A column labelled numeric whose numbers are float64 numbers, once
    imputed with the mean, is a column of numbers that is again labelled
    numeric and that a second imputation leaves as it is. *)
Lemma numeric_col_imputed (c : column) (o : list cell) :
  typed c = true -> forallb float_valued (col_cells c) = true ->
  is_numeric_col c = true ->
  imputed_cells Mean (col_cells c) = Some o ->
  is_numeric_col (mkColumn (col_name c) DNumeric o) = true /\
  imputed_cells Mean o = Some o.
Proof.
  intros Ht Hf Hp Ho. pose proof (numeric_col_distinct c Ht Hp) as Hd.
  unfold imputed_cells in Ho.
  destruct (as_float_cells (col_cells c)) as [cs|] eqn:Ecs; [|discriminate].
  destruct (mean cs) as [m|] eqn:Em; [|discriminate].
  simpl in Ho. injection Ho as <-.
  destruct (as_float_cells_spec _ _ Ecs) as [Hcs Hnum].
  destruct (mean_some _ _ Em) as [[q ->] Hq].
  assert (Hne : cs <> []) by (intros ->; now apply Hq).
  split.
  - rewrite is_numeric_col_step1 by reflexivity. cbn [col_cells].
    apply Nat.ltb_lt.
    assert (Hu : nunique cs = nunique (map to_numeric (col_cells c)))
      by (unfold nunique, unique; now rewrite Hcs, dropna_float_valued).
    pose proof (nunique_fillna_le (VNum (float64 q)) cs). lia.
  - apply imputed_mean_fixed;
      [now apply fillna_numbers | now apply fillna_nonempty |].
    rewrite Hcs. apply float_cell_fillna.
Qed.

Lemma forallb_In {A} (p : A -> bool) (l : list A) (x : A) :
  forallb p l = true -> In x l -> p x = true.
Proof. intros H. rewrite forallb_forall in H. apply H. Qed.

Lemma dropna_cells_nonempty (cells : list cell) (v : value) :
  In v (dropna cells) -> cells <> [].
Proof. destruct cells; simpl; [contradiction | congruence]. Qed.

Lemma fillna_strings (t : string) (cells : list cell) :
  forallb is_text_cell cells = true -> forallb is_str_cell (fillna (VStr t) cells) = true.
Proof.
  intros H. rewrite forallb_forall in *. intros x Hx.
  apply in_map_iff in Hx. destruct Hx as [y [<- Hy]]. specialize (H y Hy).
  now destruct y as [[p|u]|].
Qed.

(** A column labelled categorical, once imputed with its most frequent
    value and stored with the dtype of the output array, is again labelled
    categorical, and a second imputation leaves it as it is. *)
Lemma categorical_col_imputed (c : column) (o : list cell) (dt : dtype) :
  typed c = true -> textual c = true ->
  is_numeric_col c = false ->
  imputed_cells MostFrequent (col_cells c) = Some o ->
  (dt = DNumeric /\ is_numeric_dtype c = true) \/ dt = DObject ->
  is_numeric_col (mkColumn (col_name c) dt o) = false /\
  imputed_cells MostFrequent o = Some o.
Proof.
  intros Ht Hx Hp Ho Hdt. unfold imputed_cells in Ho.
  destruct (most_frequent (col_cells c)) as [[m|]|] eqn:Em; try discriminate.
  injection Ho as <-.
  unfold typed, textual in *.
  assert (Hm : In m (dropna (col_cells c))).
  { destruct (is_numeric_dtype c).
    - exact (most_frequent_In is_num_value _ _ py_lt_numbers (dropna_numbers _ Ht) Em).
    - exact (most_frequent_In is_str_value _ _ py_lt_strings (dropna_strings _ Hx) Em). }
  pose proof (fillna_nonempty m _ (dropna_cells_nonempty _ _ Hm)) as Hne.
  destruct (is_numeric_dtype c) eqn:Hc.
  - (* a numeric-dtype column with at most 15 distinct values *)
    rewrite (is_numeric_col_step1 c Hc) in Hp.
    assert (exists q, m = VNum q) as [q ->].
    { pose proof (forallb_In _ _ _ (dropna_numbers _ Ht) Hm) as H.
      destruct m; [eexists; reflexivity | discriminate]. }
    pose proof (fillna_numbers q _ Ht) as Hnum.
    pose proof (nunique_fillna_observed _ _ Hm) as Hu.
    split; [|apply imputed_mode_fixed; [assumption | now left]].
    set (c2 := mkColumn (col_name c) dt (fillna (VNum q) (col_cells c))).
    destruct Hdt as [[-> _]| ->].
    + rewrite is_numeric_col_step1 by reflexivity. cbn [col_cells c2].
      now rewrite Hu.
    + destruct (is_string_dtype c2 || is_categorical_dtype c2) eqn:Hs.
      * now apply is_numeric_col_step2.
      * rewrite is_numeric_col_step3 by (reflexivity || assumption).
        cbn [col_cells c2].
        destruct (as_float_cells_numbers _ (is_number_num_cell _ Hnum)) as [_ ->].
        rewrite Hu, Hp. apply andb_false_r.
  - (* a column of text *)
    simpl in Hx.
    assert (exists t, m = VStr t) as [t ->].
    { pose proof (forallb_In _ _ _ (dropna_strings _ Hx) Hm) as H.
      destruct m; [discriminate | eexists; reflexivity]. }
    pose proof (fillna_strings t _ Hx) as Hstr.
    split; [|apply imputed_mode_fixed; [assumption | now right]].
    destruct Hdt as [[_ H]| ->]; [discriminate|].
    apply is_numeric_col_step2; [reflexivity|].
    unfold is_string_dtype. cbn [col_dtype col_cells dtype_eqb]. now rewrite Hstr.
Qed.

(** ** A frame that imputation leaves as it is *)

Lemma with_frame_same (w : World) : with_frame w (frame w) = w.
Proof. now destruct w. Qed.

Lemma map_fixed {A} (f : A -> A) (l : list A) :
  (forall x, In x l -> f x = x) -> map f l = l.
Proof.
  intros H. rewrite <- (map_id l) at 2. now apply map_ext_in.
Qed.

Lemma out_dtype_uniform (dt : dtype) (X : list column) :
  X <> [] -> dt = DNumeric \/ dt = DObject ->
  (forall c, In c X -> col_dtype c = dt) ->
  out_dtype MostFrequent X = dt.
Proof.
  intros Hne Hdt HX. unfold out_dtype. destruct Hdt as [-> | ->].
  - assert (forallb is_numeric_dtype X = true) as ->; [|reflexivity].
    apply forallb_forall. intros c Hc. unfold is_numeric_dtype. now rewrite (HX c Hc).
  - destruct X as [|c X]; [congruence|]. simpl.
    unfold is_numeric_dtype at 1. rewrite (HX c) by now left. reflexivity.
Qed.

(** On a frame of settled columns both imputations succeed and change
    nothing. *)
Lemma settled_frame_fixed (dt : dtype) (w : World) :
  let df := frame w in
  let column_types := detect_column_types df in
  NoDup (columns df) -> df_nrows df <> 0 ->
  dt = DNumeric \/ dt = DObject ->
  Forall (settled dt) (df_cols df) ->
  numeric column_types <> [] -> categorical column_types <> [] ->
  impute_in_place Mean (numeric column_types) w = (Ok tt, w) /\
  impute_in_place MostFrequent (categorical column_types) w = (Ok tt, w).
Proof.
  intros df column_types Hnd Hn Hdt Hset Hnum Hcat.
  subst column_types. rewrite detect_column_types_filter in *. cbn [numeric categorical] in *.
  rewrite Forall_forall in Hset.
  assert (HX : forall (q : column -> bool), map col_name (filter q (df_cols df)) <> [] ->
                                            filter q (df_cols df) <> []).
  { intros q H E. rewrite E in H. now apply H. }
  split.
  - unfold df. rewrite impute_in_place_complete; fold df; try assumption.
    + f_equal. rewrite <- (with_frame_same w) at 2. f_equal. fold df.
      unfold imputed_frame. destruct df as [n cols]. cbn [df_nrows df_cols] in *.
      f_equal. apply map_fixed. intros c Hc. specialize (Hset c Hc).
      unfold settled in Hset.
      destruct (is_numeric_col c); [|reflexivity].
      destruct Hset as [Hd Hi]. unfold imputed_or_empty. rewrite Hi.
      destruct c as [name d cells]. cbn in *. now subst d.
    + now apply HX.
    + apply Forall_forall. intros c Hc. apply filter_In in Hc. destruct Hc as [Hc Hp].
      specialize (Hset c Hc). unfold settled in Hset. rewrite Hp in Hset.
      destruct Hset as [_ ->]. discriminate.
  - unfold df. rewrite impute_in_place_complete; fold df; try assumption.
    + f_equal. rewrite <- (with_frame_same w) at 2. f_equal. fold df.
      unfold imputed_frame.
      rewrite (out_dtype_uniform dt); [| now apply HX | assumption |].
      * destruct df as [n cols]. cbn [df_nrows df_cols] in *.
        f_equal. apply map_fixed. intros c Hc. specialize (Hset c Hc).
        unfold settled in Hset.
        destruct (is_numeric_col c); [reflexivity|]. cbn [negb].
        destruct Hset as [Hd Hi]. unfold imputed_or_empty. rewrite Hi.
        destruct c as [name d cells]. cbn in *. now subst d.
      * intros c Hc. apply filter_In in Hc. destruct Hc as [Hc Hp].
        specialize (Hset c Hc). unfold settled in Hset.
        apply negb_true_iff in Hp. rewrite Hp in Hset. tauto.
    + now apply HX.
    + apply Forall_forall. intros c Hc. apply filter_In in Hc. destruct Hc as [Hc Hp].
      specialize (Hset c Hc). unfold settled in Hset.
      apply negb_true_iff in Hp. rewrite Hp in Hset.
      destruct Hset as [_ ->]. discriminate.
Qed.

(** ** The frame the two imputations leave behind *)

Lemma filter_map_comm {A B} (q : B -> bool) (f : A -> B) (l : list A) :
  filter q (map f l) = map f (filter (fun x => q (f x)) l).
Proof.
  induction l as [|x r IH]; [reflexivity|].
  simpl. destruct (q (f x)); simpl; now rewrite IH.
Qed.

Lemma imputed_column_name (dt : dtype) (c : column) :
  col_name (imputed_column dt c) = col_name c.
Proof. unfold imputed_column. now destruct (is_numeric_col c). Qed.

Lemma both_imputations (w w1 w2 : World) :
  let df := frame w in
  let column_types := detect_column_types df in
  let X1 := filter (is_numeric_col) (df_cols df) in
  let X2 := filter (fun c => negb (is_numeric_col c)) (df_cols df) in
  NoDup (columns df) ->
  impute_in_place Mean (numeric column_types) w = (Ok tt, w1) ->
  impute_in_place MostFrequent (categorical column_types) w1 = (Ok tt, w2) ->
  X1 <> [] /\ X2 <> [] /\ df_nrows df <> 0 /\
  Forall (fun c => imputed_cells Mean (col_cells c) <> None) X1 /\
  Forall (fun c => imputed_cells MostFrequent (col_cells c) <> None) X2 /\
  w2 = with_frame w {| df_nrows := df_nrows df;
                       df_cols := map (imputed_column (out_dtype MostFrequent X2))
                                      (df_cols df) |}.
Proof.
  intros df column_types X1 X2 Hnd H1 H2.
  subst column_types. rewrite detect_column_types_filter in H1, H2.
  cbn [numeric categorical] in H1, H2. fold X2 in H2.
  apply impute_in_place_ok in H1; [|assumption].
  destruct H1 as [HX1 [Hn [HF1 ->]]]. fold df X1 in HX1, Hn, HF1.
  set (upd := fun c => if is_numeric_col c
                       then mkColumn (col_name c) (out_dtype Mean X1)
                                     (imputed_or_empty Mean c)
                       else c).
  set (q1 := fun c1 : column => mem (col_name c1) (map col_name X2)).
  assert (Hname : forall c, col_name (upd c) = col_name c).
  { intros c. unfold upd. now destruct (is_numeric_col c). }
  assert (Hq1 : forall c, In c (df_cols df) ->
                          q1 (upd c) = negb (is_numeric_col c)).
  { intros c Hc. unfold q1. rewrite Hname. unfold X2.
    now rewrite mem_names_filter. }
  assert (Hsel : filter q1 (map upd (df_cols df)) = X2).
  { rewrite filter_map_comm.
    rewrite (filter_ext_in _ (fun c => negb (is_numeric_col c)))
      by exact Hq1.
    fold X2. apply map_fixed. intros c Hc. unfold X2 in Hc. apply filter_In in Hc.
    destruct Hc as [_ Hp]. apply negb_true_iff in Hp. unfold upd. now rewrite Hp. }
  assert (Hframe : frame (with_frame w (imputed_frame Mean (is_numeric_col) df))
                   = {| df_nrows := df_nrows df; df_cols := map upd (df_cols df) |})
    by reflexivity.
  assert (Hkeys : map col_name X2
                  = map col_name (filter q1 (df_cols (frame (with_frame w
                      (imputed_frame Mean (is_numeric_col) df)))))).
  { rewrite Hframe. cbn [df_cols]. now rewrite Hsel. }
  rewrite Hkeys in H2.
  apply impute_in_place_ok in H2.
  - destruct H2 as [HX2 [_ [HF2 ->]]]. fold df in HX2, HF2 |- *.
    rewrite Hframe in HX2, HF2.
    cbn [df_cols] in HX2, HF2. rewrite Hsel in HX2, HF2.
    repeat split; try assumption.
    rewrite Hframe.
    unfold with_frame. cbn [artifacts_dir X_processed]. f_equal.
    unfold imputed_frame. cbn [df_nrows df_cols].
    rewrite Hsel. f_equal. rewrite map_map.
    apply map_ext_in. intros c Hc. rewrite (Hq1 c Hc), Hname.
    unfold imputed_column, upd.
    destruct (is_numeric_col c); reflexivity.
  - fold df. rewrite Hframe. unfold columns. cbn [df_cols]. rewrite map_map.
    erewrite map_ext; [exact Hnd | exact Hname].
Qed.

(** ** Running the aligner, and running it again *)

Lemma preprocess_dataset_ok (model_columns : list string) (w w' : World) (out : DataFrame) :
  let column_types := detect_column_types (frame w) in
  preprocess_dataset model_columns w = (Ok out, w') <->
  exists w1 w2,
    impute_in_place Mean (numeric column_types) w = (Ok tt, w1) /\
    impute_in_place MostFrequent (categorical column_types) w1 = (Ok tt, w2) /\
    encode_and_align model_columns (frame w2) (categorical column_types) = Ok out /\
    artifacts_dir w2 = true /\
    w' = {| frame := frame w2; artifacts_dir := true; X_processed := Some out |}.
Proof.
  intros column_types.
  rewrite preprocess_dataset_body, preprocess_body_steps. cbv zeta. fold column_types.
  split.
  - destruct (impute_in_place Mean _ w) as [[[]|e] w1] eqn:E1; [|discriminate].
    destruct (impute_in_place MostFrequent _ w1) as [[[]|e] w2] eqn:E2; [|discriminate].
    destruct (encode_and_align _ _ _) as [out'|e] eqn:E3; [|discriminate].
    destruct (artifacts_dir w2) eqn:Ha; [|discriminate].
    intros [= <- <-]. exists w1, w2. repeat split; assumption.
  - intros [w1 [w2 [-> [-> [-> [-> ->]]]]]]. reflexivity.
Qed.

Lemma detect_column_types_map (f : column -> column) (n n' : nat) (cols : list column) :
  (forall c, In c cols ->
     col_name (f c) = col_name c /\
     is_numeric_col (f c) = is_numeric_col c) ->
  detect_column_types {| df_nrows := n; df_cols := map f cols |}
  = detect_column_types {| df_nrows := n'; df_cols := cols |}.
Proof.
  intros H. rewrite !detect_column_types_filter. cbn [df_cols].
  rewrite !filter_map_comm, !map_map. f_equal.
  - rewrite (filter_ext_in _ (is_numeric_col)) by (intros c Hc; apply H, Hc).
    apply map_ext_in. intros c Hc. apply filter_In in Hc. apply H, Hc.
  - rewrite (filter_ext_in _ (fun c => negb (is_numeric_col c)))
      by (intros c Hc; f_equal; apply H, Hc).
    apply map_ext_in. intros c Hc. apply filter_In in Hc. apply H, Hc.
Qed.

Lemma wf_table_columns (df : DataFrame) :
  wf_table df = true ->
  NoDup (columns df) /\ forall c, In c (df_cols df) -> typed c = true.
Proof.
  unfold wf_table. intros H. apply andb_true_iff in H. destruct H as [Hd Hw].
  split; [now apply distinct_names_NoDup|].
  intros c Hc. pose proof (forallb_In _ _ _ Hw Hc) as H.
  unfold wf_column in H. apply andb_true_iff in H. destruct H as [_ H].
  unfold typed, is_numeric_dtype. exact H.
Qed.

(** The columns of the frame that a successful run leaves behind are
    settled and keep their labels. *)
Lemma imputed_column_settled (X2 : list column) (c : column) :
  typed c = true -> textual c = true -> forallb float_valued (col_cells c) = true ->
  (is_numeric_col c = true -> imputed_cells Mean (col_cells c) <> None) ->
  (is_numeric_col c = false ->
     In c X2 /\ imputed_cells MostFrequent (col_cells c) <> None) ->
  let dt := out_dtype MostFrequent X2 in
  is_numeric_col (imputed_column dt c) = is_numeric_col c /\
  settled dt (imputed_column dt c).
Proof.
  intros Ht Hx Hf H1 H2 dt. unfold imputed_column, settled.
  destruct (is_numeric_col c) eqn:Hp.
  - specialize (H1 eq_refl). unfold imputed_or_empty.
    destruct (imputed_cells Mean (col_cells c)) as [o|] eqn:Ho; [|congruence].
    destruct (numeric_col_imputed c o Ht Hf Hp Ho) as [Hp2 Hfix].
    rewrite Hp2. cbn [col_dtype col_cells]. tauto.
  - destruct (H2 eq_refl) as [Hin Hsome]. unfold imputed_or_empty.
    destruct (imputed_cells MostFrequent (col_cells c)) as [o|] eqn:Ho; [|congruence].
    assert (Hdt : (dt = DNumeric /\ is_numeric_dtype c = true) \/ dt = DObject).
    { subst dt. unfold out_dtype.
      destruct (forallb is_numeric_dtype X2) eqn:E; [left | now right].
      split; [reflexivity|]. exact (forallb_In _ _ _ E Hin). }
    destruct (categorical_col_imputed c o dt Ht Hx Hp Ho Hdt) as [Hp2 Hfix].
    rewrite Hp2. cbn [col_dtype col_cells]. tauto.
Qed.

(** Rerun on the table as a successful run left it: on a well-formed table
    whose numbers are float64 numbers and whose columns that are not of
    numeric dtype hold only text and missing cells, a second
    [preprocess_dataset] with the same schema succeeds, returns the same
    matrix and leaves the world of the first run. *)
Lemma preprocess_dataset_again (model_columns : list string) (w w' : World)
      (out : DataFrame) :
  wf_table (frame w) = true -> text_only (frame w) = true ->
  float_table (frame w) = true ->
  preprocess_dataset model_columns w = (Ok out, w') ->
  preprocess_dataset model_columns w' = (Ok out, w').
Proof.
  intros Hwf Htext Hfloat Hrun.
  destruct (wf_table_columns _ Hwf) as [Hnd Htyped].
  apply preprocess_dataset_ok in Hrun.
  destruct Hrun as [w1 [w2 [H1 [H2 [Henc [Hdir ->]]]]]].
  destruct (both_imputations w w1 w2 Hnd H1 H2) as [HX1 [HX2 [Hn [HF1 [HF2 ->]]]]].
  set (df := frame w) in *.
  set (X1 := filter (is_numeric_col) (df_cols df)) in *.
  set (X2 := filter (fun c => negb (is_numeric_col c)) (df_cols df)) in *.
  set (dt := out_dtype MostFrequent X2) in *.
  cbn [frame with_frame] in *.
  set (df2 := {| df_nrows := df_nrows df; df_cols := map (imputed_column dt) (df_cols df) |})
    in *.
  set (w' := {| frame := df2; artifacts_dir := true; X_processed := Some out |}).
  assert (Hcol : forall c, In c (df_cols df) ->
            is_numeric_col (imputed_column dt c)
              = is_numeric_col c /\
            settled dt (imputed_column dt c)).
  { intros c Hc. apply imputed_column_settled.
    - now apply Htyped.
    - exact (forallb_In _ _ _ Htext Hc).
    - exact (forallb_In _ _ _ Hfloat Hc).
    - intros Hp. rewrite Forall_forall in HF1. apply HF1. apply filter_In. now split.
    - intros Hp. assert (In c X2) as Hin by (apply filter_In; now rewrite Hp).
      split; [assumption|]. rewrite Forall_forall in HF2. now apply HF2. }
  assert (Hdetect : detect_column_types df2 = detect_column_types df).
  { destruct df as [n cols]. apply detect_column_types_map. intros c Hc.
    split; [apply imputed_column_name | apply Hcol, Hc]. }
  assert (Hnd2 : NoDup (columns df2)).
  { unfold columns, df2. cbn [df_cols]. rewrite map_map.
    erewrite map_ext; [exact Hnd | intros c; apply imputed_column_name]. }
  assert (Hdt : dt = DNumeric \/ dt = DObject).
  { subst dt. unfold out_dtype. destruct (forallb is_numeric_dtype X2); tauto. }
  assert (Hset : Forall (settled dt) (df_cols df2)).
  { apply Forall_forall. intros c2 Hc2. apply in_map_iff in Hc2.
    destruct Hc2 as [c [<- Hc]]. apply Hcol, Hc. }
  assert (Hnum : numeric (detect_column_types df2) <> []).
  { rewrite Hdetect, detect_column_types_filter. cbn [numeric]. fold X1.
    destruct X1; [congruence | discriminate]. }
  assert (Hcat : categorical (detect_column_types df2) <> []).
  { rewrite Hdetect, detect_column_types_filter. cbn [categorical]. fold X2.
    destruct X2; [congruence | discriminate]. }
  destruct (settled_frame_fixed dt w' Hnd2 Hn Hdt Hset Hnum Hcat) as [R1 R2].
  apply preprocess_dataset_ok. exists w', w'.
  change (frame w') with df2 in *. rewrite Hdetect in *.
  repeat split; assumption.
Qed.

(** The outcome and the table left behind depend on the table handed in and
    on whether [artifacts/] exists, not on the file saved by an earlier
    run. *)
Lemma preprocess_dataset_deterministic (model_columns : list string) (w v : World) :
  frame v = frame w -> artifacts_dir v = artifacts_dir w ->
  fst (preprocess_dataset model_columns v)
  = fst (preprocess_dataset model_columns w) /\
  frame (snd (preprocess_dataset model_columns v))
  = frame (snd (preprocess_dataset model_columns w)).
Proof.
  destruct w as [f a x], v as [g b y]. cbn [frame artifacts_dir]. intros -> ->.
  unfold preprocess_dataset, try_except, preprocess_body, impute_in_place, bind, lift,
    get_frame, put_frame, to_csv, ret, raise.
  cbn [frame artifacts_dir X_processed].
  repeat (match goal with
          | |- context [match ?t with Ok _ => _ | Raise _ => _ end] => destruct t
          | |- context [if ?t then _ else _] => destruct t
          end; cbn [frame artifacts_dir X_processed fst snd]);
    split; reflexivity.
Qed.

(** C9, amended.  On a well-formed table whose numbers are float64 numbers
    (the conversion of the mean imputer changes none of them) and whose
    columns that are not of numeric dtype hold only text and missing cells,
    when [preprocess_dataset] returns a matrix, running it again with the
    same schema on the table as the first run left it returns the same
    matrix (and leaves the same world); and the matrix of a run depends
    only on the table handed in and on the presence of [artifacts/]. *)
Theorem preprocess_dataset_rerun (model_columns : list string) (w : World)
        (out : DataFrame) :
  wf_table (frame w) = true -> text_only (frame w) = true ->
  float_table (frame w) = true ->
  fst (preprocess_dataset model_columns w) = Ok out ->
  let after := snd (preprocess_dataset model_columns w) in
  preprocess_dataset model_columns after = (Ok out, after) /\
  (forall v, frame v = frame w -> artifacts_dir v = artifacts_dir w ->
     fst (preprocess_dataset model_columns v) = Ok out).
Proof.
  intros Hwf Htext Hfloat Hout after. split.
  - apply (preprocess_dataset_again model_columns w after out Hwf Htext Hfloat).
    subst after.
    destruct (preprocess_dataset model_columns w) as [r w'].
    simpl in *. now subst r.
  - intros v Hf Ha.
    destruct (preprocess_dataset_deterministic model_columns w v Hf Ha) as [-> _].
    exact Hout.
Qed.

(** ** What a successful run returns *)

Lemma names_aligned (nrows : nat) (cols : list column) (keys : list string) :
  NoDup (map col_name cols) ->
  map col_name (flat_map (aligned nrows cols) keys) = keys.
Proof.
  intros Hnd. induction keys as [|k ks IH]; [reflexivity|].
  cbn [flat_map]. rewrite map_app, IH. unfold aligned.
  destruct (mem k (map col_name cols)) eqn:E; [|reflexivity].
  apply mem_In, in_map_iff in E. destruct E as [c [<- Hc]].
  now rewrite lookup_unique.
Qed.

(** The matrix of a successful run, label by label of the schema: the
    encoded columns that carry the label, or a column of zeros when the
    encoded table has none; nothing else.  When the labels of the encoded
    table are distinct, the labels of the matrix are the schema. *)
Lemma preprocess_dataset_aligned (model_columns : list string) (w w' : World)
      (out : DataFrame) :
  preprocess_dataset model_columns w = (Ok out, w') ->
  exists dataset_encoded,
    get_dummies (frame w')
                (categorical (detect_column_types (frame w)))
    = Ok dataset_encoded /\
    df_cols out = flat_map (aligned (df_nrows dataset_encoded) (df_cols dataset_encoded))
                           model_columns /\
    (NoDup (columns dataset_encoded) -> columns out = model_columns) /\
    (forall key, In key model_columns -> ~ In key (columns dataset_encoded) ->
       In (zero_column (df_nrows dataset_encoded) key) (df_cols out)) /\
    (forall c, In c (df_cols out) -> In (col_name c) model_columns).
Proof.
  intros Hrun. apply preprocess_dataset_ok in Hrun.
  destruct Hrun as [w1 [w2 [_ [_ [Henc [_ ->]]]]]]. cbn [frame].
  unfold encode_and_align in Henc.
  destruct (get_dummies (frame w2) _) as [enc|] eqn:Eenc; [|discriminate].
  cbn [rbind] in Henc. rewrite getitem_list_add_missing in Henc.
  cbn [rbind] in Henc. injection Henc as <-. cbn [df_cols].
  exists enc. split; [reflexivity|]. split; [reflexivity|]. split; [|split].
  - intros Hnd. unfold columns at 1. cbn [df_cols]. now apply names_aligned.
  - intros key Hkey Habs. apply in_flat_map. exists key. split; [assumption|].
    unfold aligned. apply mem_false in Habs. unfold columns in Habs. rewrite Habs.
    now left.
  - intros c Hc. apply in_flat_map in Hc. destruct Hc as [key [Hkey Hc]].
    unfold aligned in Hc. destruct (mem key (map col_name (df_cols enc))).
    + pose proof (lookup_names (df_cols enc) key) as H.
      rewrite Forall_forall in H. now rewrite (H c Hc).
    + destruct Hc as [<-|[]]. exact Hkey.
Qed.

(** ** More on the classifier *)

Lemma nunique_le_length (cells : list cell) : nunique cells <= length cells.
Proof.
  unfold nunique, unique.
  transitivity (length (dropna cells)).
  - apply NoDup_incl_length; [apply NoDup_nodup|].
    intros v Hv. now apply nodup_In in Hv.
  - induction cells as [|[v|] r IH]; simpl; lia.
Qed.

Lemma nodup_map_length {A B} (decA : forall x y : A, {x = y} + {x <> y})
      (decB : forall x y : B, {x = y} + {x <> y}) (h : A -> B) (l : list A) :
  length (nodup decB (map h l)) <= length (nodup decA l).
Proof.
  rewrite <- (length_map h (nodup decA l)).
  apply NoDup_incl_length; [apply NoDup_nodup|].
  intros y Hy. apply nodup_In, in_map_iff in Hy. destruct Hy as [x [<- Hx]].
  apply in_map. now apply nodup_In.
Qed.

(** Coercion to numbers cannot raise the number of distinct values. *)
Lemma nunique_to_numeric_le (cells : list cell) :
  nunique (map to_numeric cells) <= nunique cells.
Proof.
  set (h := fun v => match v with
                     | VNum q => VNum (Qred q)
                     | VStr s => match str_to_float s with
                                 | Some q => VNum (Qred q)
                                 | None => VStr s
                                 end
                     end).
  transitivity (length (nodup value_eq_dec (map h (dropna cells)))).
  - unfold nunique, unique. apply NoDup_incl_length; [apply NoDup_nodup|].
    intros v Hv. apply nodup_In in Hv. apply nodup_In.
    apply dropna_In in Hv. destruct Hv as [x [Hx <-]].
    apply in_map_iff in Hx. destruct Hx as [[y|] [Hy Hin]]; [|discriminate].
    apply in_map_iff. exists (canon y). split.
    + destruct y as [q|s]; simpl in Hy.
      * injection Hy as <-. simpl. f_equal. apply Qred_complete, Qred_correct.
      * simpl. destruct (str_to_float s); [|discriminate].
        now injection Hy as <-.
    + apply dropna_In. now exists y.
  - apply nodup_map_length.
Qed.

(** A column labelled numeric has more than 15 distinct values. *)
Lemma is_numeric_col_distinct (c : column) :
  is_numeric_col c = true -> 15 < nunique (col_cells c).
Proof.
  intros Hp. destruct (is_numeric_dtype c) eqn:Hdt.
  - rewrite (is_numeric_col_step1 c Hdt) in Hp. now apply Nat.ltb_lt.
  - destruct (is_string_dtype c || is_categorical_dtype c) eqn:Hs.
    + rewrite (is_numeric_col_step2 c Hdt Hs) in Hp. discriminate.
    + rewrite (is_numeric_col_step3 c Hdt Hs) in Hp.
      apply andb_true_iff in Hp. destruct Hp as [_ Hp]. apply Nat.ltb_lt in Hp.
      pose proof (nunique_to_numeric_le (col_cells c)). lia.
Qed.

(** X2.  Whatever its dtype, a column with at most 15 distinct values (a constant
    or an empty column among them) is labelled categorical; a column
    labelled numeric has at least 16 distinct values, so at least 16 rows. *)
Theorem detect_column_types_few_distinct (df : DataFrame) (c : column) :
  NoDup (columns df) -> In c (df_cols df) ->
  let report := detect_column_types df in
  (nunique (col_cells c) <= 15 ->
     In (col_name c) (categorical report) /\ ~ In (col_name c) (numeric report)) /\
  (In (col_name c) (numeric report) ->
     16 <= nunique (col_cells c) /\ 16 <= length (col_cells c)).
Proof.
  intros Hnd Hc report.
  pose proof (In_numeric df c Hnd Hc) as Hn.
  pose proof (In_categorical df c Hnd Hc) as Hk.
  fold report in Hn, Hk.
  assert (Hnum : In (col_name c) (numeric report) -> 16 <= nunique (col_cells c)).
  { intros H. apply Hn, is_numeric_col_distinct in H. lia. }
  split.
  - intros Hfew.
    assert (~ In (col_name c) (numeric report)) as Hnot
        by (intros H; apply Hnum in H; lia).
    split; [|assumption]. apply Hk. apply not_true_is_false. intros E.
    apply Hnot. now apply Hn.
  - intros H. pose proof (Hnum H). pose proof (nunique_le_length (col_cells c)). lia.
Qed.

(** X1.  Each list of the report keeps the order of the table's columns. *)
Theorem detect_column_types_order (df : DataFrame) :
  NoDup (columns df) ->
  let report := detect_column_types df in
  numeric report = filter (fun col => mem col (numeric report)) (columns df) /\
  categorical report = filter (fun col => mem col (categorical report)) (columns df).
Proof.
  intros Hnd report. subst report. rewrite detect_column_types_filter.
  cbn [numeric categorical]. unfold columns. rewrite !filter_map_comm. split.
  - f_equal. apply filter_ext_in. intros c Hc. symmetry.
    now apply mem_names_filter.
  - f_equal. apply filter_ext_in. intros c Hc. symmetry.
    now apply (mem_names_filter (fun c => negb (is_numeric_col c))).
Qed.

(** ** More on the validator *)

Lemma In_warn_if (cond : bool) (text x : string) (warnings : list string) :
  In x (warn_if cond text warnings) <-> In x warnings \/ (cond = true /\ x = text).
Proof.
  unfold warn_if. destruct cond.
  - rewrite in_app_iff. simpl. split; intros [H|H]; auto.
    + destruct H as [H|[]]. now right.
    + destruct H as [_ ->]. right. now left.
  - split; [now left|]. intros [H|[H _]]; [assumption | discriminate].
Qed.

Lemma length_warn_if (cond : bool) (text : string) (warnings : list string) :
  length (warn_if cond text warnings) <= S (length warnings).
Proof. unfold warn_if. destruct cond; rewrite ?length_app; simpl; lia. Qed.

(** The fields of a report that the four warnings and the count of missing
    cells come from. *)
Lemma validate_dataframe_report (w : World) (report : Report) :
  fst (validate_dataframe w) = Ok report ->
  let df := frame w in
  let high_cardinality := fst (check_high_cardinality_and_identifiers df) in
  let likely_ids := snd (check_high_cardinality_and_identifiers df) in
  let constant_cols :=
    map col_name (filter (fun c => nunique (col_cells c) <=? 1) (df_cols df)) in
  10 <= df_nrows df /\ 2 <= df_ncols df /\ all_null df = false /\
  r_row_count report = df_nrows df /\ r_column_count report = df_ncols df /\
  r_missing_values report
  = list_sum (map (fun c => count_null (col_cells c)) (df_cols df)) /\
  r_target_candidates report
  = map col_name (filter (is_target_candidate (df_nrows df)) (df_cols df)) /\
  r_warnings report
  = warn_if (nonempty likely_ids)
            ("Likely identifier columns: " ++ repr_list py_repr likely_ids)%string
      (warn_if (nonempty high_cardinality)
               ("High cardinality columns: " ++ repr_list py_repr high_cardinality)%string
         (warn_if (nonempty constant_cols)
                  ("Constant or empty columns: " ++ repr_list py_repr constant_cols)%string
            (warn_if (existsb (fun c => 0 <? count_null (col_cells c)) (df_cols df))
                     "Contains null values" []))).
Proof.
  intros H df hc ids constant_cols. subst hc ids.
  unfold validate_dataframe, bind, get_frame in H. fold df in H.
  destruct (Nat.ltb_spec (df_nrows df) 10) as [|Hr]; [discriminate|].
  destruct (Nat.ltb_spec (df_ncols df) 2) as [|Hc]; [discriminate|].
  destruct (all_null df) eqn:Ha; [discriminate|].
  destruct (check_high_cardinality_and_identifiers df) as [hc ids].
  simpl in H. injection H as <-. cbn [fst snd]. now repeat split.
Qed.

Lemma list_sum_positive {A} (f : A -> nat) (l : list A) :
  0 < list_sum (map f l) <-> exists x, In x l /\ 0 < f x.
Proof.
  induction l as [|a r IH]; simpl.
  - split; [lia | intros [x [[] _]]].
  - split.
    + intros H. destruct (Nat.eq_dec (f a) 0) as [E|E].
      * destruct (proj1 IH ltac:(lia)) as [x [Hx Hf]]. exists x. tauto.
      * exists a. split; [now left | lia].
    + intros [x [[<-|Hx] Hf]]; [lia|].
      assert (0 < list_sum (map f r)) by (apply IH; now exists x). lia.
Qed.

Lemma count_null_positive (cells : list cell) :
  0 < count_null cells <-> In None cells.
Proof.
  unfold count_null. induction cells as [|[v|] r IH]; simpl.
  - split; [lia | contradiction].
  - rewrite IH. split; [now right | intros [H|H]; [discriminate | assumption]].
  - split; [now left | lia].
Qed.

(** X4.  The generic warning about missing values is in the report exactly when
    the count of missing cells it gives is not zero, that is, when some cell
    of the table is missing. *)
Theorem validate_dataframe_null_warning (w : World) (report : Report) :
  fst (validate_dataframe w) = Ok report ->
  (In "Contains null values" (r_warnings report) <-> 0 < r_missing_values report) /\
  (0 < r_missing_values report <->
   exists c, In c (df_cols (frame w)) /\ In None (col_cells c)).
Proof.
  intros H.
  destruct (validate_dataframe_report w report H)
    as [_ [_ [_ [_ [_ [Hmiss [_ Hwarn]]]]]]].
  assert (Hcells : 0 < r_missing_values report <->
                   exists c, In c (df_cols (frame w)) /\ In None (col_cells c)).
  { rewrite Hmiss, list_sum_positive.
    split; intros [c [Hc Hn]]; exists c; (split; [assumption|]);
      now apply count_null_positive. }
  split; [|exact Hcells].
  rewrite Hwarn, !In_warn_if. rewrite Hcells. split.
  - intros [[[[[]|[Hb _]]|[_ E]]|[_ E]]|[_ E]]; try discriminate E.
    apply existsb_exists in Hb. destruct Hb as [c [Hc Hn]].
    exists c. split; [assumption|]. apply count_null_positive.
    now apply Nat.ltb_lt.
  - intros [c [Hc Hn]]. left. left. left. right. split; [|reflexivity].
    apply existsb_exists. exists c. split; [assumption|].
    apply Nat.ltb_lt. now apply count_null_positive.
Qed.

Lemma list_sum_below {A} (f : A -> nat) (n : nat) (l : list A) :
  (forall x, In x l -> f x <= n) ->
  list_sum (map f l) <= n * length l /\
  ((exists x, In x l /\ f x < n) -> list_sum (map f l) < n * length l).
Proof.
  induction l as [|a r IH]; intros H; simpl.
  - split; [lia | intros [x [[] _]]].
  - assert (Ha : f a <= n) by (apply H; now left).
    destruct IH as [IH1 IH2]; [intros x Hx; apply H; now right|].
    split; [lia|]. intros [x [[<-|Hx] Hf]]; [lia|].
    assert (list_sum (map f r) < n * length r) by (apply IH2; now exists x). lia.
Qed.

Lemma count_null_le (cells : list cell) : count_null cells <= length cells.
Proof. unfold count_null. apply filter_length_le. Qed.

Lemma count_null_below (cells : list cell) :
  forallb isnull cells = false -> count_null cells < length cells.
Proof.
  unfold count_null. induction cells as [|[v|] r IH]; simpl; intros H.
  - discriminate.
  - pose proof (filter_length_le isnull r). lia.
  - specialize (IH H). lia.
Qed.

(** X5.  On a well-formed table that passes the checks, the count of missing
    cells in the report is below the number of cells of the table. *)
Theorem validate_dataframe_missing_bound (w : World) (report : Report) :
  wf_table (frame w) = true ->
  fst (validate_dataframe w) = Ok report ->
  r_missing_values report < r_row_count report * r_column_count report.
Proof.
  intros Hwf H.
  destruct (validate_dataframe_report w report H)
    as [_ [_ [Hnull [-> [-> [-> _]]]]]].
  unfold wf_table in Hwf. apply andb_true_iff in Hwf. destruct Hwf as [_ Hwf].
  assert (Hlen : forall c, In c (df_cols (frame w)) ->
                           length (col_cells c) = df_nrows (frame w)).
  { intros c Hc. pose proof (forallb_In _ _ _ Hwf Hc) as Hcol.
    unfold wf_column in Hcol. apply andb_true_iff in Hcol.
    destruct Hcol as [Hcol _]. now apply Nat.eqb_eq. }
  unfold df_ncols.
  apply (list_sum_below (fun c => count_null (col_cells c))).
  - intros c Hc. rewrite <- (Hlen c Hc). apply count_null_le.
  - unfold all_null in Hnull.
    destruct (forallb_forall (fun c => forallb isnull (col_cells c)) (df_cols (frame w)))
      as [_ Hall].
    assert (exists c, In c (df_cols (frame w)) /\ forallb isnull (col_cells c) = false)
      as [c [Hc Hcn]].
    { clear - Hnull. induction (df_cols (frame w)) as [|a r IH]; [discriminate|].
      simpl in Hnull. destruct (forallb isnull (col_cells a)) eqn:E.
      - destruct (IH Hnull) as [c [Hc Hcn]]. exists c. split; [now right | assumption].
      - exists a. split; [now left | assumption]. }
    exists c. split; [assumption|]. rewrite <- (Hlen c Hc). now apply count_null_below.
Qed.

(** X6.  In a report, no column is both a target candidate and a
    high-cardinality column; a column with at most one distinct value, or
    with exactly 90% of the row count as distinct values, is neither; every
    other column is one of the two. *)
Theorem validate_dataframe_candidates_apart (w : World) (report : Report) (c : column) :
  NoDup (columns (frame w)) ->
  fst (validate_dataframe w) = Ok report ->
  In c (df_cols (frame w)) ->
  let df := frame w in
  let high_cardinality := fst (check_high_cardinality_and_identifiers df) in
  let target := In (col_name c) (r_target_candidates report) in
  let high := In (col_name c) high_cardinality in
  ~ (target /\ high) /\
  (nunique (col_cells c) <= 1 -> ~ target /\ ~ high) /\
  (10 * nunique (col_cells c) = 9 * df_nrows df -> ~ target /\ ~ high) /\
  (1 < nunique (col_cells c) -> 10 * nunique (col_cells c) <> 9 * df_nrows df ->
     target \/ high).
Proof.
  intros Hnd H Hc df hc target high.
  destruct (validate_dataframe_report w report H)
    as [Hrows [_ [_ [_ [_ [_ [Htar _]]]]]]].
  subst df.
  assert (Ht : target <->
               1 < nunique (col_cells c) /\
               10 * nunique (col_cells c) < 9 * df_nrows (frame w)).
  { subst target. rewrite Htar, (In_names_filter _ _ _ Hnd Hc).
    unfold is_target_candidate.
    rewrite below_90_percent_int, andb_true_iff, !Nat.ltb_lt. reflexivity. }
  assert (Hh : high <-> 9 * df_nrows (frame w) < 10 * nunique (col_cells c)).
  { subst high hc. unfold check_high_cardinality_and_identifiers.
    rewrite check_fold. cbn [fst app]. rewrite (In_names_filter _ _ _ Hnd Hc).
    unfold is_high_cardinality. rewrite exceeds_90_percent_int. apply Nat.ltb_lt. }
  rewrite Ht, Hh. repeat split; intros; lia.
Qed.

(** X7.  The warning that names the likely identifiers is in the report exactly
    when there are some, and then the warning that names the
    high-cardinality columns is there too; a report has at most four
    warnings. *)
Theorem validate_dataframe_warnings (w : World) (report : Report) :
  fst (validate_dataframe w) = Ok report ->
  let df := frame w in
  let high_cardinality := fst (check_high_cardinality_and_identifiers df) in
  let likely_ids := snd (check_high_cardinality_and_identifiers df) in
  let high_text := ("High cardinality columns: " ++ repr_list py_repr high_cardinality)%string in
  let likely_text := ("Likely identifier columns: " ++ repr_list py_repr likely_ids)%string in
  (In likely_text (r_warnings report) <-> likely_ids <> []) /\
  (In high_text (r_warnings report) <-> high_cardinality <> []) /\
  (In likely_text (r_warnings report) -> In high_text (r_warnings report)) /\
  length (r_warnings report) <= 4.
Proof.
  intros H df hc ids high_text likely_text.
  destruct (validate_dataframe_report w report H)
    as [_ [_ [_ [_ [_ [_ [_ Hwarn]]]]]]].
  fold df hc ids high_text likely_text in Hwarn.
  assert (Hsub : ids <> [] -> hc <> []).
  { subst ids hc. unfold check_high_cardinality_and_identifiers.
    rewrite check_fold. cbn [fst snd app].
    intros Hn E. apply Hn. now rewrite E. }
  assert (Hl : In likely_text (r_warnings report) <-> ids <> []).
  { rewrite Hwarn, !In_warn_if. subst likely_text high_text. split.
    - intros [[[[[]|[_ E]]|[_ E]]|[_ E]]|[Hb _]]; try discriminate E.
      now apply nonempty_true.
    - intros Hb. right. split; [now apply nonempty_true | reflexivity]. }
  assert (Hh : In high_text (r_warnings report) <-> hc <> []).
  { rewrite Hwarn, !In_warn_if. subst likely_text high_text. split.
    - intros [[[[[]|[_ E]]|[_ E]]|[Hb _]]|[_ E]]; try discriminate E.
      now apply nonempty_true.
    - intros Hb. left. right. split; [now apply nonempty_true | reflexivity]. }
  split; [exact Hl|]. split; [exact Hh|]. split.
  - intros Hin. apply Hh, Hsub. now apply Hl.
  - rewrite Hwarn.
    repeat (etransitivity; [apply length_warn_if|]; apply le_n_S). simpl. lia.
Qed.

(** ** More on the aligner *)

(** X8.  On a well-formed table with fewer than 16 rows no column is labelled
    numeric, and [preprocess_dataset] raises: the mean imputer is handed an
    empty selection. *)
Theorem preprocess_dataset_too_few_rows (model_columns : list string) (w : World) :
  wf_table (frame w) = true -> df_nrows (frame w) < 16 ->
  numeric (detect_column_types (frame w)) = [] /\
  fst (preprocess_dataset model_columns w)
  = Raise (mkException ValueError
             "Preprocessing failed: at least one array or dtype is required").
Proof.
  intros Hwf Hrows.
  assert (Hnum : numeric (detect_column_types (frame w)) = []).
  { rewrite detect_column_types_filter. cbn [numeric].
    rewrite filter_none; [reflexivity|]. intros c Hc.
    apply not_true_is_false. intros Hp. apply is_numeric_col_distinct in Hp.
    pose proof (nunique_le_length (col_cells c)) as Hle.
    unfold wf_table in Hwf. apply andb_true_iff in Hwf. destruct Hwf as [_ Hwf].
    pose proof (forallb_In _ _ _ Hwf Hc) as Hcol.
    unfold wf_column in Hcol. apply andb_true_iff in Hcol. destruct Hcol as [Hcol _].
    apply Nat.eqb_eq in Hcol. lia. }
  split; [exact Hnum|].
  rewrite preprocess_dataset_body, preprocess_body_steps. cbv zeta.
  rewrite Hnum, impute_in_place_nothing. reflexivity.
Qed.

Lemma encode_and_align_cases (model_columns : list string) (dataset : DataFrame)
      (cats : list string) :
  encode_and_align model_columns dataset cats =
  match get_dummies dataset cats with
  | Raise e => Raise e
  | Ok dataset_encoded =>
      Ok {| df_nrows := df_nrows dataset_encoded;
            df_cols := flat_map (aligned (df_nrows dataset_encoded)
                                         (df_cols dataset_encoded)) model_columns |}
  end.
Proof.
  unfold encode_and_align. destruct (get_dummies dataset cats) as [enc|e]; [|reflexivity].
  cbn [rbind]. now rewrite getitem_list_add_missing.
Qed.

(** X10.  The schema has no part in whether [preprocess_dataset] fails, in the
    error it raises, or in what it does to the table: the final selection by
    the labels of the schema never raises. *)
Theorem preprocess_dataset_any_schema (schema schema' : list string) (w : World) :
  (forall e, fst (preprocess_dataset schema w) = Raise e <->
             fst (preprocess_dataset schema' w) = Raise e) /\
  ((exists out, fst (preprocess_dataset schema w) = Ok out) <->
   (exists out', fst (preprocess_dataset schema' w) = Ok out')) /\
  frame (snd (preprocess_dataset schema w)) = frame (snd (preprocess_dataset schema' w)).
Proof.
  rewrite !preprocess_dataset_body, !preprocess_body_steps. cbv zeta.
  destruct (impute_in_place Mean _ w) as [[[]|e1] w1];
    [|repeat split; intros H; exact H].
  destruct (impute_in_place MostFrequent _ w1) as [[[]|e2] w2];
    [|repeat split; intros H; exact H].
  rewrite !encode_and_align_cases.
  destruct (get_dummies (frame w2) _) as [enc|e3];
    [|repeat split; intros H; exact H].
  destruct (artifacts_dir w2); cbn [fst snd frame].
  - split; [|split]; try reflexivity.
    + intros e. split; discriminate.
    + split; intros _; eexists; reflexivity.
  - repeat split; intros H; exact H.
Qed.

Lemma getitem_list_keys (cols X : list column) (keys : list string) :
  getitem_list cols keys = Ok X -> forall key, In key keys -> In key (map col_name cols).
Proof.
  revert X. induction keys as [|k ks IH]; intros X H key Hkey; [contradiction|].
  cbn [getitem_list] in H.
  destruct (lookup cols k) as [|c0 found] eqn:E; [discriminate|].
  destruct (getitem_list cols ks) as [more|]; [|discriminate].
  destruct Hkey as [<-|Hkey]; [|now apply (IH more)].
  assert (In c0 (lookup cols k)) as Hin by (rewrite E; now left).
  apply filter_In in Hin. destruct Hin as [Hin Hname].
  apply String.eqb_eq in Hname. rewrite <- Hname. now apply in_map.
Qed.

Lemma setitem_labels (cols : list column) (key : string) (dt : dtype)
      (cells : list cell) :
  In key (map col_name cols) ->
  map col_name (setitem cols key dt cells) = map col_name cols.
Proof.
  intros H. rewrite setitem_names by assumption. rewrite map_map.
  apply map_ext. intros c.
  destruct (String.eqb_spec (col_name c) key) as [E|E]; [now rewrite E | reflexivity].
Qed.

Lemma setitem_each_labels (keys : list string) (dt : dtype) (data : list (list cell))
      (cols : list column) :
  (forall key, In key keys -> In key (map col_name cols)) ->
  map col_name (setitem_each cols keys dt data) = map col_name cols.
Proof.
  revert data cols. induction keys as [|k ks IH]; intros data cols H; [reflexivity|].
  destruct data as [|cells data]; [reflexivity|]. cbn [setitem_each].
  assert (Hk : In k (map col_name cols)) by (apply H; now left).
  rewrite IH.
  - now apply setitem_labels.
  - intros key Hkey. rewrite setitem_labels by assumption. apply H. now right.
Qed.

(** An imputation in place, successful or not, keeps the labels and the row
    count of the table, and does not touch [artifacts/]. *)
Lemma impute_in_place_labels (s : strategy) (keys : list string) (w w' : World)
      (r : result unit) :
  impute_in_place s keys w = (r, w') ->
  columns (frame w') = columns (frame w) /\
  df_nrows (frame w') = df_nrows (frame w) /\
  artifacts_dir w' = artifacts_dir w /\ X_processed w' = X_processed w.
Proof.
  unfold impute_in_place, bind, get_frame, lift, put_frame.
  destruct (getitem_list (df_cols (frame w)) keys) as [X|e] eqn:EX;
    [|intros [= _ <-]; now repeat split].
  destruct (fit_transform s (df_nrows (frame w)) X) as [a|e];
    [|intros [= _ <-]; now repeat split].
  unfold setitem_list.
  destruct (length keys =? length (arr_cols a));
    [|intros [= _ <-]; now repeat split].
  intros [= _ <-]. cbn [frame artifacts_dir X_processed df_nrows].
  repeat split. unfold columns. cbn [df_cols].
  apply setitem_each_labels. now apply (getitem_list_keys _ X).
Qed.

(** X11.  Whatever the outcome, [preprocess_dataset] keeps the labels and the row
    count of the table it is handed; it saves a file only when it returns,
    and the file holds the matrix returned. *)
Theorem preprocess_dataset_frame_shape (model_columns : list string) (w : World) :
  let after := snd (preprocess_dataset model_columns w) in
  columns (frame after) = columns (frame w) /\
  df_nrows (frame after) = df_nrows (frame w) /\
  (forall e, fst (preprocess_dataset model_columns w) = Raise e ->
     X_processed after = X_processed w) /\
  (forall out, fst (preprocess_dataset model_columns w) = Ok out ->
     X_processed after = Some out).
Proof.
  intros after. subst after.
  rewrite preprocess_dataset_body, preprocess_body_steps. cbv zeta.
  destruct (impute_in_place Mean _ w) as [r1 w1] eqn:E1.
  destruct (impute_in_place_labels _ _ _ _ _ E1) as [Hc1 [Hn1 [Ha1 Hx1]]].
  destruct r1 as [[]|e1]; [|cbn [fst snd]; repeat split; intros; first [assumption | congruence]].
  destruct (impute_in_place MostFrequent _ w1) as [r2 w2] eqn:E2.
  destruct (impute_in_place_labels _ _ _ _ _ E2) as [Hc2 [Hn2 [Ha2 Hx2]]].
  assert (Hc : columns (frame w2) = columns (frame w)) by congruence.
  assert (Hn : df_nrows (frame w2) = df_nrows (frame w)) by congruence.
  assert (Hx : X_processed w2 = X_processed w) by congruence.
  destruct r2 as [[]|e2]; [|cbn [fst snd]; repeat split; intros; first [assumption | congruence]].
  destruct (encode_and_align _ _ _) as [out|e3];
    [|cbn [fst snd]; repeat split; intros; first [assumption | congruence]].
  destruct (artifacts_dir w2); cbn [fst snd frame X_processed];
    repeat split; intros; first [assumption | congruence].
Qed.

(** The table left behind and the matrix returned by a successful run, in
    terms of the columns of the table handed in. *)
Lemma preprocess_dataset_structure (model_columns : list string) (w w' : World)
      (out : DataFrame) :
  NoDup (columns (frame w)) ->
  preprocess_dataset model_columns w = (Ok out, w') ->
  let df := frame w in
  let X1 := filter is_numeric_col (df_cols df) in
  let X2 := filter (fun c => negb (is_numeric_col c)) (df_cols df) in
  let dt := out_dtype MostFrequent X2 in
  let encoded := map (imputed_column dt) X1
                 ++ flat_map get_dummies_1d (map (imputed_column dt) X2) in
  Forall (fun c => imputed_cells Mean (col_cells c) <> None) X1 /\
  Forall (fun c => imputed_cells MostFrequent (col_cells c) <> None) X2 /\
  frame w' = {| df_nrows := df_nrows df; df_cols := map (imputed_column dt) (df_cols df) |} /\
  out = {| df_nrows := df_nrows df;
           df_cols := flat_map (aligned (df_nrows df) encoded) model_columns |}.
Proof.
  intros Hnd Hrun df X1 X2 dt encoded.
  apply preprocess_dataset_ok in Hrun.
  destruct Hrun as [w1 [w2 [H1 [H2 [Henc [_ ->]]]]]].
  destruct (both_imputations w w1 w2 Hnd H1 H2) as [_ [_ [_ [HF1 [HF2 ->]]]]].
  fold df X1 X2 dt in HF1, HF2, Henc |- *. cbn [frame with_frame] in *.
  split; [exact HF1|]. split; [exact HF2|]. split; [reflexivity|].
  rewrite encode_and_align_cases in Henc. unfold get_dummies in Henc.
  rewrite detect_column_types_filter in Henc. cbn [categorical df_cols df_nrows] in Henc.
  fold df X2 in Henc.
  assert (Hnames : forall l, map col_name (map (imputed_column dt) l) = map col_name l).
  { intros l. rewrite map_map. apply map_ext. intros c. apply imputed_column_name. }
  assert (Hkept : filter (fun c => negb (mem (col_name c) (map col_name X2)))
                          (map (imputed_column dt) (df_cols df))
                   = map (imputed_column dt) X1).
  { rewrite filter_map_comm. f_equal.
    apply filter_ext_in. intros c Hc. rewrite imputed_column_name.
    unfold X2. rewrite mem_names_filter by assumption. apply negb_involutive. }
  rewrite Hkept in Henc.
  rewrite <- (Hnames X2) in Henc at 1.
  rewrite getitem_list_names in Henc.
  - cbn [rbind df_cols df_nrows] in Henc. now injection Henc as <-.
  - now rewrite Hnames.
  - intros c2 Hc2. apply in_map_iff in Hc2. destruct Hc2 as [c [<- Hc]].
    apply in_map. unfold X2 in Hc. apply filter_In in Hc. tauto.
Qed.

Lemma imputed_cells_notnull (s : strategy) (cells o : list cell) :
  imputed_cells s cells = Some o -> forallb notnull o = true.
Proof.
  assert (Hfill : forall m l, forallb notnull (fillna m l) = true).
  { intros m l. apply forallb_forall. intros x Hx. apply in_map_iff in Hx.
    destruct Hx as [[y|] [<- _]]; reflexivity. }
  unfold imputed_cells. destruct s.
  - destruct (as_float_cells cells) as [cs|]; [|discriminate].
    destruct (mean cs) as [m|]; [|discriminate]. simpl. intros [= <-]. apply Hfill.
  - destruct (most_frequent cells) as [[m|]|]; try discriminate.
    intros [= <-]. apply Hfill.
Qed.

Lemma imputed_mean_numbers (cells o : list cell) :
  imputed_cells Mean cells = Some o ->
  forallb is_number o = true /\ length o = length cells.
Proof.
  unfold imputed_cells.
  destruct (as_float_cells cells) as [cs|] eqn:Ecs; [|discriminate].
  destruct (mean cs) as [m|] eqn:Em; [|discriminate]. simpl. intros [= <-].
  destruct (as_float_cells_spec _ _ Ecs) as [Hcs Hnum].
  destruct (mean_some _ _ Em) as [[q ->] _]. split.
  - now apply fillna_numbers.
  - unfold fillna. now rewrite length_map, Hcs, !length_map.
Qed.

Lemma imputed_mode_length (cells o : list cell) :
  imputed_cells MostFrequent cells = Some o -> length o = length cells.
Proof.
  unfold imputed_cells. destruct (most_frequent cells) as [[m|]|]; try discriminate.
  intros [= <-]. unfold fillna. apply length_map.
Qed.

(** X13.  After a successful run on a table with distinct labels, no cell of the
    table is missing. *)
Theorem preprocess_dataset_fills_table (model_columns : list string) (w : World)
        (out : DataFrame) :
  NoDup (columns (frame w)) ->
  fst (preprocess_dataset model_columns w) = Ok out ->
  forall c, In c (df_cols (frame (snd (preprocess_dataset model_columns w)))) ->
            ~ In None (col_cells c).
Proof.
  intros Hnd Hout c Hc.
  destruct (preprocess_dataset model_columns w) as [r w'] eqn:Hrun.
  cbn [fst snd] in *. subst r.
  destruct (preprocess_dataset_structure _ _ _ _ Hnd Hrun) as [HF1 [HF2 [Hframe _]]].
  rewrite Hframe in Hc. cbn [df_cols] in Hc. apply in_map_iff in Hc.
  destruct Hc as [c0 [<- Hc0]].
  rewrite Forall_forall in HF1, HF2.
  assert (Hnn : forallb notnull (col_cells (imputed_column
                  (out_dtype MostFrequent
                     (filter (fun c => negb (is_numeric_col c)) (df_cols (frame w)))) c0))
                = true).
  { unfold imputed_column, imputed_or_empty.
    destruct (is_numeric_col c0) eqn:Hp; cbn [col_cells].
    - specialize (HF1 c0 ltac:(apply filter_In; now split)).
      destruct (imputed_cells Mean (col_cells c0)) as [o|] eqn:Ho; [|congruence].
      now apply (imputed_cells_notnull Mean (col_cells c0)).
    - specialize (HF2 c0 ltac:(apply filter_In; now rewrite Hp)).
      destruct (imputed_cells MostFrequent (col_cells c0)) as [o|] eqn:Ho; [|congruence].
      now apply (imputed_cells_notnull MostFrequent (col_cells c0)). }
  intros Hin. pose proof (forallb_In _ _ _ Hnn Hin) as H. discriminate H.
Qed.

Lemma indicator_number (level : value) (cells : list cell) :
  forallb is_number (map (indicator level) cells) = true.
Proof.
  apply forallb_forall. intros x Hx. apply in_map_iff in Hx.
  destruct Hx as [[v|] [<- _]]; unfold indicator; [|reflexivity].
  now destruct (value_eq_dec (canon v) level).
Qed.

Lemma aligned_In (nrows : nat) (cols : list column) (keys : list string) (d : column) :
  In d (flat_map (aligned nrows cols) keys) ->
  In d cols \/ exists key, d = zero_column nrows key.
Proof.
  intros H. apply in_flat_map in H. destruct H as [key [_ H]].
  unfold aligned in H. destruct (mem key (map col_name cols)).
  - left. apply filter_In in H. tauto.
  - right. destruct H as [<-|[]]. now exists key.
Qed.

(** X14.  The matrix of a successful run on a well-formed table holds numbers
    only (no missing cell, no text), and is rectangular: it has the row
    count of the table, and each of its columns has that many cells. *)
Theorem preprocess_dataset_matrix_cells (model_columns : list string) (w : World)
        (out : DataFrame) :
  wf_table (frame w) = true ->
  fst (preprocess_dataset model_columns w) = Ok out ->
  df_nrows out = df_nrows (frame w) /\
  forall d, In d (df_cols out) ->
    forallb is_number (col_cells d) = true /\ length (col_cells d) = df_nrows out.
Proof.
  intros Hwf Hout.
  destruct (preprocess_dataset model_columns w) as [r w'] eqn:Hrun.
  cbn [fst] in Hout. subst r.
  destruct (wf_table_columns _ Hwf) as [Hnd _].
  assert (Hlen : forall c, In c (df_cols (frame w)) ->
                           length (col_cells c) = df_nrows (frame w)).
  { intros c Hc. unfold wf_table in Hwf. apply andb_true_iff in Hwf.
    destruct Hwf as [_ Hwf]. pose proof (forallb_In _ _ _ Hwf Hc) as Hcol.
    unfold wf_column in Hcol. apply andb_true_iff in Hcol.
    destruct Hcol as [Hcol _]. now apply Nat.eqb_eq. }
  destruct (preprocess_dataset_structure _ _ _ _ Hnd Hrun) as [HF1 [HF2 [_ ->]]].
  cbn [df_nrows df_cols]. split; [reflexivity|].
  rewrite Forall_forall in HF1, HF2.
  intros d Hd. apply aligned_In in Hd. destruct Hd as [Hd|[key ->]].
  - apply in_app_iff in Hd. destruct Hd as [Hd|Hd].
    + apply in_map_iff in Hd. destruct Hd as [c [<- Hc]].
      specialize (HF1 c Hc). apply filter_In in Hc. destruct Hc as [Hc Hp].
      unfold imputed_column, imputed_or_empty. rewrite Hp. cbn [col_cells].
      destruct (imputed_cells Mean (col_cells c)) as [o|] eqn:Ho; [|congruence].
      destruct (imputed_mean_numbers _ _ Ho) as [Hnum Hl].
      split; [assumption|]. rewrite Hl. now apply Hlen.
    + apply in_flat_map in Hd. destruct Hd as [c2 [Hc2 Hd]].
      apply in_map_iff in Hc2. destruct Hc2 as [c [<- Hc]].
      specialize (HF2 c Hc). apply filter_In in Hc. destruct Hc as [Hc Hp].
      apply negb_true_iff in Hp.
      unfold get_dummies_1d in Hd. apply in_map_iff in Hd.
      destruct Hd as [level [<- _]]. cbn [col_cells].
      split; [apply indicator_number|]. rewrite length_map.
      unfold imputed_column, imputed_or_empty. rewrite Hp. cbn [col_cells].
      destruct (imputed_cells MostFrequent (col_cells c)) as [o|] eqn:Ho; [|congruence].
      rewrite (imputed_mode_length _ _ Ho). now apply Hlen.
  - unfold zero_column, zeros. cbn [col_cells]. split.
    + apply forallb_forall. intros x Hx. apply repeat_spec in Hx. now subst x.
    + apply repeat_length.
Qed.

Lemma NoDup_map_unique {A B} (f : A -> B) (l : list A) (x y : A) :
  NoDup (map f l) -> In x l -> In y l -> f x = f y -> x = y.
Proof.
  induction l as [|a r IH]; intros Hnd Hx Hy E; [contradiction|].
  simpl in Hnd. inversion Hnd as [|? ? Ha Hr]; subst.
  destruct Hx as [->|Hx], Hy as [->|Hy]; try reflexivity.
  - exfalso. apply Ha. rewrite E. now apply in_map.
  - exfalso. apply Ha. rewrite <- E. now apply in_map.
  - now apply IH.
Qed.

Lemma aligned_present (nrows : nat) (cols : list column) (keys : list string)
      (d : column) :
  In d cols -> In (col_name d) keys -> In d (flat_map (aligned nrows cols) keys).
Proof.
  intros Hd Hkey. apply in_flat_map. exists (col_name d). split; [assumption|].
  unfold aligned.
  assert (mem (col_name d) (map col_name cols) = true) as ->
      by (apply mem_In; now apply in_map).
  apply filter_In. split; [assumption | apply String.eqb_refl].
Qed.

(** X15.  A column of numeric dtype that is labelled numeric and named in the
    schema passes through: the matrix has a column with its label whose
    cells are those of the table converted to float64, the missing ones
    replaced by the mean fitted on the converted column; when the labels of
    the matrix are distinct it is the only column with that label. *)
Theorem preprocess_dataset_numeric_passthrough (model_columns : list string)
        (w : World) (out : DataFrame) (c : column) :
  wf_table (frame w) = true ->
  fst (preprocess_dataset model_columns w) = Ok out ->
  In c (df_cols (frame w)) -> is_numeric_dtype c = true ->
  In (col_name c) (numeric (detect_column_types (frame w))) ->
  In (col_name c) model_columns ->
  let cells := map float_cell (col_cells c) in
  exists m,
    mean cells = Some m /\
    In (mkColumn (col_name c) DNumeric (fillna m cells)) (df_cols out) /\
    (NoDup (columns out) ->
     forall d, In d (df_cols out) -> col_name d = col_name c ->
               d = mkColumn (col_name c) DNumeric (fillna m cells)).
Proof.
  intros Hwf Hout Hc Hdt Hnum Hkey cells.
  destruct (preprocess_dataset model_columns w) as [r w'] eqn:Hrun.
  cbn [fst] in Hout. subst r.
  destruct (wf_table_columns _ Hwf) as [Hnd Htyped].
  apply (In_numeric _ _ Hnd Hc) in Hnum.
  destruct (preprocess_dataset_structure _ _ _ _ Hnd Hrun) as [HF1 [_ [_ ->]]].
  rewrite Forall_forall in HF1.
  specialize (HF1 c ltac:(apply filter_In; now split)).
  specialize (Htyped c Hc). unfold typed in Htyped. rewrite Hdt in Htyped.
  destruct (as_float_cells_numbers _ Htyped) as [Hfloat _]. fold cells in Hfloat.
  unfold imputed_cells in HF1. rewrite Hfloat in HF1.
  destruct (mean cells) as [m|] eqn:Em; [|now simpl in HF1].
  exists m. split; [reflexivity|].
  set (d := mkColumn (col_name c) DNumeric (fillna m cells)).
  assert (Hd : In d (df_cols {| df_nrows := df_nrows (frame w);
                 df_cols := flat_map (aligned (df_nrows (frame w))
                   (map (imputed_column (out_dtype MostFrequent
                           (filter (fun c0 => negb (is_numeric_col c0)) (df_cols (frame w)))))
                        (filter is_numeric_col (df_cols (frame w)))
                    ++ flat_map get_dummies_1d
                         (map (imputed_column (out_dtype MostFrequent
                            (filter (fun c0 => negb (is_numeric_col c0)) (df_cols (frame w)))))
                            (filter (fun c0 => negb (is_numeric_col c0)) (df_cols (frame w))))))
                   model_columns |})).
  { cbn [df_cols]. apply aligned_present; [|exact Hkey].
    apply in_app_iff. left. apply in_map_iff. exists c. split.
    - unfold imputed_column, imputed_or_empty, imputed_cells.
      rewrite Hnum, Hfloat, Em. reflexivity.
    - apply filter_In. now split. }
  split; [exact Hd|].
  intros Hnd' d' Hd' Hname.
  exact (NoDup_map_unique col_name _ d' d Hnd' Hd' Hd Hname).
Qed.

Lemma insert_sorted_In (v x : value) (l : list value) :
  In x (insert_sorted v l) <-> x = v \/ In x l.
Proof.
  induction l as [|a r IH]; simpl.
  - split; [intros [H|[]]; now left | intros [H|[]]; now left].
  - destruct (value_leb v a); simpl; [|rewrite IH];
      split; intros H; intuition auto.
Qed.

Lemma sort_values_In (x : value) (l : list value) :
  In x (sort_values l) <-> In x l.
Proof.
  induction l as [|a r IH]; simpl; [reflexivity|].
  rewrite insert_sorted_In, IH. split; intros [H|H]; auto.
Qed.

(** X16.  A column labelled categorical is expanded into indicators: for a
    text [s] observed in the column and the label [col_s] named in the
    schema, the matrix has a column labelled [col_s] that holds 1 in the
    rows where the column, its missing cells filled with its most frequent
    value, holds [s], and 0 elsewhere; when the labels of the matrix are
    distinct it is the only column with that label. *)
Theorem preprocess_dataset_indicator (model_columns : list string) (w : World)
        (out : DataFrame) (c : column) (s : string) :
  NoDup (columns (frame w)) ->
  fst (preprocess_dataset model_columns w) = Ok out ->
  In c (df_cols (frame w)) ->
  In (col_name c) (categorical (detect_column_types (frame w))) ->
  In (Some (VStr s)) (col_cells c) ->
  let key := (col_name c ++ "_" ++ s)%string in
  In key model_columns ->
  exists m,
    most_frequent (col_cells c) = Ok (Some m) /\
    let d := mkColumn key DNumeric
                      (map (indicator (VStr s)) (fillna m (col_cells c))) in
    In d (df_cols out) /\
    (NoDup (columns out) ->
     forall d', In d' (df_cols out) -> col_name d' = key -> d' = d).
Proof.
  intros Hnd Hout Hc Hcat Hv key Hkey.
  destruct (preprocess_dataset model_columns w) as [r w'] eqn:Hrun.
  cbn [fst] in Hout. subst r.
  apply (In_categorical _ _ Hnd Hc) in Hcat.
  destruct (preprocess_dataset_structure _ _ _ _ Hnd Hrun) as [_ [HF2 [_ ->]]].
  rewrite Forall_forall in HF2.
  specialize (HF2 c ltac:(apply filter_In; now rewrite Hcat)).
  unfold imputed_cells in HF2.
  destruct (most_frequent (col_cells c)) as [[m|]|] eqn:Em; try congruence.
  exists m. split; [reflexivity|].
  set (d := mkColumn key DNumeric (map (indicator (VStr s)) (fillna m (col_cells c)))).
  cbn zeta. cbn [df_cols].
  assert (Hd : In d (flat_map (aligned (df_nrows (frame w))
                   (map (imputed_column (out_dtype MostFrequent
                           (filter (fun c0 => negb (is_numeric_col c0)) (df_cols (frame w)))))
                        (filter is_numeric_col (df_cols (frame w)))
                    ++ flat_map get_dummies_1d
                         (map (imputed_column (out_dtype MostFrequent
                            (filter (fun c0 => negb (is_numeric_col c0)) (df_cols (frame w)))))
                            (filter (fun c0 => negb (is_numeric_col c0)) (df_cols (frame w))))))
                   model_columns)).
  { apply aligned_present; [|exact Hkey].
    apply in_app_iff. right. apply in_flat_map.
    eexists. split.
    - apply in_map. apply filter_In. split; [exact Hc | now rewrite Hcat].
    - unfold imputed_column, imputed_or_empty, imputed_cells. rewrite Hcat, Em.
      unfold get_dummies_1d. cbn [col_name col_cells].
      apply in_map_iff. exists (VStr s). split; [reflexivity|].
      apply sort_values_In. unfold unique. apply nodup_In. apply dropna_In.
      exists (VStr s). split; [|reflexivity]. apply fillna_In. now left. }
  split; [exact Hd|].
  intros Hnd' d' Hd' Hname.
  exact (NoDup_map_unique col_name _ d' d Hnd' Hd' Hd Hname).
Qed.

(** X17.  A column of numeric dtype that is labelled numeric is imputed in
    place: in the table a successful run leaves, the column with its label
    holds its cells converted to float64, the missing ones replaced by the
    mean fitted on the converted column. *)
Theorem preprocess_dataset_numeric_in_place (model_columns : list string) (w : World)
        (out : DataFrame) (c : column) :
  wf_table (frame w) = true ->
  fst (preprocess_dataset model_columns w) = Ok out ->
  In c (df_cols (frame w)) -> is_numeric_dtype c = true ->
  In (col_name c) (numeric (detect_column_types (frame w))) ->
  let cells := map float_cell (col_cells c) in
  let after := frame (snd (preprocess_dataset model_columns w)) in
  exists m,
    mean cells = Some m /\
    In (mkColumn (col_name c) DNumeric (fillna m cells)) (df_cols after) /\
    forall d, In d (df_cols after) -> col_name d = col_name c ->
              d = mkColumn (col_name c) DNumeric (fillna m cells).
Proof.
  intros Hwf Hout Hc Hdt Hnum cells after.
  destruct (wf_table_columns _ Hwf) as [Hnd Htyped].
  subst after.
  destruct (preprocess_dataset model_columns w) as [r w'] eqn:Hrun.
  cbn [fst snd] in *. subst r.
  apply (In_numeric _ _ Hnd Hc) in Hnum.
  destruct (preprocess_dataset_structure _ _ _ _ Hnd Hrun) as [HF1 [_ [Hframe _]]].
  assert (Hnd' : NoDup (columns (frame w'))).
  { rewrite Hframe. unfold columns. cbn [df_cols]. rewrite map_map.
    erewrite map_ext; [exact Hnd | intros c0; apply imputed_column_name]. }
  rewrite Forall_forall in HF1.
  specialize (HF1 c ltac:(apply filter_In; now split)).
  specialize (Htyped c Hc). unfold typed in Htyped. rewrite Hdt in Htyped.
  destruct (as_float_cells_numbers _ Htyped) as [Hfloat _]. fold cells in Hfloat.
  unfold imputed_cells in HF1. rewrite Hfloat in HF1.
  destruct (mean cells) as [m|] eqn:Em; [|now simpl in HF1].
  exists m. split; [reflexivity|].
  set (d := mkColumn (col_name c) DNumeric (fillna m cells)).
  assert (Hd : In d (df_cols (frame w'))).
  { rewrite Hframe. cbn [df_cols]. apply in_map_iff. exists c. split; [|assumption].
    unfold imputed_column, imputed_or_empty, imputed_cells.
    now rewrite Hnum, Hfloat, Em. }
  split; [exact Hd|].
  intros d' Hd' Hname.
  exact (NoDup_map_unique col_name _ d' d Hnd' Hd' Hd Hname).
Qed.

Lemma imputed_cells_all_missing (s : strategy) (cells : list cell) :
  (forall x, In x cells -> x = None) -> imputed_cells s cells = None.
Proof.
  intros H.
  assert (Hcells : cells = repeat None (length cells)).
  { clear - H. induction cells as [|x r IH]; [reflexivity|].
    simpl. rewrite (H x) by now left. f_equal. apply IH.
    intros y Hy. apply H. now right. }
  rewrite Hcells. clear. unfold imputed_cells. destruct s.
  - assert (as_float_cells (repeat None (length cells)) = Some (repeat None (length cells)))
      as -> by (induction (length cells) as [|n IH]; simpl; [|rewrite IH]; reflexivity).
    assert (mean (repeat None (length cells)) = None) as ->; [|reflexivity].
    unfold mean.
    assert (numbers (repeat None (length cells)) = []) as ->; [|reflexivity].
    induction (length cells) as [|n IH]; simpl; [reflexivity | exact IH].
  - unfold most_frequent, unique.
    assert (dropna (repeat None (length cells)) = []) as ->; [|reflexivity].
    induction (length cells) as [|n IH]; simpl; [reflexivity | exact IH].
Qed.

(** X9.  A column without any observed value makes [preprocess_dataset] raise:
    the imputer leaves such a column out of its output, which no longer
    fits the columns it is assigned to. *)
Theorem preprocess_dataset_empty_column (model_columns : list string) (w : World)
        (c : column) :
  NoDup (columns (frame w)) -> In c (df_cols (frame w)) ->
  (forall x, In x (col_cells c) -> x = None) ->
  exists msg,
    fst (preprocess_dataset model_columns w)
    = Raise (mkException ValueError ("Preprocessing failed: " ++ msg)%string).
Proof.
  intros Hnd Hc Hmiss.
  destruct (preprocess_dataset model_columns w) as [[out|e] w'] eqn:Hrun.
  - exfalso.
    destruct (preprocess_dataset_structure _ _ _ _ Hnd Hrun) as [HF1 [HF2 _]].
    rewrite Forall_forall in HF1, HF2.
    destruct (is_numeric_col c) eqn:Hp.
    + apply (HF1 c); [apply filter_In; now split|].
      now apply imputed_cells_all_missing.
    + apply (HF2 c); [apply filter_In; now rewrite Hp|].
      now apply imputed_cells_all_missing.
  - rewrite preprocess_dataset_body in Hrun.
    destruct (preprocess_body model_columns w) as [[out|cause] w''];
      [discriminate|].
    injection Hrun as <- _. exists (exc_msg cause). reflexivity.
Qed.

Lemma length_dropna (cells : list cell) :
  length (dropna cells) + count_null cells = length cells.
Proof.
  unfold count_null. induction cells as [|[v|] r IH]; simpl; lia.
Qed.

(** X3.  In a well-formed table a column with a tenth or more of its cells
    missing is never listed as high-cardinality, nor as a likely
    identifier. *)
Theorem check_high_cardinality_missing_cells (df : DataFrame) (c : column) :
  wf_table df = true -> In c (df_cols df) ->
  df_nrows df <= 10 * count_null (col_cells c) ->
  ~ In (col_name c) (fst (check_high_cardinality_and_identifiers df)) /\
  ~ In (col_name c) (snd (check_high_cardinality_and_identifiers df)).
Proof.
  intros Hwf Hc Hnull.
  destruct (wf_table_columns _ Hwf) as [Hnd _].
  assert (Hlen : length (col_cells c) = df_nrows df).
  { unfold wf_table in Hwf. apply andb_true_iff in Hwf. destruct Hwf as [_ Hwf].
    pose proof (forallb_In _ _ _ Hwf Hc) as Hcol.
    unfold wf_column in Hcol. apply andb_true_iff in Hcol.
    destruct Hcol as [Hcol _]. now apply Nat.eqb_eq. }
  assert (Hu : nunique (col_cells c) + count_null (col_cells c) <= df_nrows df).
  { rewrite <- Hlen, <- (length_dropna (col_cells c)).
    apply Nat.add_le_mono_r. unfold nunique, unique.
    apply NoDup_incl_length; [apply NoDup_nodup|].
    intros v Hv. now apply nodup_In in Hv. }
  unfold check_high_cardinality_and_identifiers. rewrite check_fold. cbn [fst snd app].
  assert (Hhigh : ~ In (col_name c)
                     (map col_name (filter (is_high_cardinality (df_nrows df)) (df_cols df)))).
  { rewrite (In_names_filter _ _ _ Hnd Hc). unfold is_high_cardinality.
    rewrite exceeds_90_percent_int, Nat.ltb_lt. lia. }
  split; [exact Hhigh|]. intros H. apply filter_In in H. tauto.
Qed.

(** X12.  A failed call is not undone: when the imputation of the categorical
    columns raises after that of the numeric columns went through, the
    caller's table is left with its numeric columns imputed; when the first
    imputation raises, nothing has changed. *)
Theorem preprocess_dataset_failure_state (model_columns : list string) (w : World) :
  let column_types := detect_column_types (frame w) in
  (forall cause,
     fst (impute_in_place Mean (numeric column_types) w) = Raise cause ->
     snd (preprocess_dataset model_columns w) = w) /\
  (forall w1 cause,
     NoDup (columns (frame w)) ->
     impute_in_place Mean (numeric column_types) w = (Ok tt, w1) ->
     fst (impute_in_place MostFrequent (categorical column_types) w1) = Raise cause ->
     fst (preprocess_dataset model_columns w) = Raise (wrap cause) /\
     snd (preprocess_dataset model_columns w)
     = with_frame w (imputed_frame Mean is_numeric_col (frame w))).
Proof.
  intros column_types. split.
  - intros cause H. rewrite preprocess_dataset_body, preprocess_body_steps. cbv zeta.
    fold column_types.
    destruct (impute_in_place Mean (numeric column_types) w) as [r w1] eqn:E.
    cbn [fst] in H. subst r. cbn [snd]. now apply impute_in_place_raise in E.
  - intros w1 cause Hnd H1 H2.
    rewrite preprocess_dataset_body, preprocess_body_steps. cbv zeta.
    fold column_types. rewrite H1.
    destruct (impute_in_place MostFrequent (categorical column_types) w1)
      as [r w2] eqn:E.
    cbn [fst] in H2. subst r. cbn [fst snd]. split; [reflexivity|].
    apply impute_in_place_raise in E. subst w2.
    subst column_types. rewrite detect_column_types_filter in H1. cbn [numeric] in H1.
    now apply impute_in_place_ok in H1.
Qed.

End Code.

(* ================================================================== *)
(** * The theorems at the sample tables *)

Lemma detect_column_types_partition_witness :
  NoDup (columns customers) /\
  Permutation (numeric (detect_column_types parse_decimal customers)
               ++ categorical (detect_column_types parse_decimal customers))
              (columns customers).
Proof.
  assert (H : NoDup (columns customers)) by (apply distinct_names_NoDup; reflexivity).
  split; [exact H|].
  exact (proj2 (proj2 (detect_column_types_partition parse_decimal customers H))).
Defined.


Lemma validate_dataframe_hard_failures_witness :
  fst (validate_dataframe parse_decimal repr_ascii (world_of tiny_table)) = Raise too_few_rows /\
  fst (validate_dataframe parse_decimal repr_ascii (world_of nine_rows)) = Raise too_few_rows /\
  exists report, fst (validate_dataframe parse_decimal repr_ascii (world_of ten_rows)) = Ok report.
Proof.
  pose proof (validate_dataframe_hard_failures parse_decimal repr_ascii (world_of tiny_table))
    as [_ [_ [_ [_ [_ Htiny]]]]].
  pose proof (validate_dataframe_hard_failures parse_decimal repr_ascii (world_of nine_rows))
    as [Hnine _].
  pose proof (validate_dataframe_hard_failures parse_decimal repr_ascii (world_of ten_rows))
    as [_ [_ [_ [Hten _]]]].
  split; [exact (Htiny eq_refl eq_refl)|]. split.
  - apply Hnine. change (9 < 10). lia.
  - apply Hten.
    + change (10 <= 10). lia.
    + change (2 <= 2). lia.
    + intros H. specialize (H (mkColumn "x" DNumeric (count_up 0 10))
                              (or_introl eq_refl) (num 0) (or_introl eq_refl)).
      discriminate H.
Defined.

Lemma validate_dataframe_target_candidates_witness :
  NoDup (columns customers) /\
  exists report,
    fst (validate_dataframe parse_decimal repr_ascii (world_of customers)) = Ok report /\
    In "churned" (r_target_candidates report) /\
    ~ In "customer_id" (r_target_candidates report).
Proof.
  assert (Hnd : NoDup (columns customers)) by (apply distinct_names_NoDup; reflexivity).
  split; [exact Hnd|].
  assert (H : exists report,
             fst (validate_dataframe parse_decimal repr_ascii (world_of customers)) = Ok report)
    by (vm_compute; eexists; reflexivity).
  destruct H as [report H]. exists report. split; [exact H|].
  pose proof (@validate_dataframe_target_candidates parse_decimal repr_ascii (world_of customers)
                report Hnd H) as [_ [_ [Hout Hin]]].
  assert (N1 : nunique (cycle [num 0; num 1] 100) = 2) by (vm_compute; reflexivity).
  assert (N2 : nunique (count_up 1000 100) = 100) by (vm_compute; reflexivity).
  split.
  - exact (Hin (mkColumn "churned" DNumeric (cycle [num 0; num 1] 100))
               (or_intror (or_intror (or_introl eq_refl))) N1 eq_refl).
  - exact (Hout (mkColumn "customer_id" DNumeric (count_up 1000 100))
                (or_introl eq_refl) N2).
Defined.

Lemma check_high_cardinality_and_identifiers_lists_witness :
  NoDup (columns customers) /\
  In "customer_id" (fst (check_high_cardinality_and_identifiers customers)) /\
  In "customer_id" (snd (check_high_cardinality_and_identifiers customers)) /\
  In "transaction_amount" (fst (check_high_cardinality_and_identifiers customers)) /\
  ~ In "transaction_amount" (snd (check_high_cardinality_and_identifiers customers)).
Proof.
  assert (Hnd : NoDup (columns customers)) by (apply distinct_names_NoDup; reflexivity).
  split; [exact Hnd|].
  pose proof (check_high_cardinality_and_identifiers_lists customers Hnd)
    as [Hhc [_ [_ [_ [_ [Hid Hamount]]]]]].
  assert (N1 : nunique (count_up 1000 100) = 100) by (vm_compute; reflexivity).
  assert (N2 : nunique (count_up 5 100) = 100) by (vm_compute; reflexivity).
  assert (L1 : 9 * 100 < 10 * nunique (count_up 1000 100)) by (rewrite N1; lia).
  assert (L2 : 9 * 100 < 10 * nunique (count_up 5 100)) by (rewrite N2; lia).
  pose proof (proj2 (Hhc (mkColumn "customer_id" DNumeric (count_up 1000 100))
                         (or_introl eq_refl)) L1) as H1.
  pose proof (proj2 (Hhc (mkColumn "transaction_amount" DNumeric (count_up 5 100))
                         (or_intror (or_introl eq_refl))) L2) as H2.
  split; [exact H1|]. split; [exact (Hid H1)|]. split; [exact H2 | exact Hamount].
Defined.

Lemma preprocess_dataset_wraps_failures_witness :
  fst (preprocess_body parse_decimal print_number
      exact_mean min_raises could_not_convert city_schema (world_of text_table))
  = Raise (mkException ValueError "at least one array or dtype is required") /\
  fst (preprocess_dataset parse_decimal print_number
      exact_mean min_raises could_not_convert city_schema (world_of text_table))
  = Raise (mkException ValueError
             "Preprocessing failed: at least one array or dtype is required").
Proof.
  assert (H : fst (preprocess_body parse_decimal print_number
      exact_mean min_raises could_not_convert city_schema
                                   (world_of text_table))
              = Raise (mkException ValueError "at least one array or dtype is required"))
    by reflexivity.
  split; [exact H|].
  exact (proj1 (preprocess_dataset_wraps_failures parse_decimal print_number
      exact_mean min_raises could_not_convert city_schema
                  (world_of text_table)) _ H).
Defined.

Lemma preprocess_dataset_empty_selection_witness :
  numeric (detect_column_types parse_decimal (frame (world_of text_table))) = [] /\
  fst (preprocess_dataset parse_decimal print_number
      exact_mean min_raises could_not_convert city_schema (world_of text_table))
  = Raise (mkException ValueError
             "Preprocessing failed: at least one array or dtype is required").
Proof.
  assert (H : numeric (detect_column_types parse_decimal (frame (world_of text_table))) = [])
    by reflexivity.
  split; [exact H|].
  exact (proj1 (preprocess_dataset_empty_selection parse_decimal print_number
      exact_mean min_raises could_not_convert city_schema
                  (world_of text_table)) H).
Defined.

Lemma preprocess_dataset_rerun_witness :
  let run := preprocess_dataset parse_decimal print_number exact_mean min_raises
                                could_not_convert city_schema in
  wf_table (frame (world_of survey_table)) = true /\
  text_only (frame (world_of survey_table)) = true /\
  float_table parse_decimal (frame (world_of survey_table)) = true /\
  exists out,
    fst (run (world_of survey_table)) = Ok out /\
    run (snd (run (world_of survey_table))) = (Ok out, snd (run (world_of survey_table))).
Proof.
  intros run.
  assert (Hwf : wf_table (frame (world_of survey_table)) = true)
    by (vm_compute; reflexivity).
  assert (Htext : text_only (frame (world_of survey_table)) = true)
    by (vm_compute; reflexivity).
  assert (Hfloat : float_table parse_decimal (frame (world_of survey_table)) = true)
    by (vm_compute; reflexivity).
  split; [exact Hwf|]. split; [exact Htext|]. split; [exact Hfloat|].
  assert (H : exists out, fst (run (world_of survey_table)) = Ok out)
    by (vm_compute; eexists; reflexivity).
  destruct H as [out H]. exists out. split; [exact H|].
  exact (proj1 (preprocess_dataset_rerun parse_decimal print_number exact_mean min_raises
                  could_not_convert city_schema (world_of survey_table) out
                  Hwf Htext Hfloat H)).
Defined.

(** C9 as stated fails.  On a well-formed table with an object column of 16
    distinct numbers and 4 missing cells (20 rows), the first run labels the
    column categorical (16/20 is not above 0.8) and fills it with its
    smallest value; the table it leaves has the column complete, so the
    second run labels it numeric: for the schema [age, code] the first run
    returns a column of zeros for [code], the second the numbers. *)
Lemma preprocess_dataset_rerun_differs :
  let run := preprocess_dataset parse_decimal print_number
      exact_mean min_raises could_not_convert ["age"; "code"] in
  wf_table code_table = true /\
  exists first second,
    fst (run (world_of code_table)) = Ok first /\
    fst (run (snd (run (world_of code_table)))) = Ok second /\
    first <> second.
Proof.
  split; [reflexivity|].
  vm_compute. eexists. eexists. split; [reflexivity|]. split; [reflexivity|].
  intros H. discriminate H.
Qed.

(** The conversion to float64 of the mean imputer can change the labels too.
    In [big_table] the column [age] holds the 16 whole numbers from 2^53 on,
    which float64 rounds to 9 values.  The table is well formed and its
    object column holds text only; the first run succeeds, and in the table
    it leaves [age] has 9 distinct values, so no column is labelled numeric
    and the second run raises. *)
Lemma preprocess_dataset_rerun_rounds :
  let run := preprocess_dataset parse_decimal print_number exact_mean min_raises
                                could_not_convert city_schema in
  wf_table big_table = true /\ text_only big_table = true /\
  float_table parse_decimal big_table = false /\
  (exists out, fst (run (world_of big_table)) = Ok out) /\
  nunique (flat_map col_cells (lookup (df_cols (frame (snd (run (world_of big_table)))))
                                      "age")) = 9 /\
  fst (run (snd (run (world_of big_table))))
  = Raise (mkException ValueError
             "Preprocessing failed: at least one array or dtype is required").
Proof.
  vm_compute. split; [reflexivity|]. split; [reflexivity|]. split; [reflexivity|].
  split; [eexists; reflexivity|]. split; reflexivity.
Qed.

(** C1 fails on a table whose encoded labels clash.  The table has a text
    column [city] with the values A and C and a numeric column already
    named [city_A]; the encoded table carries the label [city_A] twice, and
    for the schema [city_A] the matrix returned has two columns. *)
Theorem preprocess_dataset_label_clash :
  wf_table clash_table = true /\
  exists out,
    fst (preprocess_dataset parse_decimal print_number
        exact_mean min_raises could_not_convert ["city_A"] (world_of clash_table))
    = Ok out /\
    columns out = ["city_A"; "city_A"] /\
    columns out <> ["city_A"].
Proof.
  split; [reflexivity|].
  vm_compute. eexists. split; [reflexivity|]. split; [reflexivity|].
  intros H. discriminate H.
Qed.

(** The example of the specification: columns [age], [city_A], [city_B] in
    that order, [city_B] all zeros. *)
Lemma preprocess_dataset_city_example :
  exists out,
    fst (preprocess_dataset parse_decimal print_number
        exact_mean min_raises could_not_convert city_schema (world_of city_table))
    = Ok out /\
    columns out = ["age"; "city_A"; "city_B"] /\
    lookup (df_cols out) "city_B" = [zero_column 16 "city_B"].
Proof.
  vm_compute. eexists. split; [reflexivity|]. split; reflexivity.
Qed.

(* ================================================================== *)
(** * The further theorems at the sample tables *)

Lemma detect_column_types_order_witness :
  NoDup (columns code_table) /\
  numeric (detect_column_types parse_decimal code_table)
  = filter (fun col => mem col (numeric (detect_column_types parse_decimal code_table)))
           (columns code_table) /\
  categorical (detect_column_types parse_decimal code_table)
  = filter (fun col => mem col (categorical (detect_column_types parse_decimal code_table)))
           (columns code_table).
Proof.
  assert (H : NoDup (columns code_table)) by (apply distinct_names_NoDup; reflexivity).
  split; [exact H|].
  exact (detect_column_types_order parse_decimal code_table H).
Defined.

Lemma detect_column_types_few_distinct_witness :
  let churned := mkColumn "churned" DNumeric (cycle [num 0; num 1] 100) in
  NoDup (columns customers) /\ In churned (df_cols customers) /\
  nunique (col_cells churned) <= 15 /\
  In (col_name churned) (categorical (detect_column_types parse_decimal customers)) /\
  ~ In (col_name churned) (numeric (detect_column_types parse_decimal customers)).
Proof.
  intros churned.
  assert (Hnd : NoDup (columns customers)) by (apply distinct_names_NoDup; reflexivity).
  assert (Hc : In churned (df_cols customers))
    by exact (or_intror (or_intror (or_introl eq_refl))).
  assert (N : nunique (col_cells churned) = 2) by (vm_compute; reflexivity).
  assert (L : nunique (col_cells churned) <= 15) by (rewrite N; lia).
  split; [exact Hnd|]. split; [exact Hc|]. split; [exact L|].
  exact (proj1 (detect_column_types_few_distinct parse_decimal customers churned Hnd Hc) L).
Defined.

Lemma check_high_cardinality_missing_cells_witness :
  let age := mkColumn "age" DNumeric (count_up 20 16 ++ repeat None 4) in
  wf_table survey_table = true /\ In age (df_cols survey_table) /\
  df_nrows survey_table <= 10 * count_null (col_cells age) /\
  ~ In (col_name age) (fst (check_high_cardinality_and_identifiers survey_table)) /\
  ~ In (col_name age) (snd (check_high_cardinality_and_identifiers survey_table)).
Proof.
  intros age.
  assert (Hwf : wf_table survey_table = true) by (vm_compute; reflexivity).
  assert (Hc : In age (df_cols survey_table)) by exact (or_introl eq_refl).
  assert (N : count_null (col_cells age) = 4) by (vm_compute; reflexivity).
  assert (L : df_nrows survey_table <= 10 * count_null (col_cells age))
    by (rewrite N; change (20 <= 10 * 4); lia).
  split; [exact Hwf|]. split; [exact Hc|]. split; [exact L|].
  exact (check_high_cardinality_missing_cells survey_table age Hwf Hc L).
Defined.

Lemma validate_dataframe_null_warning_witness :
  exists report,
    fst (validate_dataframe parse_decimal repr_ascii (world_of survey_table)) = Ok report /\
    In "Contains null values" (r_warnings report) /\ 0 < r_missing_values report.
Proof.
  assert (H : exists report,
             fst (validate_dataframe parse_decimal repr_ascii (world_of survey_table)) = Ok report)
    by (vm_compute; eexists; reflexivity).
  destruct H as [report H]. exists report. split; [exact H|].
  pose proof (validate_dataframe_null_warning parse_decimal repr_ascii (world_of survey_table)
                report H) as [Hw Hm].
  assert (Hex : exists c, In c (df_cols (frame (world_of survey_table))) /\
                          In None (col_cells c)).
  { exists (mkColumn "city" DObject (None :: cycle [str "A"; str "C"] 19)).
    split; [exact (or_intror (or_introl eq_refl)) | exact (or_introl eq_refl)]. }
  split; [exact (proj2 Hw (proj2 Hm Hex)) | exact (proj2 Hm Hex)].
Defined.

Lemma validate_dataframe_missing_bound_witness :
  wf_table (frame (world_of survey_table)) = true /\
  exists report,
    fst (validate_dataframe parse_decimal repr_ascii (world_of survey_table)) = Ok report /\
    r_missing_values report < r_row_count report * r_column_count report.
Proof.
  assert (Hwf : wf_table (frame (world_of survey_table)) = true)
    by (vm_compute; reflexivity).
  split; [exact Hwf|].
  assert (H : exists report,
             fst (validate_dataframe parse_decimal repr_ascii (world_of survey_table)) = Ok report)
    by (vm_compute; eexists; reflexivity).
  destruct H as [report H]. exists report. split; [exact H|].
  exact (validate_dataframe_missing_bound parse_decimal repr_ascii (world_of survey_table)
           report Hwf H).
Defined.

Lemma validate_dataframe_candidates_apart_witness :
  let churned := mkColumn "churned" DNumeric (cycle [num 0; num 1] 100) in
  NoDup (columns (frame (world_of customers))) /\
  In churned (df_cols (frame (world_of customers))) /\
  exists report,
    fst (validate_dataframe parse_decimal repr_ascii (world_of customers)) = Ok report /\
    ~ (In (col_name churned) (r_target_candidates report) /\
       In (col_name churned)
          (fst (check_high_cardinality_and_identifiers (frame (world_of customers))))).
Proof.
  intros churned.
  assert (Hnd : NoDup (columns (frame (world_of customers))))
    by (apply distinct_names_NoDup; reflexivity).
  assert (Hc : In churned (df_cols (frame (world_of customers))))
    by exact (or_intror (or_intror (or_introl eq_refl))).
  split; [exact Hnd|]. split; [exact Hc|].
  assert (H : exists report,
             fst (validate_dataframe parse_decimal repr_ascii (world_of customers)) = Ok report)
    by (vm_compute; eexists; reflexivity).
  destruct H as [report H]. exists report. split; [exact H|].
  exact (proj1 (validate_dataframe_candidates_apart parse_decimal repr_ascii (world_of customers)
                  report churned Hnd H Hc)).
Defined.

Lemma validate_dataframe_warnings_witness :
  exists report,
    fst (validate_dataframe parse_decimal repr_ascii (world_of customers)) = Ok report /\
    length (r_warnings report) <= 4.
Proof.
  assert (H : exists report,
             fst (validate_dataframe parse_decimal repr_ascii (world_of customers)) = Ok report)
    by (vm_compute; eexists; reflexivity).
  destruct H as [report H]. exists report. split; [exact H|].
  exact (proj2 (proj2 (proj2 (validate_dataframe_warnings parse_decimal repr_ascii
                                (world_of customers) report H)))).
Defined.

Lemma preprocess_dataset_too_few_rows_witness :
  wf_table (frame (world_of ten_rows)) = true /\
  df_nrows (frame (world_of ten_rows)) < 16 /\
  numeric (detect_column_types parse_decimal (frame (world_of ten_rows))) = [] /\
  fst (preprocess_dataset parse_decimal print_number
      exact_mean min_raises could_not_convert city_schema (world_of ten_rows))
  = Raise (mkException ValueError
             "Preprocessing failed: at least one array or dtype is required").
Proof.
  assert (Hwf : wf_table (frame (world_of ten_rows)) = true) by (vm_compute; reflexivity).
  assert (Hlt : df_nrows (frame (world_of ten_rows)) < 16) by (change (10 < 16); lia).
  split; [exact Hwf|]. split; [exact Hlt|].
  exact (preprocess_dataset_too_few_rows parse_decimal print_number
      exact_mean min_raises could_not_convert city_schema
           (world_of ten_rows) Hwf Hlt).
Defined.

Lemma preprocess_dataset_empty_column_witness :
  let notes := mkColumn "notes" DObject (repeat None 16) in
  NoDup (columns (frame (world_of blank_table))) /\
  In notes (df_cols (frame (world_of blank_table))) /\
  (forall x, In x (col_cells notes) -> x = None) /\
  exists msg,
    fst (preprocess_dataset parse_decimal print_number
        exact_mean min_raises could_not_convert city_schema (world_of blank_table))
    = Raise (mkException ValueError ("Preprocessing failed: " ++ msg)%string).
Proof.
  intros notes.
  assert (Hnd : NoDup (columns (frame (world_of blank_table))))
    by (apply distinct_names_NoDup; reflexivity).
  assert (Hc : In notes (df_cols (frame (world_of blank_table))))
    by exact (or_intror (or_introl eq_refl)).
  assert (Hmiss : forall x, In x (col_cells notes) -> x = None)
    by (intros x Hx; apply repeat_spec in Hx; exact Hx).
  split; [exact Hnd|]. split; [exact Hc|]. split; [exact Hmiss|].
  exact (preprocess_dataset_empty_column parse_decimal print_number
      exact_mean min_raises could_not_convert city_schema
           (world_of blank_table) notes Hnd Hc Hmiss).
Defined.

Lemma preprocess_dataset_failure_state_witness :
  let run := preprocess_dataset parse_decimal print_number exact_mean min_raises
                                could_not_convert city_schema in
  let nothing_selected :=
    mkException ValueError "at least one array or dtype is required" in
  snd (run (world_of text_table)) = world_of text_table /\
  NoDup (columns (frame (world_of gap_table))) /\
  fst (run (world_of gap_table)) = Raise (wrap nothing_selected) /\
  snd (run (world_of gap_table))
  = with_frame (world_of gap_table)
               (imputed_frame parse_decimal exact_mean min_raises Mean
                              (is_numeric_col parse_decimal)
                              (frame (world_of gap_table))).
Proof.
  intros run nothing_selected.
  assert (Hnd : NoDup (columns (frame (world_of gap_table))))
    by (apply distinct_names_NoDup; reflexivity).
  assert (H0 : exists cause,
             fst (impute_in_place parse_decimal exact_mean min_raises could_not_convert
                    Mean
                    (numeric (detect_column_types parse_decimal
                                (frame (world_of text_table))))
                    (world_of text_table)) = Raise cause)
    by (vm_compute; eexists; reflexivity).
  assert (H1 : exists w1,
             impute_in_place parse_decimal exact_mean min_raises could_not_convert
               Mean
               (numeric (detect_column_types parse_decimal (frame (world_of gap_table))))
               (world_of gap_table) = (Ok tt, w1) /\
             fst (impute_in_place parse_decimal exact_mean min_raises could_not_convert
                    MostFrequent
                    (categorical (detect_column_types parse_decimal
                                    (frame (world_of gap_table)))) w1)
             = Raise nothing_selected)
    by (vm_compute; eexists; split; reflexivity).
  destruct H0 as [cause H0]. destruct H1 as [w1 [H1 H2]].
  split.
  - exact (proj1 (preprocess_dataset_failure_state parse_decimal print_number exact_mean
                    min_raises could_not_convert city_schema (world_of text_table))
                 cause H0).
  - split; [exact Hnd|].
    exact (proj2 (preprocess_dataset_failure_state parse_decimal print_number exact_mean
                    min_raises could_not_convert city_schema (world_of gap_table))
                 w1 nothing_selected Hnd H1 H2).
Defined.

Lemma preprocess_dataset_fills_table_witness :
  let run := preprocess_dataset parse_decimal print_number
      exact_mean min_raises could_not_convert city_schema in
  NoDup (columns (frame (world_of survey_table))) /\
  exists out,
    fst (run (world_of survey_table)) = Ok out /\
    forall c, In c (df_cols (frame (snd (run (world_of survey_table))))) ->
              ~ In None (col_cells c).
Proof.
  intros run.
  assert (Hnd : NoDup (columns (frame (world_of survey_table))))
    by (apply distinct_names_NoDup; reflexivity).
  split; [exact Hnd|].
  assert (H : exists out, fst (run (world_of survey_table)) = Ok out)
    by (vm_compute; eexists; reflexivity).
  destruct H as [out H]. exists out. split; [exact H|].
  exact (preprocess_dataset_fills_table parse_decimal print_number
      exact_mean min_raises could_not_convert city_schema
           (world_of survey_table) out Hnd H).
Defined.

Lemma preprocess_dataset_matrix_cells_witness :
  let run := preprocess_dataset parse_decimal print_number
      exact_mean min_raises could_not_convert city_schema in
  wf_table (frame (world_of survey_table)) = true /\
  exists out,
    fst (run (world_of survey_table)) = Ok out /\
    df_nrows out = df_nrows (frame (world_of survey_table)) /\
    forall d, In d (df_cols out) ->
      forallb is_number (col_cells d) = true /\ length (col_cells d) = df_nrows out.
Proof.
  intros run.
  assert (Hwf : wf_table (frame (world_of survey_table)) = true)
    by (vm_compute; reflexivity).
  split; [exact Hwf|].
  assert (H : exists out, fst (run (world_of survey_table)) = Ok out)
    by (vm_compute; eexists; reflexivity).
  destruct H as [out H]. exists out. split; [exact H|].
  exact (preprocess_dataset_matrix_cells parse_decimal print_number
      exact_mean min_raises could_not_convert city_schema
           (world_of survey_table) out Hwf H).
Defined.

Lemma preprocess_dataset_numeric_passthrough_witness :
  let run := preprocess_dataset parse_decimal print_number exact_mean min_raises
                                could_not_convert city_schema in
  let age := mkColumn "age" DNumeric (count_up 20 16 ++ repeat None 4) in
  wf_table (frame (world_of survey_table)) = true /\
  In age (df_cols (frame (world_of survey_table))) /\
  is_numeric_dtype age = true /\
  In (col_name age)
     (numeric (detect_column_types parse_decimal (frame (world_of survey_table)))) /\
  In (col_name age) city_schema /\
  exists out m,
    fst (run (world_of survey_table)) = Ok out /\
    mean exact_mean (map float_cell (col_cells age)) = Some m /\
    In (mkColumn (col_name age) DNumeric (fillna m (map float_cell (col_cells age))))
       (df_cols out).
Proof.
  intros run age.
  assert (Hwf : wf_table (frame (world_of survey_table)) = true)
    by (vm_compute; reflexivity).
  assert (Hc : In age (df_cols (frame (world_of survey_table))))
    by exact (or_introl eq_refl).
  assert (Hd : is_numeric_dtype age = true) by reflexivity.
  assert (Hn : In (col_name age)
                  (numeric (detect_column_types parse_decimal
                              (frame (world_of survey_table)))))
    by (vm_compute; left; reflexivity).
  assert (Hs : In (col_name age) city_schema) by exact (or_introl eq_refl).
  split; [exact Hwf|]. split; [exact Hc|]. split; [exact Hd|]. split; [exact Hn|].
  split; [exact Hs|].
  assert (H : exists out, fst (run (world_of survey_table)) = Ok out)
    by (vm_compute; eexists; reflexivity).
  destruct H as [out H]. exists out.
  destruct (preprocess_dataset_numeric_passthrough parse_decimal print_number exact_mean
              min_raises could_not_convert city_schema
              (world_of survey_table) out age Hwf H Hc Hd Hn Hs) as [m [Hm [Hin _]]].
  exists m. split; [exact H|]. split; [exact Hm | exact Hin].
Defined.

Lemma preprocess_dataset_indicator_witness :
  let run := preprocess_dataset parse_decimal print_number exact_mean min_raises
                                could_not_convert city_schema in
  let city := mkColumn "city" DObject (None :: cycle [str "A"; str "C"] 19) in
  NoDup (columns (frame (world_of survey_table))) /\
  In city (df_cols (frame (world_of survey_table))) /\
  In (col_name city)
     (categorical (detect_column_types parse_decimal (frame (world_of survey_table)))) /\
  In (Some (VStr "A")) (col_cells city) /\
  In (col_name city ++ "_" ++ "A")%string city_schema /\
  exists out m,
    fst (run (world_of survey_table)) = Ok out /\
    most_frequent min_raises (col_cells city) = Ok (Some m) /\
    In (mkColumn (col_name city ++ "_" ++ "A") DNumeric
                 (map (indicator (VStr "A")) (fillna m (col_cells city))))
       (df_cols out).
Proof.
  intros run city.
  assert (Hnd : NoDup (columns (frame (world_of survey_table))))
    by (apply distinct_names_NoDup; reflexivity).
  assert (Hc : In city (df_cols (frame (world_of survey_table))))
    by exact (or_intror (or_introl eq_refl)).
  assert (Hn : In (col_name city)
                  (categorical (detect_column_types parse_decimal
                                  (frame (world_of survey_table)))))
    by (vm_compute; left; reflexivity).
  assert (Hv : In (Some (VStr "A")) (col_cells city))
    by exact (or_intror (or_introl eq_refl)).
  assert (Hs : In (col_name city ++ "_" ++ "A")%string city_schema)
    by exact (or_intror (or_introl eq_refl)).
  split; [exact Hnd|]. split; [exact Hc|]. split; [exact Hn|]. split; [exact Hv|].
  split; [exact Hs|].
  assert (H : exists out, fst (run (world_of survey_table)) = Ok out)
    by (vm_compute; eexists; reflexivity).
  destruct H as [out H]. exists out.
  destruct (preprocess_dataset_indicator parse_decimal print_number exact_mean
              min_raises could_not_convert city_schema
              (world_of survey_table) out city "A" Hnd H Hc Hn Hv Hs)
    as [m [Hm [Hin _]]].
  exists m. split; [exact H|]. split; [exact Hm | exact Hin].
Defined.

Lemma preprocess_dataset_numeric_in_place_witness :
  let run := preprocess_dataset parse_decimal print_number exact_mean min_raises
                                could_not_convert city_schema in
  let age := mkColumn "age" DNumeric (count_up 20 16 ++ repeat None 4) in
  wf_table (frame (world_of survey_table)) = true /\
  In age (df_cols (frame (world_of survey_table))) /\
  is_numeric_dtype age = true /\
  In (col_name age)
     (numeric (detect_column_types parse_decimal (frame (world_of survey_table)))) /\
  exists out m,
    fst (run (world_of survey_table)) = Ok out /\
    mean exact_mean (map float_cell (col_cells age)) = Some m /\
    In (mkColumn (col_name age) DNumeric (fillna m (map float_cell (col_cells age))))
       (df_cols (frame (snd (run (world_of survey_table))))).
Proof.
  intros run age.
  assert (Hwf : wf_table (frame (world_of survey_table)) = true)
    by (vm_compute; reflexivity).
  assert (Hc : In age (df_cols (frame (world_of survey_table))))
    by exact (or_introl eq_refl).
  assert (Hd : is_numeric_dtype age = true) by reflexivity.
  assert (Hn : In (col_name age)
                  (numeric (detect_column_types parse_decimal
                              (frame (world_of survey_table)))))
    by (vm_compute; left; reflexivity).
  split; [exact Hwf|]. split; [exact Hc|]. split; [exact Hd|]. split; [exact Hn|].
  assert (H : exists out, fst (run (world_of survey_table)) = Ok out)
    by (vm_compute; eexists; reflexivity).
  destruct H as [out H]. exists out.
  destruct (preprocess_dataset_numeric_in_place parse_decimal print_number exact_mean
              min_raises could_not_convert city_schema
              (world_of survey_table) out age Hwf H Hc Hd Hn) as [m [Hm [Hin _]]].
  exists m. split; [exact H|]. split; [exact Hm | exact Hin].
Defined.
